(** * UBIKAIS crawler: normalisation, upsert store, retry client and query facade

    A shallow embedding of the parts of the repository that the specification
    makes claims about:

    - [ubikais_database.py]: [UBIKAISDatabase] (table creation, the [save_*]
      operations and [_parse_coordinate]);
    - [docker/unified_crawler.py]: [UnifiedAviationCrawler._request_with_retry];
    - [lambda_handler.py]: [create_response], [get_db_connection],
      [handle_flights] and [handle_flight_route].

    Python values are modelled as the code has them: a [str] is a [string]
    (a sequence of characters, each an [ascii]), a [float] is a binary64
    [float] with its IEEE operations, an [int] is a [Z], a JSON document is a
    [json] tree whose objects keep their insertion order.  Code that can
    raise returns a [result]; code that also changes the store threads the
    store through.  What the interpreter and SQLite provide and the
    repository only calls ([float()], [int()], [str.upper], [json.dumps],
    SQLite's column conversions, the clocks) is gathered in the class
    [Platform]; every theorem holds for every platform, and a reference
    platform is given to run the code on concrete inputs. *)

From Stdlib Require Import ZArith String Ascii List Bool Lia.
From Stdlib Require Import Floats DecimalString.
From Stdlib Require Import Sorted Permutation.
From stdpp Require Import base option list gmap strings.

Open Scope string_scope.
Open Scope list_scope.
Open Scope Z_scope.

(** ** Exceptions and results *)

(** A Python exception: its class name and [str(e)]. *)
Record exn := Exn { exn_class : string; exn_message : string }.

Inductive result (A : Type) : Type :=
| Ok (a : A)
| Raise (e : exn).
Arguments Ok {A} a.
Arguments Raise {A} e.

#[global] Instance result_ret : MRet result := fun A a => Ok a.
#[global] Instance result_bind : MBind result := fun A B f m =>
  match m with
  | Ok a => f a
  | Raise e => Raise e
  end.

Definition is_ok {A} (m : result A) : bool :=
  match m with Ok _ => true | Raise _ => false end.

(** ** Python strings *)

Definition str_contains (c : ascii) (s : string) : bool :=
  existsb (Ascii.eqb c) (list_ascii_of_string s).

(** [s.split(sep)] for a one-character separator: every occurrence cuts,
    empty pieces are kept, and the result is never empty. *)
Fixpoint split_on (sep : ascii) (s : string) : list string :=
  match s with
  | EmptyString => [EmptyString]
  | String c s' =>
      if Ascii.eqb c sep then EmptyString :: split_on sep s'
      else match split_on sep s' with
           | p :: ps => String c p :: ps
           | [] => [String c EmptyString]
           end
  end.

Definition is_blank (c : ascii) : bool :=
  let n := nat_of_ascii c in
  ((9 <=? n)%nat && (n <=? 13)%nat) || ((28 <=? n)%nat && (n <=? 32)%nat).

Fixpoint lstrip (s : string) : string :=
  match s with
  | String c s' => if is_blank c then lstrip s' else s
  | EmptyString => EmptyString
  end.

Definition str_rev (s : string) : string :=
  string_of_list_ascii (rev (list_ascii_of_string s)).

(** [s.strip()] *)
Definition py_strip (s : string) : string :=
  str_rev (lstrip (str_rev (lstrip s))).

(** ** JSON values, as [json.loads] and the API gateway hand them over *)

#[warnings="-register-all"]
Inductive json : Type :=
| JNull
| JBool (b : bool)
| JInt (z : Z)
| JFloat (f : float)
| JStr (s : string)
| JArr (items : list json)
| JObj (fields : list (string * json)).

(** [bool(v)]: the truth value Python's [or], [not] and [if] test. *)
Definition truthy (v : json) : bool :=
  match v with
  | JNull => false
  | JBool b => b
  | JInt z => negb (z =? 0)
  | JFloat f => negb (PrimFloat.eqb f 0%float)
  | JStr s => negb (String.eqb s "")
  | JArr items => match items with [] => false | _ => true end
  | JObj fields => match fields with [] => false | _ => true end
  end.

(** [a or b] *)
Definition py_or (a b : json) : json := if truthy a then a else b.

(** A [dict] with string keys, in insertion order. *)
Definition dict := list (string * json).

(** [d.get(k)]: the value under [k], [None] when the key is missing. *)
Fixpoint dict_get (d : dict) (k : string) : json :=
  match d with
  | [] => JNull
  | (k', v) :: d' => if String.eqb k' k then v else dict_get d' k
  end.

(** [d.get(k1) or d.get(k2) or ... or d.get(kn)] *)
Fixpoint get_or (d : dict) (ks : list string) : json :=
  match ks with
  | [] => JNull
  | [k] => dict_get d k
  | k :: ks' => py_or (dict_get d k) (get_or d ks')
  end.

(** Attribute [get] of a decoded JSON value: only a [dict] has it. *)
Definition as_dict (v : json) : result dict :=
  match v with
  | JObj d => Ok d
  | _ => Raise (Exn "AttributeError" "object has no attribute 'get'")
  end.

(** ** SQLite values *)

Inductive sqlval : Type :=
| SNull
| SInt (z : Z)
| SReal (f : float)
| SText (s : string).

Inductive coltype := TEXT | INTEGER | REAL.

(** ** The platform *)

(** What the repository calls and does not define.  [py_float] and [py_int]
    answer [None] and [Raise] where Python raises. *)
Class Platform := {
  (** [float(s)] for a [str]; [None] is [ValueError]. *)
  py_float : string -> option float;
  (** [int(s)] for a [str]. *)
  py_int : string -> result Z;
  (** [s.upper()] *)
  py_upper : string -> string;
  (** [json.dumps(v, ensure_ascii=False)] *)
  json_dumps : json -> string;
  (** SQLite's text for a REAL stored in a TEXT column. *)
  sqlite_real_text : float -> string;
  (** SQLite's conversion of a non-NULL value stored in a REAL or INTEGER
      column. *)
  sqlite_numeric : coltype -> sqlval -> sqlval;
  (** [datetime.now().isoformat()] at the given clock reading. *)
  isoformat_now : nat -> string;
  (** [datetime.now().strftime("%Y-%m-%d")] at the given clock reading. *)
  today_now : nat -> string;
  (** SQLite's [CURRENT_TIMESTAMP] at the given clock reading. *)
  current_timestamp : nat -> string
}.

(** ** ubikais_database.py: [_parse_coordinate] *)

Section CoordinateParser.
Context `{Platform}.

Definition hyphen : ascii := "-"%char.

Definition part (parts : list string) (i : nat) : string := nth i parts "".

(** [_parse_coordinate(coord_str)] for a [str].  [None] is the [None] the
    function returns, also from its bare [except]. *)
Definition _parse_coordinate (coord_str : string) : option float :=
  match coord_str with
  | EmptyString => None
  | String direction rest =>
      if str_contains hyphen coord_str then
        let parts := split_on hyphen rest in
        degrees ← py_float (part parts 0);
        minutes ← (if (1 <? length parts)%nat then py_float (part parts 1)
                   else Some 0%float);
        seconds ← (if (2 <? length parts)%nat then py_float (part parts 2)
                   else Some 0%float);
        let decimal := (degrees + minutes / 60 + seconds / 3600)%float in
        Some (if (Ascii.eqb direction "S" || Ascii.eqb direction "W")%bool
              then (- decimal)%float else decimal)
      else py_float coord_str
  end.

(** The same call on whatever [dict.get] returned.  A falsy value returns
    [None] at the first test; any other value that is not a [str] raises
    inside the [try] ([in], indexing or [float] fail) and the bare
    [except] returns [None]. *)
Definition _parse_coordinate_value (v : json) : option float :=
  match v with
  | JStr s => _parse_coordinate s
  | _ => None
  end.

End CoordinateParser.

(** ** ubikais_database.py: the SQLite store *)

(** *** Tables, rows and the connection *)

Inductive coldefault := NoDefault | AutoIncrement | CurrentTimestamp.

Record column := Col { c_name : string; c_type : coltype; c_default : coldefault }.

(** A table definition: its columns in order and its UNIQUE constraints. *)
Record schema := Schema { s_columns : list column; s_unique : list (list string) }.

(** A stored row: every column of the table with its value. *)
Definition row := list (string * sqlval).

(** [t_seq] is the table's entry in [sqlite_sequence]: the largest id ever
    given out.  AUTOINCREMENT gives the next row [t_seq + 1]. *)
Record table := Table { t_schema : schema; t_rows : list row; t_seq : Z }.

(** What the code sees through [self.conn]: the tables and indexes of the
    database file, and [clock], the number of clock readings taken so far.
    One connection is used, so a row is visible as soon as it is inserted;
    [commit] does not change what the connection reads. *)
Record store := Store {
  tables : gmap string table;
  indexes : gset string;
  clock : nat
}.

Definition tick (st : store) : store :=
  Store (tables st) (indexes st) (S (clock st)).

Definition set_table (name : string) (t : table) (st : store) : store :=
  Store (<[name := t]> (tables st)) (indexes st) (clock st).

Definition commit (st : store) : store := st.

Fixpoint assoc {A} (l : list (string * A)) (k : string) : option A :=
  match l with
  | [] => None
  | (k', v) :: l' => if String.eqb k' k then Some v else assoc l' k
  end.

Definition row_get (r : row) (c : string) : sqlval :=
  match assoc r c with Some v => v | None => SNull end.

Definition is_null (v : sqlval) : bool :=
  match v with SNull => true | _ => false end.

(** *** Binding Python values and storing them *)

Definition string_of_Z (z : Z) : string := NilZero.string_of_int (Z.to_int z).

(** The sqlite3 module binds [None], [int] (a [bool] is one), [float] and
    [str]; a list or a dict is not supported, an [int] outside 64 bits
    overflows.  SQLite keeps a NaN as NULL. *)
Definition bind_param (v : json) : result sqlval :=
  match v with
  | JNull => Ok SNull
  | JBool b => Ok (SInt (if b then 1 else 0))
  | JInt z =>
      if (- 2 ^ 63 <=? z) && (z <? 2 ^ 63) then Ok (SInt z)
      else Raise (Exn "OverflowError" "Python int too large to convert to SQLite INTEGER")
  | JFloat f => Ok (if PrimFloat.is_nan f then SNull else SReal f)
  | JStr s => Ok (SText s)
  | JArr _ | JObj _ =>
      Raise (Exn "InterfaceError" "Error binding parameter - probably unsupported type.")
  end.

Fixpoint bind_params (vs : list (string * json)) : result (list (string * sqlval)) :=
  match vs with
  | [] => Ok []
  | (c, v) :: vs' =>
      b ← bind_param v;
      bs ← bind_params vs';
      Ok ((c, b) :: bs)
  end.

(** Does the REAL [f] equal the INTEGER [z]?  SQLite compares the two
    exactly. *)
Definition real_eq_int (f : float) (z : Z) : bool :=
  match Prim2SF f with
  | S754_zero _ => z =? 0
  | S754_finite s m e =>
      let mant := if s then - Z.pos m else Z.pos m in
      if 0 <=? e then z =? mant * 2 ^ e else z * 2 ^ (- e) =? mant
  | _ => false
  end.

(** SQLite's [=] on two values that are not NULL. *)
Definition sql_eqb (a b : sqlval) : bool :=
  match a, b with
  | SText s, SText t => String.eqb s t
  | SInt x, SInt y => x =? y
  | SReal f, SReal g => PrimFloat.eqb f g
  | SInt z, SReal f | SReal f, SInt z => real_eq_int f z
  | _, _ => false
  end.

Section Store.
Context `{Platform}.

(** The value a column of type [ty] keeps for the bound value [v]: NULL
    stays NULL; a TEXT column turns numbers into text. *)
Definition store_value (ty : coltype) (v : sqlval) : sqlval :=
  match v, ty with
  | SNull, _ => SNull
  | SInt z, TEXT => SText (string_of_Z z)
  | SReal f, TEXT => SText (sqlite_real_text f)
  | SText s, TEXT => SText s
  | _, _ => sqlite_numeric ty v
  end.

Definition default_value (d : coldefault) (id : Z) (ts : string) : sqlval :=
  match d with
  | NoDefault => SNull
  | AutoIncrement => SInt id
  | CurrentTimestamp => SText ts
  end.

(** The row an INSERT builds: a named column takes its parameter, any
    other column its default. *)
Definition new_row (sch : schema) (params : list (string * sqlval))
    (id : Z) (ts : string) : row :=
  map (fun c =>
         (c_name c,
          match assoc params (c_name c) with
          | Some v => store_value (c_type c) v
          | None => default_value (c_default c) id ts
          end))
      (s_columns sch).

Definition has_column (sch : schema) (c : string) : bool :=
  existsb (fun col => String.eqb (c_name col) c) (s_columns sch).

(** Two rows collide on a UNIQUE constraint when they agree on each of its
    columns and none of these values is NULL. *)
Definition collide (new old : row) (u : list string) : bool :=
  forallb (fun c =>
             negb (is_null (row_get new c)) && negb (is_null (row_get old c))
             && sql_eqb (row_get new c) (row_get old c)) u.

Definition conflicts (sch : schema) (new old : row) : bool :=
  existsb (collide new old) (s_unique sch).

(** [INSERT OR REPLACE INTO name (columns) VALUES (?, ...)] with the given
    parameters: the rows that collide with the new one are deleted, then
    the new row is added.  The statement raises when the table or a named
    column is missing or a parameter cannot be bound, and then leaves the
    store as it was. *)
Definition execute_insert_or_replace (name : string)
    (values : list (string * json)) (st : store) : result unit * store :=
  match tables st !! name with
  | None => (Raise (Exn "OperationalError" ("no such table: " +:+ name)), st)
  | Some t =>
      if negb (forallb (fun cv => has_column (t_schema t) (fst cv)) values)
      then (Raise (Exn "OperationalError" ("table " +:+ name +:+ " has no such column")), st)
      else
        match bind_params values with
        | Raise e => (Raise e, st)
        | Ok params =>
            let id := t_seq t + 1 in
            let r := new_row (t_schema t) params id (current_timestamp (clock st)) in
            let kept := List.filter (fun old => negb (conflicts (t_schema t) r old)) (t_rows t) in
            (Ok (), set_table name (Table (t_schema t) (kept ++ [r]) id) (tick st))
        end
  end.

End Store.

(** *** The table definitions of [_create_tables] *)

Definition id_col : column := Col "id" INTEGER AutoIncrement.
Definition text (c : string) : column := Col c TEXT NoDefault.
Definition real (c : string) : column := Col c REAL NoDefault.
Definition integer (c : string) : column := Col c INTEGER NoDefault.
Definition stamp (c : string) : column := Col c TEXT CurrentTimestamp.

Definition notam_fir_schema : schema :=
  Schema
    ([id_col] ++
     map text ["notam_id"; "series"; "number"; "year"; "type"; "fir"; "q_code";
               "traffic"; "purpose"; "scope"; "lower_limit"; "upper_limit";
               "coordinates"; "radius"; "location"; "valid_from"; "valid_to";
               "schedule"; "full_text"; "raw_data"] ++
     [stamp "created_at"; stamp "updated_at"])
    [["notam_id"]].

Definition notam_ad_schema : schema :=
  Schema
    ([id_col] ++
     map text ["notam_id"; "airport_icao"; "series"; "number"; "year"; "type";
               "q_code"; "traffic"; "purpose"; "scope"; "lower_limit";
               "upper_limit"; "coordinates"; "radius"; "valid_from"; "valid_to";
               "schedule"; "full_text"; "raw_data"] ++
     [stamp "created_at"; stamp "updated_at"])
    [["notam_id"; "airport_icao"]].

Definition snowtam_schema : schema :=
  Schema
    ([id_col] ++
     map text ["snowtam_id"; "airport_icao"; "observation_time"; "runway";
               "deposit_type"; "extent"; "depth"; "friction"; "contamination";
               "full_text"; "raw_data"] ++
     [stamp "created_at"; stamp "updated_at"])
    [["snowtam_id"]].

Definition prohibited_area_schema : schema :=
  Schema
    ([id_col] ++
     map text ["notam_id"; "area_name"; "area_type"; "coordinates"; "lower_limit";
               "upper_limit"; "valid_from"; "valid_to"; "remarks"; "full_text";
               "raw_data"] ++
     [stamp "created_at"; stamp "updated_at"])
    [["notam_id"]].

Definition airports_schema : schema :=
  Schema
    ([id_col] ++
     map text ["icao_code"; "iata_code"; "name"; "name_korean"; "city";
               "usage_type"; "magnetic_variation"; "magnetic_variation_year"] ++
     map real ["elevation_m"; "elevation_ft"; "geoid_undulation"] ++
     map text ["latitude"; "longitude"] ++
     map real ["latitude_decimal"; "longitude_decimal"; "tower_elevation_m"] ++
     map text ["verification_date"; "raw_data"] ++
     [stamp "created_at"; stamp "updated_at"])
    [["icao_code"]].

Definition runways_schema : schema :=
  Schema
    ([id_col] ++
     map text ["airport_icao"; "runway_id"; "direction"] ++
     map real ["length_m"; "width_m"] ++
     map text ["surface"; "strength"; "threshold_latitude"; "threshold_longitude"] ++
     map real ["threshold_elevation_m"; "displaced_threshold_m"; "stopway_m";
               "clearway_m"; "tora_m"; "toda_m"; "asda_m"; "lda_m"; "slope_percent"] ++
     map text ["lighting"; "raw_data"] ++
     [stamp "created_at"; stamp "updated_at"])
    [["airport_icao"; "runway_id"; "direction"]].

Definition aprons_schema : schema :=
  Schema
    ([id_col] ++
     map text ["airport_icao"; "apron_name"; "apron_type"; "surface"; "strength"] ++
     [real "area_sqm"; text "max_aircraft_size"; integer "stands_count"] ++
     map text ["latitude"; "longitude"; "raw_data"] ++
     [stamp "created_at"; stamp "updated_at"])
    [["airport_icao"; "apron_name"]].

Definition navaids_schema : schema :=
  Schema
    ([id_col] ++
     map text ["navaid_id"; "navaid_type"; "name"; "frequency"; "channel";
               "latitude"; "longitude"] ++
     map real ["latitude_decimal"; "longitude_decimal"; "elevation_m"] ++
     [text "magnetic_variation"; real "range_nm"] ++
     map text ["airport_icao"; "remarks"; "raw_data"] ++
     [stamp "created_at"; stamp "updated_at"])
    [["navaid_id"]].

Definition obstacles_schema : schema :=
  Schema
    ([id_col] ++
     map text ["obstacle_id"; "obstacle_type"; "name"; "latitude"; "longitude"] ++
     map real ["latitude_decimal"; "longitude_decimal"; "elevation_m"; "height_m"] ++
     map text ["lighting"; "marking"; "airport_icao"; "area_affected"; "remarks";
               "raw_data"] ++
     [stamp "created_at"; stamp "updated_at"])
    [["obstacle_id"]].

Definition flight_plans_schema : schema :=
  Schema
    ([id_col] ++
     map text ["callsign"; "flight_number"; "aircraft_type"; "registration";
               "departure_icao"; "arrival_icao"; "alternate_icao"; "departure_time";
               "arrival_time"; "eobt"; "atd"; "eta"; "ata"; "flight_rules";
               "flight_type"; "route"; "cruise_altitude"; "cruise_speed";
               "endurance"] ++
     [integer "persons_on_board"] ++
     map text ["remarks"; "status"; "direction"; "crawled_date"; "raw_data"] ++
     [stamp "created_at"; stamp "updated_at"])
    [["callsign"; "departure_time"; "crawled_date"]].

Definition metar_schema : schema :=
  Schema
    ([id_col] ++
     map text ["airport_icao"; "observation_time"; "raw_metar"] ++
     map integer ["wind_direction"; "wind_speed"; "wind_gust"; "visibility_m"] ++
     map text ["weather"; "clouds"] ++
     map integer ["temperature"; "dewpoint"; "pressure_hpa"] ++
     [text "remarks"; stamp "created_at"])
    [["airport_icao"; "observation_time"]].

Definition taf_schema : schema :=
  Schema
    ([id_col] ++
     map text ["airport_icao"; "issue_time"; "valid_from"; "valid_to"; "raw_taf"] ++
     [stamp "created_at"])
    [["airport_icao"; "issue_time"]].

Definition sigmet_schema : schema :=
  Schema
    ([id_col] ++
     map text ["sigmet_id"; "fir"; "phenomenon"; "valid_from"; "valid_to"; "area";
               "level"; "movement"; "intensity"; "raw_sigmet"] ++
     [stamp "created_at"])
    [["sigmet_id"]].

(** *** Statements and their execution *)

(** What [_create_tables] hands to [cursor.execute]: the CREATE TABLE
    statements by their content, the CREATE INDEX statements by their text. *)
Inductive statement :=
| CreateTableIfNotExists (name : string) (sch : schema)
| CreateIndexText (sql : string).

Definition ascii_upper (c : ascii) : ascii :=
  let n := nat_of_ascii c in
  if ((97 <=? n)%nat && (n <=? 122)%nat)%bool then ascii_of_nat (n - 32) else c.

Fixpoint str_upper (s : string) : string :=
  match s with
  | EmptyString => EmptyString
  | String c s' => String (ascii_upper c) (str_upper s')
  end.

Definition is_punct (c : ascii) : bool :=
  (Ascii.eqb c "(" || Ascii.eqb c ")" || Ascii.eqb c ",")%bool.

(** The tokens of a statement: blanks separate, a parenthesis or a comma is
    a token of its own.  [cur] is the token being read, reversed. *)
Fixpoint sql_tokens_from (cur : list ascii) (s : string) : list string :=
  let flush := match cur with
               | [] => []
               | _ => [string_of_list_ascii (rev cur)]
               end in
  match s with
  | EmptyString => flush
  | String c s' =>
      if is_blank c then flush ++ sql_tokens_from [] s'
      else if is_punct c then flush ++ [String c EmptyString] ++ sql_tokens_from [] s'
      else sql_tokens_from (c :: cur) s'
  end.

Definition sql_tokens (s : string) : list string := sql_tokens_from [] s.

(** A keyword, in any case. *)
Definition kw (k tok : string) : bool := String.eqb (str_upper tok) k.

(** [col, col, ... )] *)
Fixpoint parse_index_columns (toks : list string) : option (list string) :=
  match toks with
  | c :: ")" :: [] => Some [c]
  | c :: "," :: rest => cs ← parse_index_columns rest; Some (c :: cs)
  | _ => None
  end.

Record create_index := CreateIndex {
  ci_if_not_exists : bool;
  ci_name : string;
  ci_table : string;
  ci_columns : list string
}.

(** [name ON table ( columns )] *)
Definition parse_index_target (ine : bool) (toks : list string) : option create_index :=
  match toks with
  | name :: on :: tbl :: "(" :: rest =>
      if kw "ON" on then
        cols ← parse_index_columns rest; Some (CreateIndex ine name tbl cols)
      else None
  | _ => None
  end.

(** SQLite's grammar of the statement:
    [CREATE INDEX [IF NOT EXISTS] name ON table ( column, ... )].
    [None] is a syntax error. *)
Definition parse_create_index (sql : string) : option create_index :=
  match sql_tokens sql with
  | create :: index :: rest =>
      if (kw "CREATE" create && kw "INDEX" index)%bool then
        match rest with
        | i :: n :: e :: rest' =>
            if (kw "IF" i && kw "NOT" n && kw "EXISTS" e)%bool
            then parse_index_target true rest'
            else parse_index_target false rest
        | _ => parse_index_target false rest
        end
      else None
  | _ => None
  end.

Definition syntax_error : exn := Exn "OperationalError" "syntax error".

(** [cursor.execute(statement)] *)
Definition execute (s : statement) (st : store) : result store :=
  match s with
  | CreateTableIfNotExists name sch =>
      match tables st !! name with
      | Some _ => Ok st
      | None => Ok (set_table name (Table sch [] 0) st)
      end
  | CreateIndexText sql =>
      match parse_create_index sql with
      | None => Raise syntax_error
      | Some ci =>
          match tables st !! ci_table ci with
          | None => Raise (Exn "OperationalError" ("no such table: " +:+ ci_table ci))
          | Some t =>
              if negb (forallb (fun c => existsb (fun col => String.eqb (c_name col) c)
                                           (s_columns (t_schema t))) (ci_columns ci))
              then Raise (Exn "OperationalError" "no such column")
              else if decide (ci_name ci ∈ indexes st) then
                if ci_if_not_exists ci then Ok st
                else Raise (Exn "OperationalError" ("index " +:+ ci_name ci +:+ " already exists"))
              else Ok (Store (tables st) ({[ ci_name ci ]} ∪ indexes st) (clock st))
          end
      end
  end.

(** Statements run in order; the first that raises ends the run. *)
Fixpoint execute_all (ss : list statement) (st : store) : result store :=
  match ss with
  | [] => Ok st
  | s :: ss' => st' ← execute s st; execute_all ss' st'
  end.

(** The statements of [_create_tables], in the order they are executed. *)
Definition create_tables_statements : list statement :=
  [ CreateTableIfNotExists "notam_fir" notam_fir_schema;
    CreateTableIfNotExists "notam_ad" notam_ad_schema;
    CreateTableIfNotExists "snowtam" snowtam_schema;
    CreateTableIfNotExists "prohibited_area" prohibited_area_schema;
    CreateTableIfNotExists "airports" airports_schema;
    CreateTableIfNotExists "runways" runways_schema;
    CreateTableIfNotExists "aprons" aprons_schema;
    CreateTableIfNotExists "navaids" navaids_schema;
    CreateTableIfNotExists "obstacles" obstacles_schema;
    CreateTableIfNotExists "flight_plans" flight_plans_schema;
    CreateTableIfNotExists "metar" metar_schema;
    CreateTableIfNotExists "taf" taf_schema;
    CreateTableIfNotExists "sigmet" sigmet_schema;
    CreateIndexText "CREATE INDEX IF NOT EXISTS idx_notam_fir_valid FROM notam_fir(valid_from)";
    CreateIndexText "CREATE INDEX IF NOT EXISTS idx_notam_ad_airport ON notam_ad(airport_icao)";
    CreateIndexText "CREATE INDEX IF NOT EXISTS idx_runways_airport ON runways(airport_icao)";
    CreateIndexText "CREATE INDEX IF NOT EXISTS idx_navaids_airport ON navaids(airport_icao)";
    CreateIndexText "CREATE INDEX IF NOT EXISTS idx_flight_plans_date ON flight_plans(crawled_date)";
    CreateIndexText "CREATE INDEX IF NOT EXISTS idx_metar_airport ON metar(airport_icao)" ].

(** [_create_tables]: the statements, then [commit]. *)
Definition _create_tables (st : store) : result store :=
  st' ← execute_all create_tables_statements st;
  Ok (commit st').

(** [os.path.dirname] *)
Definition slash : ascii := "/"%char.

Fixpoint rstrip_slashes_rev (l : list ascii) : list ascii :=
  match l with
  | c :: l' => if Ascii.eqb c slash then rstrip_slashes_rev l' else l
  | [] => []
  end.

Fixpoint drop_until_slash (l : list ascii) : list ascii :=
  match l with
  | c :: l' => if Ascii.eqb c slash then l else drop_until_slash l'
  | [] => []
  end.

Definition dirname (p : string) : string :=
  let head_rev := drop_until_slash (rev (list_ascii_of_string p)) in
  if forallb (Ascii.eqb slash) head_rev then string_of_list_ascii (rev head_rev)
  else string_of_list_ascii (rev (rstrip_slashes_rev head_rev)).

(** The file system and the SQLite library as the constructor meets them:
    [os.makedirs(path, exist_ok=True)] and [sqlite3.connect(path)], each
    returning or raising. *)
Record environment := Environment {
  makedirs : string -> result unit;
  connect : string -> result store
}.

(** [_init_database] *)
Definition _init_database (env : environment) (db_path : string) : result store :=
  conn ← connect env db_path;
  _create_tables conn.

(** [UBIKAISDatabase.__init__(db_path)]: the store of the new object, or the
    exception that leaves the constructor. *)
Definition UBIKAISDatabase_init (env : environment) (db_path : string) : result store :=
  _ ← makedirs env (dirname db_path);
  _init_database env db_path.

(** *** The [save_*] operations *)

(** Where a parameter of an INSERT comes from. *)
Inductive source :=
| Get (keys : list string)                    (** [rec.get(k1) or rec.get(k2) or ...] *)
| GetOrText (keys : list string) (lit : string) (** [rec.get(k) or 'lit'] *)
| ArgOrGet (arg : json) (keys : list string)  (** [arg or rec.get(k1) or ...] *)
| Arg (v : json)                              (** an argument or a local of the method *)
| Coordinate (keys : list string)             (** [self._parse_coordinate(rec.get(k1) or ...)] *)
| RawData                                     (** [json.dumps(rec, ensure_ascii=False)] *)
| Now.                                        (** [datetime.now().isoformat()] *)

Definition is_now (s : source) : bool :=
  match s with Now => true | _ => false end.

Definition notam_id_keys : list string := ["notamId"; "notamNo"; "id"].
Definition snowtam_id_keys : list string := ["snowtamId"; "id"].

Definition notam_fir_columns : list (string * source) :=
  [ ("notam_id", Get notam_id_keys);
    ("series", Get ["series"]);
    ("number", Get ["number"]);
    ("year", Get ["year"]);
    ("type", Get ["type"; "notamType"]);
    ("fir", GetOrText ["fir"] "RKRR");
    ("q_code", Get ["qCode"]);
    ("traffic", Get ["traffic"]);
    ("purpose", Get ["purpose"]);
    ("scope", Get ["scope"]);
    ("lower_limit", Get ["lowerLimit"; "flLower"]);
    ("upper_limit", Get ["upperLimit"; "flUpper"]);
    ("coordinates", Get ["coordinates"; "coord"]);
    ("radius", Get ["radius"]);
    ("location", Get ["location"; "ad"]);
    ("valid_from", Get ["validFrom"; "fromDt"]);
    ("valid_to", Get ["validTo"; "toDt"]);
    ("schedule", Get ["schedule"]);
    ("full_text", Get ["fullText"; "notamText"; "eText"]);
    ("raw_data", RawData);
    ("updated_at", Now) ].

Definition notam_ad_columns (airport_icao : json) : list (string * source) :=
  [ ("notam_id", Get notam_id_keys);
    ("airport_icao", ArgOrGet airport_icao ["ad"; "airport"]);
    ("series", Get ["series"]);
    ("number", Get ["number"]);
    ("year", Get ["year"]);
    ("type", Get ["type"; "notamType"]);
    ("q_code", Get ["qCode"]);
    ("traffic", Get ["traffic"]);
    ("purpose", Get ["purpose"]);
    ("scope", Get ["scope"]);
    ("lower_limit", Get ["lowerLimit"; "flLower"]);
    ("upper_limit", Get ["upperLimit"; "flUpper"]);
    ("coordinates", Get ["coordinates"; "coord"]);
    ("radius", Get ["radius"]);
    ("valid_from", Get ["validFrom"; "fromDt"]);
    ("valid_to", Get ["validTo"; "toDt"]);
    ("schedule", Get ["schedule"]);
    ("full_text", Get ["fullText"; "notamText"; "eText"]);
    ("raw_data", RawData);
    ("updated_at", Now) ].

Definition snowtam_columns : list (string * source) :=
  [ ("snowtam_id", Get snowtam_id_keys);
    ("airport_icao", Get ["ad"; "airport"]);
    ("observation_time", Get ["obsTime"]);
    ("runway", Get ["runway"]);
    ("deposit_type", Get ["depositType"]);
    ("extent", Get ["extent"]);
    ("depth", Get ["depth"]);
    ("friction", Get ["friction"]);
    ("contamination", Get ["contamination"]);
    ("full_text", Get ["fullText"; "snowtamText"]);
    ("raw_data", RawData);
    ("updated_at", Now) ].

Definition airports_columns : list (string * source) :=
  [ ("icao_code", Get ["icao"; "icaoCode"]);
    ("iata_code", Get ["iata"]);
    ("name", Get ["name"; "apName"]);
    ("name_korean", Get ["nameKo"]);
    ("city", Get ["city"; "cityName"]);
    ("usage_type", Get ["usage"; "usageType"]);
    ("magnetic_variation", Get ["magVar"; "magneticVariation"]);
    ("magnetic_variation_year", Get ["magVarYear"]);
    ("elevation_m", Get ["elevation"; "elevM"]);
    ("elevation_ft", Get ["elevationFt"]);
    ("geoid_undulation", Get ["geoidUndulation"]);
    ("latitude", Get ["latitude"; "lat"]);
    ("longitude", Get ["longitude"; "lon"]);
    ("latitude_decimal", Coordinate ["latitude"; "lat"]);
    ("longitude_decimal", Coordinate ["longitude"; "lon"]);
    ("tower_elevation_m", Get ["towerElev"]);
    ("verification_date", Get ["verificationDate"; "verDt"]);
    ("raw_data", RawData);
    ("updated_at", Now) ].

Definition runways_columns (airport_icao : json) : list (string * source) :=
  [ ("airport_icao", Arg airport_icao);
    ("runway_id", Get ["rwyId"; "runwayId"]);
    ("direction", Get ["direction"; "rwyDir"]);
    ("length_m", Get ["length"; "lengthM"]);
    ("width_m", Get ["width"; "widthM"]);
    ("surface", Get ["surface"; "surfaceType"]);
    ("strength", Get ["strength"; "pcn"]);
    ("threshold_latitude", Get ["thrLat"]);
    ("threshold_longitude", Get ["thrLon"]);
    ("threshold_elevation_m", Get ["thrElev"]);
    ("displaced_threshold_m", Get ["displacedThr"]);
    ("stopway_m", Get ["stopway"]);
    ("clearway_m", Get ["clearway"]);
    ("tora_m", Get ["tora"]);
    ("toda_m", Get ["toda"]);
    ("asda_m", Get ["asda"]);
    ("lda_m", Get ["lda"]);
    ("slope_percent", Get ["slope"]);
    ("lighting", Get ["lighting"]);
    ("raw_data", RawData);
    ("updated_at", Now) ].

Definition navaids_columns : list (string * source) :=
  [ ("navaid_id", Get ["navaidId"; "id"]);
    ("navaid_type", Get ["type"; "navaidType"]);
    ("name", Get ["name"]);
    ("frequency", Get ["frequency"; "freq"]);
    ("channel", Get ["channel"]);
    ("latitude", Get ["latitude"; "lat"]);
    ("longitude", Get ["longitude"; "lon"]);
    ("latitude_decimal", Coordinate ["latitude"; "lat"]);
    ("longitude_decimal", Coordinate ["longitude"; "lon"]);
    ("elevation_m", Get ["elevation"; "elev"]);
    ("magnetic_variation", Get ["magVar"]);
    ("range_nm", Get ["range"]);
    ("airport_icao", Get ["airport"; "ad"]);
    ("remarks", Get ["remarks"]);
    ("raw_data", RawData);
    ("updated_at", Now) ].

Definition obstacles_columns : list (string * source) :=
  [ ("obstacle_id", Get ["obstId"; "id"]);
    ("obstacle_type", Get ["type"; "obstType"]);
    ("name", Get ["name"]);
    ("latitude", Get ["latitude"; "lat"]);
    ("longitude", Get ["longitude"; "lon"]);
    ("latitude_decimal", Coordinate ["latitude"; "lat"]);
    ("longitude_decimal", Coordinate ["longitude"; "lon"]);
    ("elevation_m", Get ["elevation"; "elev"]);
    ("height_m", Get ["height"]);
    ("lighting", Get ["lighting"]);
    ("marking", Get ["marking"]);
    ("airport_icao", Get ["airport"; "ad"]);
    ("area_affected", Get ["areaAffected"]);
    ("remarks", Get ["remarks"]);
    ("raw_data", RawData);
    ("updated_at", Now) ].

Definition flight_plans_columns (direction today : json) : list (string * source) :=
  [ ("callsign", Get ["callsign"; "acid"; "fltNo"]);
    ("flight_number", Get ["flightNumber"; "fltNo"]);
    ("aircraft_type", Get ["aircraftType"; "acType"]);
    ("registration", Get ["registration"; "reg"]);
    ("departure_icao", Get ["departure"; "depAd"; "adep"]);
    ("arrival_icao", Get ["arrival"; "arrAd"; "ades"]);
    ("alternate_icao", Get ["alternate"; "altnAd"]);
    ("departure_time", Get ["eobt"; "std"; "depTime"]);
    ("arrival_time", Get ["sta"; "arrTime"]);
    ("eobt", Get ["eobt"]);
    ("atd", Get ["atd"]);
    ("eta", Get ["eta"]);
    ("ata", Get ["ata"]);
    ("flight_rules", Get ["flightRules"; "fltRules"]);
    ("flight_type", Get ["flightType"; "fltType"]);
    ("route", Get ["route"]);
    ("cruise_altitude", Get ["cruiseAlt"; "rfl"]);
    ("cruise_speed", Get ["cruiseSpeed"; "speed"]);
    ("endurance", Get ["endurance"; "eet"]);
    ("persons_on_board", Get ["pob"]);
    ("remarks", Get ["remarks"; "rmk"]);
    ("status", Get ["status"]);
    ("direction", Arg direction);
    ("crawled_date", Arg today);
    ("raw_data", RawData);
    ("updated_at", Now) ].

Definition metar_columns : list (string * source) :=
  [ ("airport_icao", Get ["airport"; "ad"]);
    ("observation_time", Get ["obsTime"; "time"]);
    ("raw_metar", Get ["rawMetar"; "metar"; "orgMsg"]);
    ("wind_direction", Get ["windDir"]);
    ("wind_speed", Get ["windSpeed"; "ws"]);
    ("wind_gust", Get ["windGust"]);
    ("visibility_m", Get ["visibility"; "vis"]);
    ("weather", Get ["weather"]);
    ("clouds", Get ["clouds"]);
    ("temperature", Get ["temperature"; "temp"]);
    ("dewpoint", Get ["dewpoint"; "dp"]);
    ("pressure_hpa", Get ["pressure"; "qnh"]);
    ("remarks", Get ["remarks"]) ].

Section Savers.
Context `{Platform}.

(** The Python value of one parameter, for the record [d]; [now] is what
    [datetime.now().isoformat()] returns for this statement. *)
Definition eval_source (d : dict) (now : string) (s : source) : json :=
  match s with
  | Get keys => get_or d keys
  | GetOrText keys lit => py_or (get_or d keys) (JStr lit)
  | ArgOrGet arg keys => py_or arg (get_or d keys)
  | Arg v => v
  | Coordinate keys =>
      match _parse_coordinate_value (get_or d keys) with
      | Some f => JFloat f
      | None => JNull
      end
  | RawData => JStr (json_dumps (JObj d))
  | Now => JStr now
  end.

(** The parameter tuple of the INSERT, column by column. *)
Definition parameters (cols : list (string * source)) (d : dict) (now : string)
  : list (string * json) :=
  map (fun cs => (fst cs, eval_source d now (snd cs))) cols.

(** The parameters are computed (reading the clock when one of them is
    [Now]) and the INSERT OR REPLACE is executed. *)
Definition insert_record (name : string) (cols : list (string * source))
    (d : dict) (st : store) : result unit * store :=
  let st1 := if existsb (fun cs => is_now (snd cs)) cols then tick st else st in
  execute_insert_or_replace name (parameters cols d (isoformat_now (clock st))) st1.

(** The loop of a batch save:
    [for x in items: try: body(x); count += 1 / except Exception: warn].
    A body returns [Ok true] after its insert, [Ok false] on [continue]. *)
Fixpoint for_each (body : json -> store -> result bool * store)
    (items : list json) (st : store) (count : Z) : store * Z :=
  match items with
  | [] => (st, count)
  | x :: items' =>
      match body x st with
      | (Ok true, st') => for_each body items' st' (count + 1)
      | (Ok false, st') => for_each body items' st' count
      | (Raise _, st') => for_each body items' st' count
      end
  end.

(** [if not items: return 0], the loop, [commit], [return count]. *)
Definition save_batch (body : json -> store -> result bool * store)
    (items : list json) (st : store) : Z * store :=
  match items with
  | [] => (0, st)
  | _ => let '(st', count) := for_each body items st 0 in (count, commit st')
  end.

(** The body of a batch loop: the id is resolved, a record without one is
    passed over, any other is inserted. *)
Definition batch_body (id_keys : list string) (name : string)
    (cols : list (string * source)) (rec : json) (st : store)
  : result bool * store :=
  match as_dict rec with
  | Raise e => (Raise e, st)
  | Ok d =>
      if negb (truthy (get_or d id_keys)) then (Ok false, st)
      else match insert_record name cols d st with
           | (Ok _, st') => (Ok true, st')
           | (Raise e, st') => (Raise e, st')
           end
  end.

Definition save_notam_fir (notam_list : list json) (st : store) : Z * store :=
  save_batch (batch_body notam_id_keys "notam_fir" notam_fir_columns) notam_list st.

Definition save_notam_ad (notam_list : list json) (airport_icao : json)
    (st : store) : Z * store :=
  save_batch (batch_body notam_id_keys "notam_ad" (notam_ad_columns airport_icao))
             notam_list st.

Definition save_snowtam (snowtam_list : list json) (st : store) : Z * store :=
  save_batch (batch_body snowtam_id_keys "snowtam" snowtam_columns) snowtam_list st.

(** A save of one record:
    [try: execute(...); commit(); return True / except Exception: return False]. *)
Definition save_one (name : string) (cols : list (string * source))
    (rec : json) (st : store) : bool * store :=
  match as_dict rec with
  | Raise _ => (false, st)
  | Ok d =>
      match insert_record name cols d st with
      | (Ok _, st') => (true, commit st')
      | (Raise _, st') => (false, st')
      end
  end.

Definition save_airport (airport_data : json) (st : store) : bool * store :=
  save_one "airports" airports_columns airport_data st.

Definition save_runway (runway_data : json) (airport_icao : json) (st : store)
  : bool * store :=
  save_one "runways" (runways_columns airport_icao) runway_data st.

Definition save_navaid (navaid_data : json) (st : store) : bool * store :=
  save_one "navaids" navaids_columns navaid_data st.

Definition save_obstacle (obstacle_data : json) (st : store) : bool * store :=
  save_one "obstacles" obstacles_columns obstacle_data st.

(** [today] is read from the clock before the [try]. *)
Definition save_flight_plan (fpl_data : json) (direction : string) (st : store)
  : bool * store :=
  let today := today_now (clock st) in
  save_one "flight_plans" (flight_plans_columns (JStr direction) (JStr today))
           fpl_data (tick st).

Definition save_metar (metar_data : json) (st : store) : bool * store :=
  save_one "metar" metar_columns metar_data st.

End Savers.

(** ** docker/unified_crawler.py: [_request_with_retry] *)

(** [float(n)] for an [int]: the nearest binary64, ties to even. *)
Definition float_of_Z (z : Z) : float :=
  SF2Prim (binary_normalize prec emax z 0 false).

(** The fields of [Config] the request loop reads. *)
Record Config := {
  request_timeout : Z;
  retry_count : Z;
  retry_delay : float
}.

Definition default_config : Config :=
  {| request_timeout := 30; retry_count := 3; retry_delay := 1%float |}.

Record response := Response { status_code : Z; content : string }.

(** What one call of [session.get] does: it returns a response or raises. *)
Inductive get_outcome :=
| Returns (resp : response)
| Fails (e : exn).

(** What a call of [_request_with_retry] leaves behind: the value returned,
    the arguments of its [time.sleep] calls in order, and the number of
    [session.get] calls made. *)
Record retry_run := RetryRun {
  returned : option response;
  sleeps : list float;
  attempts : nat
}.

(** The loop [for attempt in range(retry_count)], entered at [attempt] with
    [remaining] rounds to go.  [session_get attempt] is the outcome of the
    [session.get] call of round [attempt]. *)
Fixpoint retry_loop (cfg : Config) (session_get : nat -> get_outcome)
    (remaining attempt : nat) (slept : list float) : retry_run :=
  match remaining with
  | O => RetryRun None slept attempt
  | S remaining' =>
      match session_get attempt with
      | Returns resp =>
          if status_code resp =? 200 then RetryRun (Some resp) slept (S attempt)
          else retry_loop cfg session_get remaining' (S attempt) slept
      | Fails _ =>
          if Z.of_nat attempt <? retry_count cfg - 1
          then retry_loop cfg session_get remaining' (S attempt)
                 (slept ++ [(retry_delay cfg * float_of_Z (Z.of_nat attempt + 1))%float])
          else retry_loop cfg session_get remaining' (S attempt) slept
      end
  end.

(** [_request_with_retry(url, params, timeout)].  The outcomes of the
    [session.get] calls for this url and these parameters are given by
    [session_get]. *)
Definition _request_with_retry (cfg : Config) (session_get : nat -> get_outcome)
  : retry_run :=
  retry_loop cfg session_get (Z.to_nat (retry_count cfg)) 0 [].

(** ** lambda_handler.py *)

(** A row as a query returns it: the column names with their values. *)
Definition result_row := list (string * sqlval).

(** An open connection: whether [row_factory] was set to [sqlite3.Row], and
    what [cursor.execute(sql, parameters)] followed by a fetch of all rows
    gives: the rows in order, or the exception SQLite raises. *)
Record connection := Connection {
  row_factory : bool;
  run_query : string -> list sqlval -> result (list result_row)
}.

(** What the handlers find around them. *)
Record lambda_world := LambdaWorld {
  (** [os.path.exists(DB_PATH)] *)
  db_file_exists : bool;
  (** the [boto3] download of the database file *)
  s3_download : result unit;
  (** [sqlite3.connect(DB_PATH)] *)
  connect_tmp : result (string -> list sqlval -> result (list result_row));
  (** [sqlite3.connect('ubikais_full.db')] *)
  connect_local : result (string -> list sqlval -> result (list result_row));
  (** [os.environ.get('CORS_ALLOWED_ORIGINS', '')] *)
  cors_allowed_origins : string
}.

Record http_response := HttpResponse {
  statusCode : Z;
  headers : list (string * string);
  body : string
}.

Definition ALLOWED_ORIGINS : list string :=
  [ "https://rkpu-viewer.vercel.app";
    "https://tbas.vercel.app";
    "http://localhost:5173";
    "http://localhost:3000" ].

Definition json_of_sql (v : sqlval) : json :=
  match v with
  | SNull => JNull
  | SInt z => JInt z
  | SReal f => JFloat f
  | SText s => JStr s
  end.

(** The truth value of [params.get(k)]. *)
Definition given (o : option string) : bool :=
  match o with
  | Some s => negb (String.eqb s "")
  | None => false
  end.

Section Facade.
Context `{Platform}.

(** [get_db_connection()] *)
Definition get_db_connection (w : lambda_world) : result connection :=
  if negb (db_file_exists w) then
    match s3_download w with
    | Raise _ => run ← connect_local w; Ok (Connection false run)
    | Ok _ => run ← connect_tmp w; Ok (Connection true run)
    end
  else run ← connect_tmp w; Ok (Connection true run).

(** [dict_from_row(row)]: [row.keys()] exists only on a [sqlite3.Row]. *)
Definition dict_from_row (conn : connection) (r : result_row) : result json :=
  if row_factory conn
  then Ok (JObj (map (fun cv => (fst cv, json_of_sql (snd cv))) r))
  else Raise (Exn "AttributeError" "'tuple' object has no attribute 'keys'").

Fixpoint dicts_from_rows (conn : connection) (rows : list result_row)
  : result (list json) :=
  match rows with
  | [] => Ok []
  | r :: rows' =>
      d ← dict_from_row conn r;
      ds ← dicts_from_rows conn rows';
      Ok (d :: ds)
  end.

(** [create_response(status_code, body, origin)] *)
Definition create_response (w : lambda_world) (status : Z) (payload : json)
    (origin : option string) : http_response :=
  let extra_origins := split_on "," (cors_allowed_origins w) in
  let allowed :=
    (ALLOWED_ORIGINS ++
     map py_strip (List.filter (fun o => negb (String.eqb (py_strip o) "")) extra_origins))%list in
  let cors_origin :=
    match origin with
    | Some o => if (given origin && existsb (String.eqb o) allowed)%bool
                then Some o else None
    | None => None
    end in
  HttpResponse status
    ([ ("Content-Type", "application/json");
       ("Access-Control-Allow-Methods", "GET, POST, OPTIONS");
       ("Access-Control-Allow-Headers", "Content-Type");
       ("X-Content-Type-Options", "nosniff") ] ++
     match cors_origin with
     | Some o => [("Access-Control-Allow-Origin", o)]
     | None => []
     end)%list
    (json_dumps payload).

(** [{'status': 'error', 'message': str(e)}] *)
Definition error_body (message : string) : json :=
  JObj [("status", JStr "error"); ("message", JStr message)].

(** [except Exception as e: return create_response(500, ...)] *)
Definition or_500 (w : lambda_world) (r : result http_response) : http_response :=
  match r with
  | Ok resp => resp
  | Raise e => create_response w 500 (error_body (exn_message e)) None
  end.

(** [int(params.get('limit', default))] *)
Definition int_param (params : gmap string string) (k : string) (default : Z)
  : result Z :=
  match params !! k with
  | Some s => py_int s
  | None => Ok default
  end.

(** [handle_flights(params)] *)
Definition handle_flights (w : lambda_world) (params : gmap string string)
  : http_response :=
  or_500 w (
    conn ← get_db_connection w;
    let plan_type := params !! "type" in
    limit ← int_param params "limit" 100;
    let query := "SELECT * FROM flight_plans WHERE 1=1" in
    let '(query, query_params) :=
      if given plan_type
      then (query +:+ " AND plan_type = ?", [JStr (default "" plan_type)])
      else (query, []) in
    let query := query +:+ " ORDER BY created_at DESC LIMIT ?" in
    bound ← bind_params (map (fun v => ("?", v)) (query_params ++ [JInt limit])%list);
    rows ← run_query conn query (map snd bound);
    flights ← dicts_from_rows conn rows;
    Ok (create_response w 200
          (JObj [("status", JStr "success");
                 ("data", JObj [("count", JInt (Z.of_nat (length flights)));
                                ("flights", JArr flights)])])
          None)).

Definition route_by_callsign : string :=
  "SELECT * FROM flight_plans WHERE UPPER(flight_number) LIKE ? ORDER BY created_at DESC LIMIT 1".

Definition route_by_registration : string :=
  "SELECT * FROM flight_plans WHERE UPPER(registration) = ? ORDER BY created_at DESC LIMIT 1".

(** [cursor.execute(sql, (p,))], [cursor.fetchone()], and
    [dict_from_row] of the row when there is one. *)
Definition fetch_flight (conn : connection) (sql : string) (p : string)
  : result (option json) :=
  rows ← run_query conn sql [SText p];
  match rows with
  | [] => Ok None
  | r :: _ => d ← dict_from_row conn r; Ok (Some d)
  end.

Definition flight_field (flight : json) (k : string) : json :=
  match flight with
  | JObj d => dict_get d k
  | _ => JNull
  end.

(** [handle_flight_route(params)] *)
Definition handle_flight_route (w : lambda_world) (params : gmap string string)
  : http_response :=
  let callsign := params !! "callsign" in
  let reg := params !! "reg" in
  if (negb (given callsign) && negb (given reg))%bool then
    create_response w 400
      (JObj [("status", JStr "error"); ("message", JStr "callsign or reg required")])
      None
  else
    or_500 w (
      conn ← get_db_connection w;
      flight ← (if given callsign
                then fetch_flight conn route_by_callsign
                       ("%" +:+ py_upper (default "" callsign) +:+ "%")
                else Ok None);
      flight ← (match flight with
                | Some f => Ok (Some f)
                | None =>
                    if given reg
                    then fetch_flight conn route_by_registration
                           (py_upper (default "" reg))
                    else Ok None
                end);
      match flight with
      | Some f =>
          Ok (create_response w 200
                (JObj [("source", JStr "ubikais");
                       ("callsign", flight_field f "flight_number");
                       ("origin", JObj [("icao", flight_field f "origin")]);
                       ("destination", JObj [("icao", flight_field f "destination")]);
                       ("aircraft",
                        JObj [("type", flight_field f "aircraft_type");
                              ("registration", flight_field f "registration")]);
                       ("status", flight_field f "status")])
                None)
      | None =>
          Ok (create_response w 200
                (JObj [("source", JNull); ("origin", JNull); ("destination", JNull)])
                None)
      end).

End Facade.

(** ** lambda_handler.py: the other handlers and the router *)

(** The event of an API Gateway proxy integration, as far as [handler]
    reads it.  A field is [None] when the key is missing; API Gateway sends
    null for an empty map of query parameters or headers, and strings for
    the values of both maps. *)
Record api_event := ApiEvent {
  httpMethod : option string;
  path : option string;
  queryStringParameters : option (gmap string string);
  request_headers : option (gmap string string)
}.

(** [a or b] for two results of [dict.get] on a map of strings. *)
Definition or_else (a b : option string) : option string :=
  if given a then a else b.

Section Handlers.
Context `{Platform}.

(** [row[k]]: a [sqlite3.Row] is indexed by column name, a plain tuple is
    not. *)
Definition row_item (conn : connection) (r : result_row) (k : string) : result json :=
  if row_factory conn then
    match assoc r k with
    | Some v => Ok (json_of_sql v)
    | None => Raise (Exn "IndexError" "No item with that key")
    end
  else Raise (Exn "TypeError" "tuple indices must be integers or slices, not str").

(** [handle_index()] *)
Definition handle_index (w : lambda_world) : http_response :=
  create_response w 200
    (JObj [("name", JStr "UBIKAIS API");
           ("version", JStr "1.0.0");
           ("description", JStr "Korean Aviation Data API");
           ("endpoints",
            JArr (map JStr
                    [ "GET /api/flights";
                      "GET /api/flights/departures";
                      "GET /api/flights/arrivals";
                      "GET /api/flights/search?flight=KAL123";
                      "GET /api/flights/route?callsign=KAL123";
                      "GET /api/weather?type=metar";
                      "GET /api/weather/metar/{airport}";
                      "GET /api/notam";
                      "GET /api/notam/{location}";
                      "GET /api/airports";
                      "GET /api/status" ]))])
    None.

(** The inner [try] of [handle_status]: the count of one table, 0 when the
    query, the fetch or the indexing raises. *)
Definition table_count (conn : connection) (table : string) : json :=
  match run_query conn ("SELECT COUNT(" +:+ "*) as count FROM " +:+ table) [] with
  | Ok (r :: _) =>
      match row_item conn r "count" with
      | Ok v => v
      | Raise _ => JInt 0
      end
  | Ok [] => JInt 0
  | Raise _ => JInt 0
  end.

(** [handle_status()] *)
Definition handle_status (w : lambda_world) : http_response :=
  match
    conn ← get_db_connection w;
    rows ← run_query conn "SELECT MAX(crawl_timestamp) as last_crawl FROM crawl_logs" [];
    let last_crawl := head rows in
    let counts :=
      map (fun table => (table, table_count conn table))
          ["flight_plans"; "weather"; "notams"] in
    last ← match last_crawl with
           | Some r => row_item conn r "last_crawl"
           | None => Ok JNull
           end;
    Ok (create_response w 200
          (JObj [("status", JStr "success");
                 ("data", JObj [("status", JStr "online");
                                ("last_crawl", last);
                                ("records", JObj counts)])])
          None)
  with
  | Ok resp => resp
  | Raise e =>
      create_response w 200
        (JObj [("status", JStr "success");
               ("data", JObj [("status", JStr "online");
                              ("message", JStr (exn_message e))])])
        None
  end.

(** The common shape of [handle_departures] and [handle_arrivals]: the
    fixed query, the optional [airport] filter on [column], the order and
    the limit; [key] names the list in the answer. *)
Definition handle_direction (w : lambda_world) (params : gmap string string)
    (plan_type column order key : string) : http_response :=
  or_500 w (
    conn ← get_db_connection w;
    let airport := params !! "airport" in
    limit ← int_param params "limit" 100;
    let query := "SELECT * FROM flight_plans WHERE plan_type = '" +:+ plan_type +:+ "'" in
    let '(query, query_params) :=
      if given airport
      then (query +:+ " AND " +:+ column +:+ " LIKE ?",
            [JStr ("%" +:+ default "" airport +:+ "%")])
      else (query, []) in
    let query := query +:+ " ORDER BY " +:+ order +:+ " DESC LIMIT ?" in
    bound ← bind_params (map (fun v => ("?", v)) (query_params ++ [JInt limit])%list);
    rows ← run_query conn query (map snd bound);
    flights ← dicts_from_rows conn rows;
    Ok (create_response w 200
          (JObj [("status", JStr "success");
                 ("data", JObj [("count", JInt (Z.of_nat (length flights)));
                                (key, JArr flights)])])
          None)).

(** [handle_departures(params)] *)
Definition handle_departures (w : lambda_world) (params : gmap string string)
  : http_response :=
  handle_direction w params "departure" "origin" "std" "departures".

(** [handle_arrivals(params)] *)
Definition handle_arrivals (w : lambda_world) (params : gmap string string)
  : http_response :=
  handle_direction w params "arrival" "destination" "sta" "arrivals".

Definition search_by_flight_number : string :=
  "SELECT * FROM flight_plans WHERE UPPER(flight_number) LIKE ? ORDER BY created_at DESC LIMIT 10".

(** [params.get('flight', params.get('callsign'))]: the second name is
    the default of the first, it is read only when [flight] is missing. *)
Definition search_term (params : gmap string string) : option string :=
  match params !! "flight" with
  | Some s => Some s
  | None => params !! "callsign"
  end.

(** [handle_flight_search(params)] *)
Definition handle_flight_search (w : lambda_world) (params : gmap string string)
  : http_response :=
  let flight_number := search_term params in
  if negb (given flight_number) then
    create_response w 400
      (JObj [("status", JStr "error"); ("message", JStr "flight parameter required")])
      None
  else
    or_500 w (
      conn ← get_db_connection w;
      rows ← run_query conn search_by_flight_number
               [SText ("%" +:+ py_upper (default "" flight_number) +:+ "%")];
      flights ← dicts_from_rows conn rows;
      Ok (create_response w 200
            (JObj [("status", JStr "success");
                   ("data", JObj [("found", JBool (0 <? Z.of_nat (length flights)));
                                  ("count", JInt (Z.of_nat (length flights)));
                                  ("flights", JArr flights)])])
            None)).

(** [handle_weather(params)] *)
Definition handle_weather (w : lambda_world) (params : gmap string string)
  : http_response :=
  or_500 w (
    conn ← get_db_connection w;
    let weather_type := default "metar" (params !! "type") in
    let airport := params !! "airport" in
    limit ← int_param params "limit" 50;
    let query := "SELECT * FROM weather WHERE weather_type = ?" in
    let '(query, query_params) :=
      if given airport
      then (query +:+ " AND airport LIKE ?",
            [JStr weather_type; JStr ("%" +:+ default "" airport +:+ "%")])
      else (query, [JStr weather_type]) in
    let query := query +:+ " ORDER BY created_at DESC LIMIT ?" in
    bound ← bind_params (map (fun v => ("?", v)) (query_params ++ [JInt limit])%list);
    rows ← run_query conn query (map snd bound);
    weather_data ← dicts_from_rows conn rows;
    Ok (create_response w 200
          (JObj [("status", JStr "success");
                 ("data", JObj [("type", JStr weather_type);
                                ("count", JInt (Z.of_nat (length weather_data)));
                                ("weather", JArr weather_data)])])
          None)).

Definition latest_weather (weather_type : string) : string :=
  "SELECT * FROM weather WHERE weather_type = '" +:+ weather_type
  +:+ "' AND airport LIKE ? ORDER BY created_at DESC LIMIT 1".

(** The common shape of [handle_metar] and [handle_taf]; [label] is the
    word of the message. *)
Definition handle_latest_weather (w : lambda_world) (weather_type label airport : string)
  : http_response :=
  or_500 w (
    conn ← get_db_connection w;
    rows ← run_query conn (latest_weather weather_type)
             [SText ("%" +:+ py_upper airport +:+ "%")];
    match rows with
    | r :: _ =>
        d ← dict_from_row conn r;
        Ok (create_response w 200
              (JObj [("status", JStr "success"); ("data", d)]) None)
    | [] =>
        Ok (create_response w 404
              (JObj [("status", JStr "error");
                     ("message", JStr (label +:+ " not found for " +:+ airport))])
              None)
    end).

(** [handle_metar(airport)] *)
Definition handle_metar (w : lambda_world) (airport : string) : http_response :=
  handle_latest_weather w "metar" "METAR" airport.

(** [handle_taf(airport)] *)
Definition handle_taf (w : lambda_world) (airport : string) : http_response :=
  handle_latest_weather w "taf" "TAF" airport.

(** [handle_notam(params)] *)
Definition handle_notam (w : lambda_world) (params : gmap string string)
  : http_response :=
  or_500 w (
    conn ← get_db_connection w;
    let notam_type := params !! "type" in
    let location := params !! "location" in
    limit ← int_param params "limit" 100;
    let query := "SELECT * FROM notams WHERE 1=1" in
    let '(query, query_params) :=
      if given notam_type
      then (query +:+ " AND notam_type = ?", [JStr (default "" notam_type)])
      else (query, []) in
    let '(query, query_params) :=
      if given location
      then (query +:+ " AND location LIKE ?",
            (query_params ++ [JStr ("%" +:+ default "" location +:+ "%")])%list)
      else (query, query_params) in
    let query := query +:+ " ORDER BY created_at DESC LIMIT ?" in
    bound ← bind_params (map (fun v => ("?", v)) (query_params ++ [JInt limit])%list);
    rows ← run_query conn query (map snd bound);
    notams ← dicts_from_rows conn rows;
    Ok (create_response w 200
          (JObj [("status", JStr "success");
                 ("data", JObj [("count", JInt (Z.of_nat (length notams)));
                                ("notams", JArr notams)])])
          None)).

Definition notams_by_location : string :=
  "SELECT * FROM notams WHERE location LIKE ? ORDER BY created_at DESC LIMIT 50".

(** [handle_notam_by_location(location)] *)
Definition handle_notam_by_location (w : lambda_world) (location : string)
  : http_response :=
  or_500 w (
    conn ← get_db_connection w;
    rows ← run_query conn notams_by_location
             [SText ("%" +:+ py_upper location +:+ "%")];
    notams ← dicts_from_rows conn rows;
    Ok (create_response w 200
          (JObj [("status", JStr "success");
                 ("data", JObj [("location", JStr location);
                                ("count", JInt (Z.of_nat (length notams)));
                                ("notams", JArr notams)])])
          None)).

Definition airport_entry (icao iata name name_ko : string) : json :=
  JObj [("icao", JStr icao); ("iata", JStr iata); ("name", JStr name);
        ("name_ko", JStr name_ko)].

(** The list of [handle_airports]. *)
Definition listed_airports : list json :=
  [ airport_entry "RKSI" "ICN" "Incheon International" "인천국제공항";
    airport_entry "RKSS" "GMP" "Gimpo International" "김포국제공항";
    airport_entry "RKPK" "PUS" "Gimhae International" "김해국제공항";
    airport_entry "RKPC" "CJU" "Jeju International" "제주국제공항";
    airport_entry "RKTU" "CJJ" "Cheongju International" "청주국제공항";
    airport_entry "RKTN" "TAE" "Daegu International" "대구국제공항";
    airport_entry "RKJJ" "KWJ" "Gwangju" "광주공항";
    airport_entry "RKJY" "RSU" "Yeosu" "여수공항";
    airport_entry "RKPU" "USN" "Ulsan" "울산공항";
    airport_entry "RKTH" "KPO" "Pohang" "포항공항";
    airport_entry "RKPS" "HIN" "Sacheon" "사천공항";
    airport_entry "RKJB" "MWX" "Muan International" "무안국제공항";
    airport_entry "RKNY" "YNY" "Yangyang International" "양양국제공항";
    airport_entry "RKNW" "WJU" "Wonju" "원주공항";
    airport_entry "RKJK" "KUV" "Gunsan" "군산공항" ].

(** [handle_airports()] *)
Definition handle_airports (w : lambda_world) : http_response :=
  create_response w 200
    (JObj [("status", JStr "success");
           ("data", JObj [("count", JInt (Z.of_nat (length listed_airports)));
                          ("airports", JArr listed_airports)])])
    None.

(** The dict of [handle_airport_info]: one airport.  The two floats are
    the binary64 values of the literals 35.5936 and 129.3519. *)
Definition airport_details : list (string * json) :=
  [ ("RKPU",
     JObj [("icao", JStr "RKPU"); ("iata", JStr "USN"); ("name", JStr "Ulsan Airport");
           ("name_ko", JStr "울산공항");
           ("lat", JFloat 0x1.1cbfb15b573ebp+5%float);
           ("lon", JFloat 0x1.02b42c3c9eeccp+7%float);
           ("elevation", JInt 45)]) ].

(** [handle_airport_info(icao)] *)
Definition handle_airport_info (w : lambda_world) (icao : string) : http_response :=
  let icao := py_upper icao in
  match assoc airport_details icao with
  | Some details =>
      create_response w 200 (JObj [("status", JStr "success"); ("data", details)]) None
  | None =>
      create_response w 404
        (JObj [("status", JStr "error");
               ("message", JStr ("Airport " +:+ icao +:+ " not found"))])
        None
  end.

(** [path.split('/')[-1]] *)
Definition last_segment (p : string) : string := List.last (split_on "/" p) "".

(** [handler(event, context)].  No exception escapes a handler on an event
    of this form, so the outer [except] is not reached. *)
Definition handler (w : lambda_world) (event : api_event) : http_response :=
  let http_method := default "GET" (httpMethod event) in
  let path := default "/" (path event) in
  let query_params := default ∅ (queryStringParameters event) in
  let headers := default ∅ (request_headers event) in
  let origin := or_else (headers !! "origin") (headers !! "Origin") in
  if String.eqb http_method "OPTIONS" then
    create_response w 200 (JObj [("status", JStr "ok")]) origin
  else if (String.eqb path "/" || String.eqb path "/api")%bool then handle_index w
  else if String.eqb path "/api/status" then handle_status w
  else if String.eqb path "/api/flights" then handle_flights w query_params
  else if String.eqb path "/api/flights/departures" then handle_departures w query_params
  else if String.eqb path "/api/flights/arrivals" then handle_arrivals w query_params
  else if String.eqb path "/api/flights/search" then handle_flight_search w query_params
  else if String.eqb path "/api/flights/route" then handle_flight_route w query_params
  else if String.eqb path "/api/weather" then handle_weather w query_params
  else if String.prefix "/api/weather/metar/" path then handle_metar w (last_segment path)
  else if String.prefix "/api/weather/taf/" path then handle_taf w (last_segment path)
  else if String.eqb path "/api/notam" then handle_notam w query_params
  else if String.prefix "/api/notam/" path then
    handle_notam_by_location w (last_segment path)
  else if String.eqb path "/api/airports" then handle_airports w
  else if String.prefix "/api/airports/" path then
    handle_airport_info w (last_segment path)
  else
    create_response w 404
      (JObj [("status", JStr "error"); ("message", JStr "Not found")]) None.

End Handlers.


(** ** ubikais_crawler.py and scheduler.py: a scheduled crawl *)

(** [os.path.join(a, b)] for two components. *)
Definition path_join (a b : string) : string :=
  if String.prefix "/" b then b
  else if (String.eqb a "" || String.eqb (str_rev (substring 0 1 (str_rev a))) "/")%bool
       then a +:+ b
       else a +:+ "/" +:+ b.

(** [UBIKAISCrawler.__init__(username, password, output_dir, use_db)]:
    the database of the new crawler, [None] without one, or the exception
    that leaves the constructor.  [db_available] is the module's
    [DB_AVAILABLE], True when [ubikais_database] could be imported. *)
Definition UBIKAISCrawler_init (env : environment) (db_available : bool)
    (output_dir : string) (use_db : bool) : result (option store) :=
  _ ← makedirs env output_dir;
  if (use_db && db_available)%bool then
    db ← UBIKAISDatabase_init env (path_join output_dir "ubikais.db");
    Ok (Some db)
  else Ok None.

(** The global [crawler_status] of the scheduler. *)
Record crawler_status := CrawlerStatus {
  last_crawl : option string;
  last_success : bool;
  crawl_count : Z;
  error_count : Z;
  running : bool
}.

(** What [run_crawl] finds around it: the two environment variables, the
    file system and SQLite, whether the database module is there, what
    [crawler.login()] returns (it catches its exceptions), what
    [crawl_all()] and [crawl_realtime()] do, and the time of day. *)
Record crawl_world := CrawlWorld {
  ubikais_username : option string;
  ubikais_password : option string;
  crawl_env : environment;
  db_module_available : bool;
  login : bool;
  crawl_all : result unit;
  crawl_realtime : result unit;
  crawl_finished_at : string
}.

(** [run_crawl(mode)]: the status after the call. *)
Definition run_crawl (w : crawl_world) (mode : string) (status : crawler_status)
  : crawler_status :=
  if running status then status
  else if (negb (given (ubikais_username w)) || negb (given (ubikais_password w)))%bool
  then status
  else
    let started :=
      CrawlerStatus (last_crawl status) (last_success status) (crawl_count status)
        (error_count status) true in
    let attempt : result unit :=
      _ ← UBIKAISCrawler_init (crawl_env w) (db_module_available w) "/app/data" true;
      if negb (login w) then Raise (Exn "Exception" "로그인 실패")
      else if String.eqb mode "full" then crawl_all w else crawl_realtime w in
    let finished :=
      match attempt with
      | Ok _ =>
          CrawlerStatus (Some (crawl_finished_at w)) true (crawl_count started + 1)
            (error_count started) (running started)
      | Raise _ =>
          CrawlerStatus (last_crawl started) false (crawl_count started)
            (error_count started + 1) (running started)
      end in
    CrawlerStatus (last_crawl finished) (last_success finished) (crawl_count finished)
      (error_count finished) false.

(** ** docker/unified_crawler.py: [_cleanup_old_files] *)

(** [s.endswith(suffix)] *)
Definition ends_with (suffix s : string) : bool :=
  String.prefix (str_rev suffix) (str_rev s).

(** Whether the file [f] of the category directory matches the pattern
    [{name}_2*.json] of [glob.glob], for a directory and a [name] without
    wildcard characters: [f] starts with [name_2], ends with [.json], and
    the two do not overlap. *)
Definition glob_timestamped (name f : string) : bool :=
  String.prefix (name +:+ "_2") f
  && ends_with ".json" f
  && (String.length (name +:+ "_2") + String.length ".json" <=? String.length f)%nat.

(** [sorted(files, reverse=True)] on paths of one directory: the names in
    descending order of their characters. *)
Fixpoint insert_descending (f : string) (files : list string) : list string :=
  match files with
  | [] => [f]
  | g :: files' =>
      if String.leb g f then f :: files else g :: insert_descending f files'
  end.

Definition sorted_descending (files : list string) : list string :=
  fold_right insert_descending [] files.

(** [l[n:]]: a negative [n] counts from the end. *)
Definition slice_from {A} (n : Z) (l : list A) : list A :=
  if n <? 0 then skipn (Z.to_nat (Z.of_nat (length l) + n)) l
  else skipn (Z.to_nat n) l.

(** [_cleanup_old_files(category, name)]: the files of the category
    directory after the call.  [max_files] is
    [config.max_files_per_category]; [removable f] says whether
    [os.remove] of [f] succeeds, an [OSError] being passed over. *)
Definition _cleanup_old_files (max_files : Z) (removable : string -> bool)
    (name : string) (directory : list string) : list string :=
  let files := sorted_descending (List.filter (glob_timestamped name) directory) in
  let old_files := slice_from max_files files in
  List.filter (fun f => negb (existsb (String.eqb f) old_files && removable f))
    directory.


(** ** docker/unified_crawler.py: fetching and the crawl summary *)

(** The truth value of a [requests.Response]: its [ok], False for a
    status from 400 to 599. *)
Definition response_ok (resp : response) : bool :=
  negb ((400 <=? status_code resp) && (status_code resp <? 600)).

(** [d[k] = v] on a [dict]: the value is replaced where the key is, the
    pair is added at the end otherwise. *)
Fixpoint dict_set (d : dict) (k : string) (v : json) : dict :=
  match d with
  | [] => [(k, v)]
  | (k', v') :: d' =>
      if String.eqb k' k then (k', v) :: d' else (k', v') :: dict_set d' k v
  end.

Section Fetching.
(** [json.loads] of the body of a response: [None] is
    [json.JSONDecodeError]. *)
Variable json_loads : string -> option json.

(** [_ubikais_fetch(endpoint, extra_params)]; [session_get] gives the
    outcomes of the [session.get] calls for the url and the parameters built
    from the arguments and the date.  The [None] the function returns is
    [JNull]. *)
Definition _ubikais_fetch (cfg : Config) (session_get : nat -> get_outcome) : json :=
  match returned (_request_with_retry cfg session_get) with
  | Some resp =>
      if response_ok resp then
        match json_loads (content resp) with
        | Some v => v
        | None => JNull
        end
      else JNull
  | None => JNull
  end.

(** The loop of [crawl_aim_korea] over the airports: [data["notams"]]
    after it.  [aim_get airport] gives the outcomes of the [session.get]
    calls of the request for that airport. *)
Definition aim_notams (cfg : Config) (aim_get : string -> nat -> get_outcome)
    (airports : list string) : dict :=
  fold_left
    (fun notams airport =>
       match returned (_request_with_retry cfg (aim_get airport)) with
       | Some resp =>
           if response_ok resp then
             match json_loads (content resp) with
             | Some v => dict_set notams airport v
             | None => notams
             end
           else notams
       | None => notams
       end)
    airports [].

(** [crawl_aim_korea()]: the dict returned, or the exception of
    [_save_data].  [now] is [datetime.now().isoformat()] at the start and
    [save_data category name data] what [_save_data] does. *)
Definition crawl_aim_korea (cfg : Config) (aim_get : string -> nat -> get_outcome)
    (airports : list string) (now : string)
    (save_data : string -> string -> json -> result string) : result json :=
  let data :=
    JObj [("crawled_at", JStr now);
          ("source", JStr "AIM_Korea");
          ("notams", JObj (aim_notams cfg aim_get airports))] in
  _ ← save_data "aim" "notam" data;
  Ok data.

End Fetching.

(** The summary [crawl_all] writes to [crawl_summary.json], from what the
    four crawl functions did, each returning a value or raising;
    [results[name]] is [None] for a crawler that raised. *)
Definition crawl_results (ubikais aim weather airport : result json)
  : list (string * json) :=
  map (fun nc => (fst nc, match snd nc with Ok v => v | Raise _ => JNull end))
      [("ubikais", ubikais); ("aim", aim); ("weather", weather); ("airport", airport)].

Definition crawl_summary (now : string) (results : list (string * json)) : json :=
  JObj [("crawled_at", JStr now);
        ("sources", JArr (map (fun kv => JStr (fst kv)) results));
        ("status",
         JObj (map (fun kv => (fst kv, JStr (if truthy (snd kv) then "success"
                                             else "failed")))
                   results))].


(** ** A reference platform

    One choice of the platform's functions, to run the code on concrete
    inputs.  [ref_float] and [ref_int] read plain decimal literals as Python
    does (a literal with an exponent, an underscore or a special name is
    outside them); [ref_upper] is [str.upper] on ASCII letters. *)

Module Reference.

Definition digit_value (c : ascii) : option Z :=
  let n := nat_of_ascii c in
  if ((48 <=? n)%nat && (n <=? 57)%nat)%bool then Some (Z.of_nat n - 48) else None.

(** The number a string of digits writes, after [acc]. *)
Fixpoint digits_value (acc : Z) (s : string) : option Z :=
  match s with
  | EmptyString => Some acc
  | String c s' => d ← digit_value c; digits_value (10 * acc + d) s'
  end.

Definition unsigned (s : string) : bool * string :=
  match s with
  | String "-" s' => (true, s')
  | String "+" s' => (false, s')
  | _ => (false, s)
  end.

(** The binary64 nearest to [n / d], ties to even, for [0 <= n] and
    [0 < d]: the quotient is taken with more than 53 bits and a sticky
    bit, then rounded once. *)
Definition float_of_ratio (n d : Z) : float :=
  if n =? 0 then 0%float
  else
    let s := Z.max 0 (Z.log2 d + 64 - Z.log2 n) in
    let q := (n * 2 ^ s) / d in
    let sticky := if (n * 2 ^ s) mod d =? 0 then 0 else 1 in
    SF2Prim (binary_normalize prec emax (2 * q + sticky) (- (s + 1)) false).

(** [float(s)] for [[+-]digits[.digits]] between blanks. *)
Definition ref_float (s : string) : option float :=
  let '(neg, u) := unsigned (py_strip s) in
  match split_on "." u with
  | [i] =>
      if String.eqb i "" then None
      else n ← digits_value 0 i;
           Some (if neg then (- float_of_ratio n 1)%float else float_of_ratio n 1)
  | [i; f] =>
      if (String.eqb i "" && String.eqb f "")%bool then None
      else n ← digits_value 0 (i +:+ f);
           let x := float_of_ratio n (10 ^ Z.of_nat (String.length f)) in
           Some (if neg then (- x)%float else x)
  | _ => None
  end.

(** [int(s)] for [[+-]digits] between blanks. *)
Definition ref_int (s : string) : result Z :=
  let '(neg, u) := unsigned (py_strip s) in
  match (if String.eqb u "" then None else digits_value 0 u) with
  | Some n => Ok (if neg then - n else n)
  | None => Raise (Exn "ValueError"
                       ("invalid literal for int() with base 10: '" +:+ s +:+ "'"))
  end.

(** The shortest run of digits after the point that writes [n / 10^k]
    exactly, for [0 <= n < 10^k]. *)
Fixpoint fraction_digits (k : nat) (n : Z) : string :=
  match k with
  | O => ""
  | S k' =>
      if n =? 0 then ""
      else string_of_Z (n / 10 ^ Z.of_nat k') +:+ fraction_digits k' (n mod 10 ^ Z.of_nat k')
  end.

(** The exact decimal expansion of a finite binary64. *)
Definition ref_real_text (f : float) : string :=
  match Prim2SF f with
  | S754_zero s => if s then "-0.0" else "0.0"
  | S754_infinity s => if s then "-Inf" else "Inf"
  | S754_nan => "NaN"
  | S754_finite s m e =>
      let sign := if s then "-" else "" in
      if 0 <=? e then sign +:+ string_of_Z (Z.pos m * 2 ^ e) +:+ ".0"
      else
        let k := Z.to_nat (- e) in
        let n := Z.pos m * 5 ^ (- e) in
        let frac := fraction_digits k (n mod 10 ^ (- e)) in
        sign +:+ string_of_Z (n / 10 ^ (- e)) +:+ "." +:+
        (if String.eqb frac "" then "0" else frac)
  end.

Definition quote : string := String (ascii_of_nat 34) "".

Fixpoint escape (s : string) : string :=
  match s with
  | EmptyString => ""
  | String c s' =>
      (if (Ascii.eqb c (ascii_of_nat 34) || Ascii.eqb c (ascii_of_nat 92))%bool
       then String (ascii_of_nat 92) (String c "") else String c "") +:+ escape s'
  end.

Definition join (sep : string) (l : list string) : string :=
  match l with
  | [] => ""
  | x :: l' => fold_left (fun acc y => acc +:+ sep +:+ y) l' x
  end.

(** [json.dumps] with its default separators. *)
Fixpoint ref_dumps (v : json) : string :=
  match v with
  | JNull => "null"
  | JBool b => if b then "true" else "false"
  | JInt z => string_of_Z z
  | JFloat f => ref_real_text f
  | JStr s => quote +:+ escape s +:+ quote
  | JArr items => "[" +:+ join ", " (map ref_dumps items) +:+ "]"
  | JObj fields =>
      "{" +:+ join ", " (map (fun kv => quote +:+ escape (fst kv) +:+ quote +:+ ": "
                                        +:+ ref_dumps (snd kv)) fields) +:+ "}"
  end.

(** A REAL column keeps an integer as a real and a number written in text
    as that number; an INTEGER column keeps an integer written in text as
    that integer. *)
Definition ref_numeric (ty : coltype) (v : sqlval) : sqlval :=
  match ty, v with
  | REAL, SInt z => SReal (float_of_Z z)
  | REAL, SText s => match ref_float s with Some f => SReal f | None => v end
  | INTEGER, SText s =>
      match ref_int s with
      | Ok z => SInt z
      | Raise _ => match ref_float s with Some f => SReal f | None => v end
      end
  | _, _ => v
  end.

(** Clock reading [n] is [n] seconds after midnight of 2026-01-11. *)
Definition two_digits (n : nat) : string :=
  (if (n <? 10)%nat then "0" else "") +:+ string_of_Z (Z.of_nat n).

Definition time_of_day (n : nat) : string :=
  two_digits (n / 3600 mod 24) +:+ ":" +:+ two_digits (n / 60 mod 60) +:+ ":"
  +:+ two_digits (n mod 60).

Definition platform : Platform := {|
  py_float := ref_float;
  py_int := ref_int;
  py_upper := str_upper;
  json_dumps := ref_dumps;
  sqlite_real_text := ref_real_text;
  sqlite_numeric := ref_numeric;
  isoformat_now := fun n => "2026-01-11T" +:+ time_of_day n;
  today_now := fun _ => "2026-01-11";
  current_timestamp := fun n => "2026-01-11 " +:+ time_of_day n
|}.

End Reference.

(** * The vocabulary of the properties *)

(** ** Coordinates *)

(** The sign the hemisphere letter gives. *)
Definition signed (direction : ascii) (x : float) : float :=
  if (Ascii.eqb direction "S" || Ascii.eqb direction "W")%bool then (- x)%float else x.

(** ** Tables *)

(** The column of a table by its name. *)
Definition find_column (sch : schema) (c : string) : option column :=
  find (fun col => String.eqb (c_name col) c) (s_columns sch).

(** Every column of the constraint is a TEXT column of the table. *)
Definition text_key (sch : schema) (u : list string) : bool :=
  forallb (fun c =>
             match find (fun col => String.eqb (c_name col) c) (s_columns sch) with
             | Some col => match c_type col with TEXT => true | _ => false end
             | None => false
             end) u.

(** ** The entity types and their save operations *)

(** The nine entity types that have a save operation. *)
Inductive entity :=
| FirNotam
| AdNotam (airport_icao : json)
| Snowtam
| Airport
| Runway (airport_icao : json)
| Navaid
| Obstacle
| FlightPlan (direction : string)
| Metar.

Definition entity_table (e : entity) : string :=
  match e with
  | FirNotam => "notam_fir"
  | AdNotam _ => "notam_ad"
  | Snowtam => "snowtam"
  | Airport => "airports"
  | Runway _ => "runways"
  | Navaid => "navaids"
  | Obstacle => "obstacles"
  | FlightPlan _ => "flight_plans"
  | Metar => "metar"
  end.

Definition entity_schema (e : entity) : schema :=
  match e with
  | FirNotam => notam_fir_schema
  | AdNotam _ => notam_ad_schema
  | Snowtam => snowtam_schema
  | Airport => airports_schema
  | Runway _ => runways_schema
  | Navaid => navaids_schema
  | Obstacle => obstacles_schema
  | FlightPlan _ => flight_plans_schema
  | Metar => metar_schema
  end.

(** The natural key: the columns of the table's UNIQUE constraint. *)
Definition entity_key (e : entity) : list string :=
  match e with
  | FirNotam => ["notam_id"]
  | AdNotam _ => ["notam_id"; "airport_icao"]
  | Snowtam => ["snowtam_id"]
  | Airport => ["icao_code"]
  | Runway _ => ["airport_icao"; "runway_id"; "direction"]
  | Navaid => ["navaid_id"]
  | Obstacle => ["obstacle_id"]
  | FlightPlan _ => ["callsign"; "departure_time"; "crawled_date"]
  | Metar => ["airport_icao"; "observation_time"]
  end.

Section Entities.
Context `{Platform}.

(** The parameters of the entity's INSERT, for a save that starts in
    [st]; a flight plan reads [today] from the clock first. *)
Definition entity_columns (e : entity) (st : store) : list (string * source) :=
  match e with
  | FirNotam => notam_fir_columns
  | AdNotam airport_icao => notam_ad_columns airport_icao
  | Snowtam => snowtam_columns
  | Airport => airports_columns
  | Runway airport_icao => runways_columns airport_icao
  | Navaid => navaids_columns
  | Obstacle => obstacles_columns
  | FlightPlan direction =>
      flight_plans_columns (JStr direction) (JStr (today_now (clock st)))
  | Metar => metar_columns
  end.

(** What [datetime.now().isoformat()] returns in that save. *)
Definition entity_now (e : entity) (st : store) : string :=
  match e with
  | FlightPlan _ => isoformat_now (S (clock st))
  | _ => isoformat_now (clock st)
  end.

(** The save operation of the entity type on one record; [true] when the
    record was written.  A batch operation is given the one record as its
    list. *)
Definition save_record (e : entity) (rec : json) (st : store) : bool * store :=
  match e with
  | FirNotam => let '(n, st') := save_notam_fir [rec] st in (0 <? n, st')
  | AdNotam airport_icao =>
      let '(n, st') := save_notam_ad [rec] airport_icao st in (0 <? n, st')
  | Snowtam => let '(n, st') := save_snowtam [rec] st in (0 <? n, st')
  | Airport => save_airport rec st
  | Runway airport_icao => save_runway rec airport_icao st
  | Navaid => save_navaid rec st
  | Obstacle => save_obstacle rec st
  | FlightPlan direction => save_flight_plan rec direction st
  | Metar => save_metar rec st
  end.

(** The record has its natural key: the parameter of each key column is
    not one that is bound to NULL ([None], or a NaN). *)
Definition key_present (e : entity) (d : dict) (st : store) : Prop :=
  Forall (fun c => exists src,
              assoc (entity_columns e st) c = Some src
              /\ bind_param (eval_source d (entity_now e st) src) <> Ok SNull)
         (entity_key e).

(** The rows of the entity's table that have the natural key of [r]. *)
Definition rows_with_key_of (e : entity) (r : row) (st : store) : list row :=
  match tables st !! entity_table e with
  | Some t => List.filter (fun old => collide r old (entity_key e)) (t_rows t)
  | None => []
  end.

(** The rows of the entity's table. *)
Definition entity_rows (e : entity) (st : store) : list row :=
  match tables st !! entity_table e with
  | Some t => t_rows t
  | None => []
  end.

(** The id counter of a table: the number of rows ever written to a table
    that started empty. *)
Definition id_counter (name : string) (st : store) : Z :=
  match tables st !! name with
  | Some t => t_seq t
  | None => 0
  end.

End Entities.

(** The store after the thirteen CREATE TABLE statements on an empty
    database. *)
Definition fresh_store : store :=
  match execute_all (firstn 13 create_tables_statements) (Store ∅ ∅ 0) with
  | Ok st => st
  | Raise _ => Store ∅ ∅ 0
  end.

(** ** The batch operations *)

(** The three operations that take a list of records. *)
Inductive batch :=
| FirBatch
| AdBatch (airport_icao : json)
| SnowtamBatch.

Definition batch_table (b : batch) : string :=
  match b with
  | FirBatch => "notam_fir"
  | AdBatch _ => "notam_ad"
  | SnowtamBatch => "snowtam"
  end.

Definition batch_schema (b : batch) : schema :=
  match b with
  | FirBatch => notam_fir_schema
  | AdBatch _ => notam_ad_schema
  | SnowtamBatch => snowtam_schema
  end.

(** The names under which the id of a record is looked up, and the column
    that keeps it. *)
Definition batch_id_keys (b : batch) : list string :=
  match b with
  | FirBatch | AdBatch _ => notam_id_keys
  | SnowtamBatch => snowtam_id_keys
  end.

Definition batch_id_column (b : batch) : string :=
  match b with
  | FirBatch | AdBatch _ => "notam_id"
  | SnowtamBatch => "snowtam_id"
  end.

Definition batch_columns (b : batch) : list (string * source) :=
  match b with
  | FirBatch => notam_fir_columns
  | AdBatch airport_icao => notam_ad_columns airport_icao
  | SnowtamBatch => snowtam_columns
  end.

(** The record is a [dict] whose id resolves to a falsy value. *)
Definition lacks_id (b : batch) (rec : json) : bool :=
  match rec with
  | JObj d => negb (truthy (get_or d (batch_id_keys b)))
  | _ => false
  end.

Section Batches.
Context `{Platform}.

Definition batch_save (b : batch) (items : list json) (st : store) : Z * store :=
  match b with
  | FirBatch => save_notam_fir items st
  | AdBatch airport_icao => save_notam_ad items airport_icao st
  | SnowtamBatch => save_snowtam items st
  end.

(** The body of the operation's loop for one record. *)
Definition batch_step (b : batch) : json -> store -> result bool * store :=
  batch_body (batch_id_keys b) (batch_table b) (batch_columns b).

(** The record is one the operation writes: a [dict] with an id, all of
    whose parameters SQLite can bind. *)
Definition accepted (b : batch) (rec : json) : bool :=
  match rec with
  | JObj d =>
      truthy (get_or d (batch_id_keys b))
      && forallb (fun cs => is_ok (bind_param (eval_source d "" (snd cs))))
           (batch_columns b)
  | _ => false
  end.

(** The id of the record as its table keeps it. *)
Definition stored_id (b : batch) (rec : json) : sqlval :=
  match rec with
  | JObj d =>
      match bind_param (get_or d (batch_id_keys b)) with
      | Ok v => store_value TEXT v
      | Raise _ => SNull
      end
  | _ => SNull
  end.

(** The operation's table is there, as [_create_tables] defines it. *)
Definition ready (b : batch) (st : store) : Prop :=
  exists t, tables st !! batch_table b = Some t /\ t_schema t = batch_schema b.

Definition batch_rows (b : batch) (st : store) : list row :=
  match tables st !! batch_table b with
  | Some t => t_rows t
  | None => []
  end.

End Batches.

(** ** The request loop *)

(** An attempt fails when [session.get] raises or the status is not 200. *)
Definition failed (o : get_outcome) : bool :=
  match o with
  | Returns resp => negb (status_code resp =? 200)
  | Fails _ => true
  end.

(** The delay that follows attempt [i]: [retry_delay * (i + 1)] when the
    attempt raised and is not the last configured one, none otherwise; none
    in particular after a response whose status is not 200. *)
Definition delay_after (cfg : Config) (session_get : nat -> get_outcome) (i : nat)
  : list float :=
  match session_get i with
  | Fails _ =>
      if Z.of_nat i <? retry_count cfg - 1
      then [(retry_delay cfg * float_of_Z (Z.of_nat i + 1))%float]
      else []
  | Returns _ => []
  end.

(** The delays of the first [n] attempts, in order. *)
Definition backoff (cfg : Config) (session_get : nat -> get_outcome) (n : nat)
  : list float :=
  flat_map (delay_after cfg session_get) (seq 0 n).

(** ** The facade and the mapper *)

(** The body of a route lookup that found no flight. *)
Definition no_route : json :=
  JObj [("source", JNull); ("origin", JNull); ("destination", JNull)].

(** The names a parameter is looked up under, in order of priority. *)
Definition source_keys (s : source) : option (list string) :=
  match s with
  | Get keys | GetOrText keys _ | ArgOrGet _ keys | Coordinate keys => Some keys
  | Arg _ | RawData | Now => None
  end.

(** In the mapper [cols], the name [p] is read only by the parameters looked
    up under exactly [keys]. *)
Definition separated (cols : list (string * source)) (p : string) (keys : list string)
  : bool :=
  forallb (fun cs =>
             match source_keys (snd cs) with
             | Some ks => if existsb (String.eqb p) ks then bool_decide (ks = keys) else true
             | None => true
             end) cols.

(** Every first name of the mapper is separated, but for [eobt]: the flight
    plan mapper reads it for the departure time, ahead of two aliases, and
    for the column [eobt] itself. *)
Definition all_separated (cols : list (string * source)) : bool :=
  forallb (fun cs =>
             match source_keys (snd cs) with
             | Some (p :: rest) => String.eqb p "eobt" || separated cols p (p :: rest)
             | _ => true
             end) cols.

(** ** Sample records and worlds, on the reference platform *)

(** The METAR of the specification's scenario. *)
Definition metar_RKSI : dict :=
  [ ("ad", JStr "RKSI");
    ("obsTime", JStr "2026-01-11T00:00:00Z");
    ("orgMsg", JStr "RKSI 110000Z 09005KT") ].

Definition after_first_metar : store :=
  snd (@save_record Reference.platform Metar (JObj metar_RKSI) fresh_store).

Definition after_second_metar : store :=
  snd (@save_record Reference.platform Metar (JObj metar_RKSI) after_first_metar).

(** A METAR with its natural key and a value SQLite cannot bind. *)
Definition metar_unbindable : dict :=
  [ ("ad", JStr "RKSI");
    ("obsTime", JStr "2026-01-11T00:00:00Z");
    ("clouds", JArr [JStr "FEW030"; JStr "BKN100"]) ].

(** Three NOTAMs: two with an id, under the first name and under an alias,
    and one without. *)
Definition notam_A0001 : json :=
  JObj [("notamId", JStr "A0001/26"); ("series", JStr "A"); ("ad", JStr "RKSI")].

Definition notam_without_id : json :=
  JObj [("series", JStr "A"); ("ad", JStr "RKPC")].

Definition notam_A0002 : json :=
  JObj [("notamNo", JStr "A0002/26"); ("notamType", JStr "N")].

(** A METAR without airport and without observation time. *)
Definition metar_without_key : dict := [("orgMsg", JStr "RKSI 110000Z 09005KT")].

(** A NOTAM with an id and a value SQLite cannot bind. *)
Definition notam_unbindable : json :=
  JObj [("notamId", JStr "A0003/26"); ("series", JArr [JStr "A"])].

(** A world in which the database file is there and every query finds no
    row. *)
Definition empty_database_world : lambda_world :=
  {| db_file_exists := true;
     s3_download := Ok tt;
     connect_tmp := Ok (fun _ _ => Ok []);
     connect_local := Ok (fun _ _ => Ok []);
     cors_allowed_origins := "" |}.

(** Two NOTAMs that carry the same value, the empty string, one under the
    alias [notamType] and one under the first name [type]. *)
Definition notam_type_by_alias : dict :=
  [("notamId", JStr "A0001/26"); ("notamType", JStr "")].

Definition notam_type_by_name : dict :=
  [("notamId", JStr "A0001/26"); ("type", JStr "")].

(** An airport with its latitude as text and its longitude as a number. *)
Definition airport_RKPU : dict :=
  [ ("icao", JStr "RKPU");
    ("name", JStr "Ulsan");
    ("latitude", JStr "N35-35-37");
    ("longitude", JInt 129) ].

(** A world in which the download fails and the local file has a flight. *)
Definition fallback_world : lambda_world :=
  {| db_file_exists := false;
     s3_download := Raise (Exn "NoCredentialsError" "Unable to locate credentials");
     connect_tmp := Raise (Exn "OperationalError" "unable to open database file");
     connect_local := Ok (fun _ _ => Ok [[("flight_number", SText "KAL123")]]);
     cors_allowed_origins := "" |}.

(** A world in which the database file is there and cannot be opened. *)
Definition closed_database_world : lambda_world :=
  {| db_file_exists := true;
     s3_download := Ok tt;
     connect_tmp := Raise (Exn "OperationalError" "unable to open database file");
     connect_local := Raise (Exn "OperationalError" "unable to open database file");
     cors_allowed_origins := "" |}.

(** A scheduler with its credentials, a working file system, a login that
    succeeds and crawls that return. *)
Definition scheduled_world : crawl_world :=
  {| ubikais_username := Some "user";
     ubikais_password := Some "secret";
     crawl_env := Environment (fun _ => Ok tt) (fun _ => Ok (Store ∅ ∅ 0));
     db_module_available := true;
     login := true;
     crawl_all := Ok tt;
     crawl_realtime := Ok tt;
     crawl_finished_at := "2026-01-11T06:00:00" |}.

Definition idle_status : crawler_status := CrawlerStatus None true 0 0 false.

(** A category directory: three timestamped files, the latest copy and a
    file of another name. *)
Definition notam_directory : list string :=
  [ "notam_20260111_010000.json";
    "notam_20260111_000000.json";
    "notam_latest.json";
    "notam_20260111_020000.json";
    "aviation_20260111_000000.json" ].


(** ** The tables across save operations *)

(** The table after INSERT OR REPLACE of the row [r]: the rows that collide
    with [r] are gone, [r] is the last row, the id counter has advanced. *)
Definition insert_row (t : table) (r : row) : table :=
  Table (t_schema t)
    (List.filter (fun old => negb (conflicts (t_schema t) r old)) (t_rows t) ++ [r])
    (t_seq t + 1).

(** [inserts name m m' n]: the tables [m'] come from the tables [m] by [n]
    INSERT OR REPLACE statements on the table [name], one after the other. *)
Inductive inserts (name : string)
  : gmap string table -> gmap string table -> nat -> Prop :=
| inserts_none (m : gmap string table) : inserts name m m 0
| inserts_one (m m' : gmap string table) (t : table) (r : row) (n : nat) :
    m !! name = Some t ->
    inserts name (<[name := insert_row t r]> m) m' n ->
    inserts name m m' (S n).

(** Rows from the newest to the oldest: no row collides with an older one. *)
Fixpoint distinct_newest_first (sch : schema) (rows : list row) : Prop :=
  match rows with
  | [] => True
  | r :: older =>
      Forall (fun old => conflicts sch r old = false) older
      /\ distinct_newest_first sch older
  end.

(** The UNIQUE constraints hold in the table: no row collides with a row
    inserted before it. *)
Definition distinct_keys (t : table) : Prop :=
  distinct_newest_first (t_schema t) (rev (t_rows t)).

Definition all_distinct (m : gmap string table) : Prop :=
  forall name t, m !! name = Some t -> distinct_keys t.

(** [SELECT COUNT( * ) FROM name], or 0 when the statement raises. *)
Definition row_count (name : string) (st : store) : Z :=
  match tables st !! name with
  | Some t => Z.of_nat (length (t_rows t))
  | None => 0
  end.

Definition stats_tables : list string :=
  [ "notam_fir"; "notam_ad"; "snowtam"; "prohibited_area";
    "airports"; "runways"; "aprons"; "navaids"; "obstacles";
    "flight_plans"; "metar"; "taf"; "sigmet" ].

(** [get_stats()]: the number of rows of each of the thirteen tables, in the
    order of the list; a table whose count raises is reported with 0. *)
Definition get_stats (st : store) : list (string * Z) :=
  map (fun name => (name, row_count name st)) stats_tables.


(** The entities whose save method computes decimal coordinates. *)
Definition has_coordinates (e : entity) : bool :=
  match e with
  | Airport | Navaid | Obstacle => true
  | _ => false
  end.

(** The value that reaches a REAL column from a parsed coordinate. *)
Definition decimal_value `{Platform} (v : json) : sqlval :=
  match _parse_coordinate_value v with
  | Some f => if PrimFloat.is_nan f then SNull else sqlite_numeric REAL (SReal f)
  | None => SNull
  end.


(** ** The answers of the facade *)

(** The origins [create_response] accepts: the four of the code, and those
    of the environment variable, stripped, the empty ones left out. *)
Definition allowed_origins (w : lambda_world) : list string :=
  ALLOWED_ORIGINS
  ++ map py_strip
       (List.filter (fun o => negb (String.eqb (py_strip o) ""))
          (split_on "," (cors_allowed_origins w))).

(** The origin [handler] reads from the request: the header [origin], or
    [Origin] when the first is missing or empty. *)
Definition request_origin (event : api_event) : option string :=
  let hs := default ∅ (request_headers event) in
  or_else (hs !! "origin") (hs !! "Origin").

(** The header that lets a browser read the answer from another origin. *)
Definition cors_header (resp : http_response) : option string :=
  assoc (headers resp) "Access-Control-Allow-Origin".

(** An answer built without an origin: one of the four status codes, and no
    CORS header. *)
Definition plain_answer (resp : http_response) : Prop :=
  In (statusCode resp) [200; 400; 404; 500] /\ cors_header resp = None.

(** The download of the database failed and the code fell back to the
    local file. *)
Definition fallback (w : lambda_world) : Prop :=
  db_file_exists w = false /\ is_ok (s3_download w) = false.

(** The codes of the airports [handle_airports] lists. *)
Definition listed_codes : list string :=
  omap (fun a => match flight_field a "icao" with
                 | JStr s => Some s
                 | _ => None
                 end) listed_airports.


(** ** The files of a category *)

(** The timestamped files of [name] in a directory. *)
Definition timestamped (name : string) (directory : list string) : list string :=
  List.filter (glob_timestamped name) directory.

(** [newer f g]: the name [f] sorts at or after [g], as the name with the
    later timestamp does. *)
Definition newer (f g : string) : Prop := String.leb g f = true.

(** How many timestamped files [files[max_files:]] leaves out of the old
    ones, of [n] files: [max_files] of them, all when there are fewer; for
    a negative [max_files], all but the last [- max_files]. *)
Definition kept_files (max_files : Z) (n : nat) : nat :=
  if max_files <? 0 then Z.to_nat (Z.of_nat n + max_files)
  else Nat.min (Z.to_nat max_files) n.


(** ** Fetching *)

(** The status the summary gives for a source. *)
Definition summary_status (summary : json) (name : string) : json :=
  flight_field (flight_field summary "status") name.


(** * Properties *)

(** ** Strings *)

Lemma str_contains_cons (c x : ascii) (s : string) :
  str_contains c (String x s) = (Ascii.eqb c x || str_contains c s)%bool.
Proof. reflexivity. Qed.

Lemma str_contains_app (c : ascii) (a b : string) :
  str_contains c (a +:+ b) = (str_contains c a || str_contains c b)%bool.
Proof.
  induction a as [|x a IH]; [reflexivity|].
  change (String x a +:+ b) with (String x (a +:+ b)).
  rewrite !str_contains_cons, IH. apply orb_assoc.
Qed.

Lemma split_on_nonempty (sep : ascii) (s : string) : split_on sep s <> [].
Proof.
  destruct s as [|c s]; simpl; [discriminate|].
  destruct (Ascii.eqb c sep); [discriminate|].
  destruct (split_on sep s); discriminate.
Qed.

(** A string without the separator is its own single piece. *)
Lemma split_on_absent (sep : ascii) (s : string) :
  str_contains sep s = false -> split_on sep s = [s].
Proof.
  induction s as [|c s IH]; intros Hs; [reflexivity|].
  rewrite str_contains_cons in Hs. apply orb_false_elim in Hs as [Hc Hs].
  simpl. rewrite Ascii.eqb_sym, Hc, (IH Hs). reflexivity.
Qed.

(** The first separator ends the first piece. *)
Lemma split_on_first (sep : ascii) (a b : string) :
  str_contains sep a = false ->
  split_on sep (a +:+ String sep b) = a :: split_on sep b.
Proof.
  induction a as [|c a IH]; intros Ha.
  - simpl. rewrite Ascii.eqb_refl. reflexivity.
  - rewrite str_contains_cons in Ha. apply orb_false_elim in Ha as [Hc Ha].
    change (String c a +:+ String sep b) with (String c (a +:+ String sep b)).
    simpl. rewrite Ascii.eqb_sym, Hc, (IH Ha). reflexivity.
Qed.

(** ** [_parse_coordinate] *)

Section CoordinateParserProperties.
Context `{Platform}.

(** X3.  A non-empty string without a hyphen is handed to [float()] as it
    is: the parser returns what [float()] returns, and no value when
    [float()] raises. *)
Lemma parse_coordinate_plain (s : string) :
  s <> "" -> str_contains hyphen s = false ->
  _parse_coordinate s = py_float s.
Proof.
  intros Hne Hs. destruct s as [|c s]; [congruence|].
  unfold _parse_coordinate. rewrite Hs. reflexivity.
Qed.

(** X1.  Degrees, minutes and seconds between hyphens, after one leading
    character: when the three components have no hyphen and [float()] reads
    them, the parser returns deg + min/60 + sec/3600, negated when the
    leading character is S or W. *)
Lemma parse_coordinate_dms (h : ascii) (d m s : string) (fd fm fs : float) :
  str_contains hyphen d = false ->
  str_contains hyphen m = false ->
  str_contains hyphen s = false ->
  py_float d = Some fd -> py_float m = Some fm -> py_float s = Some fs ->
  _parse_coordinate (String h (d +:+ "-" +:+ m +:+ "-" +:+ s))
  = Some (signed h (fd + fm / 60 + fs / 3600)%float).
Proof.
  intros Hd Hm Hs Fd Fm Fs. unfold _parse_coordinate.
  rewrite str_contains_cons, str_contains_app.
  replace (str_contains hyphen ("-" +:+ m +:+ "-" +:+ s)) with true by reflexivity.
  rewrite !orb_true_r.
  change ("-" +:+ m +:+ "-" +:+ s) with (String hyphen (m +:+ String hyphen s)).
  rewrite (split_on_first _ _ _ Hd), (split_on_first _ _ _ Hm), (split_on_absent _ _ Hs).
  unfold part. simpl. rewrite Fd. simpl. rewrite Fm. simpl. rewrite Fs. reflexivity.
Qed.

(** X2.  Degrees and minutes only, after one leading character: the
    seconds count as zero. *)
Lemma parse_coordinate_dm (h : ascii) (d m : string) (fd fm : float) :
  str_contains hyphen d = false ->
  str_contains hyphen m = false ->
  py_float d = Some fd -> py_float m = Some fm ->
  _parse_coordinate (String h (d +:+ "-" +:+ m))
  = Some (signed h (fd + fm / 60 + 0 / 3600)%float).
Proof.
  intros Hd Hm Fd Fm. unfold _parse_coordinate.
  rewrite str_contains_cons, str_contains_app.
  replace (str_contains hyphen ("-" +:+ m)) with true by reflexivity.
  rewrite !orb_true_r.
  change ("-" +:+ m) with (String hyphen m).
  rewrite (split_on_first _ _ _ Hd), (split_on_absent _ _ Hm).
  unfold part. simpl. rewrite Fd. simpl. rewrite Fm. reflexivity.
Qed.

(** A leading minus sign is taken for the hemisphere letter: the digits
    after it are read as degrees and the sign is lost. *)
Lemma parse_coordinate_minus (s : string) :
  str_contains hyphen s = false ->
  _parse_coordinate (String hyphen s)
  = (d ← py_float s; Some (d + 0 / 60 + 0 / 3600)%float).
Proof.
  intros Hs. unfold _parse_coordinate.
  rewrite str_contains_cons, Ascii.eqb_refl. simpl orb. cbv iota.
  rewrite (split_on_absent _ _ Hs). unfold part. simpl.
  destruct (py_float s); reflexivity.
Qed.

(** The empty string gives no value. *)
Lemma parse_coordinate_empty : _parse_coordinate "" = None.
Proof. reflexivity. Qed.

(** With a hyphen in the string, degrees that [float()] rejects give no
    value. *)
Lemma parse_coordinate_bad_degrees (h : ascii) (rest : string) :
  str_contains hyphen (String h rest) = true ->
  py_float (part (split_on hyphen rest) 0) = None ->
  _parse_coordinate (String h rest) = None.
Proof. intros Hh Hd. unfold _parse_coordinate. rewrite Hh, Hd. reflexivity. Qed.

End CoordinateParserProperties.

(** The example of the specification, on the reference platform: the three
    numbers are combined in binary64, which gives the double next to the
    one nearest to -37.4625. *)
Example parse_coordinate_S37_27_45 :
  @_parse_coordinate Reference.platform "S37-27-45" = Some (-0x1.2bb3333333334p+5)%float.
Proof. vm_compute. reflexivity. Qed.

Lemma parse_coordinate_dms_witness :
  @_parse_coordinate Reference.platform "S37-27-45"
  = Some (signed "S" (37 + 27 / 60 + 45 / 3600)%float).
Proof.
  apply (@parse_coordinate_dms Reference.platform "S"%char "37" "27" "45");
    vm_compute; reflexivity.
Defined.

Lemma parse_coordinate_dm_witness :
  @_parse_coordinate Reference.platform "E129-21"
  = Some (signed "E" (129 + 21 / 60 + 0 / 3600)%float).
Proof.
  apply (@parse_coordinate_dm Reference.platform "E"%char "129" "21");
    vm_compute; reflexivity.
Defined.

Lemma parse_coordinate_plain_witness :
  @_parse_coordinate Reference.platform "35.5936" = Reference.ref_float "35.5936".
Proof.
  apply (@parse_coordinate_plain Reference.platform "35.5936");
    [discriminate | reflexivity].
Defined.

(** C4. A hemisphere letter followed by degrees alone, the form the claim
    allows when minutes and seconds are both left out, is not read as a
    coordinate: without a hyphen the string goes to [float()] as it is and
    the parser returns no value, where the claim says 37.  With the minutes
    written the same degrees are read. *)
Theorem parse_coordinate_degrees_only :
  @_parse_coordinate Reference.platform "N37" = None
  /\ @_parse_coordinate Reference.platform "N37-0" = Some 37%float.
Proof. split; vm_compute; reflexivity. Qed.

(** C5. A negative decimal string is not returned as its signed value: the
    minus sign sends it down the degrees-minutes-seconds branch, where it is
    taken for the hemisphere letter, and the parser returns the positive
    magnitude.  [float()] itself reads the string as -37.5. *)
Theorem parse_coordinate_negative_decimal :
  @_parse_coordinate Reference.platform "-37.5" = Some 37.5%float
  /\ @py_float Reference.platform "-37.5" = Some (-37.5)%float.
Proof. split; vm_compute; reflexivity. Qed.

(** ** [UBIKAISDatabase.__init__] *)

Lemma execute_create_table (name : string) (sch : schema) (st : store) :
  exists st', execute (CreateTableIfNotExists name sch) st = Ok st'.
Proof. simpl. destruct (tables st !! name); eauto. Qed.

(** The first CREATE INDEX statement is not in SQLite's grammar: it has FROM
    where ON is required. *)
Lemma first_index_statement_rejected :
  parse_create_index
    "CREATE INDEX IF NOT EXISTS idx_notam_fir_valid FROM notam_fir(valid_from)" = None.
Proof. vm_compute. reflexivity. Qed.

(** The thirteen tables are created, then the first index statement raises. *)
Lemma create_tables_raises (st : store) : _create_tables st = Raise syntax_error.
Proof.
  unfold _create_tables, create_tables_statements.
  repeat match goal with
  | |- context [execute_all (CreateTableIfNotExists ?n ?s :: ?ss) ?st0] =>
      let st' := fresh "st" in
      let E := fresh "E" in
      destruct (execute_create_table n s st0) as [st' E];
      change (execute_all (CreateTableIfNotExists n s :: ss) st0)
        with (execute (CreateTableIfNotExists n s) st0 ≫= execute_all ss);
      rewrite E;
      change (Ok st' ≫= execute_all ss) with (execute_all ss st')
  end.
  match goal with
  | |- context [execute_all (CreateIndexText ?q :: ?ss) ?st0] =>
      change (execute_all (CreateIndexText q :: ss) st0)
        with (execute (CreateIndexText q) st0 ≫= execute_all ss)
  end.
  unfold execute. rewrite first_index_statement_rejected. reflexivity.
Qed.

(** C1. For every database path, whatever the file system and SQLite answer,
    the constructor ends by raising and returns no store: when the directory
    and the connection are obtained, [_create_tables] raises at its first
    CREATE INDEX statement, which no handler catches. *)
Theorem init_always_raises (env : environment) (db_path : string) :
  exists e, UBIKAISDatabase_init env db_path = Raise e.
Proof.
  unfold UBIKAISDatabase_init, _init_database.
  destruct (makedirs env (dirname db_path)) as [[]|e]; [|eauto].
  destruct (connect env db_path) as [conn|e]; [|eauto].
  exists syntax_error. apply create_tables_raises.
Qed.

(** When the directory is made and the connection opens, the exception is
    SQLite's syntax error. *)
Lemma init_raises_syntax_error (env : environment) (db_path : string) (conn : store) :
  makedirs env (dirname db_path) = Ok tt ->
  connect env db_path = Ok conn ->
  UBIKAISDatabase_init env db_path = Raise syntax_error.
Proof.
  intros Hm Hc. unfold UBIKAISDatabase_init, _init_database.
  rewrite Hm. simpl. rewrite Hc. apply create_tables_raises.
Qed.

(** ** The store *)

Lemma assoc_map_snd {A B} (f : A -> B) (l : list (string * A)) (k : string) :
  assoc (map (fun kv => (fst kv, f (snd kv))) l) k = option_map f (assoc l k).
Proof.
  induction l as [|[k' v] l IH]; [reflexivity|].
  simpl. destruct (String.eqb k' k); [reflexivity | exact IH].
Qed.

Lemma bind_params_ok_inv (c : string) (v : json) (vs : list (string * json))
    (ps : list (string * sqlval)) :
  bind_params ((c, v) :: vs) = Ok ps ->
  exists b bs, bind_param v = Ok b /\ bind_params vs = Ok bs /\ ps = (c, b) :: bs.
Proof.
  simpl. destruct (bind_param v) as [b|e]; [|discriminate]. simpl.
  destruct (bind_params vs) as [bs|e]; [|discriminate]. simpl.
  intros [= <-]. eauto.
Qed.

(** Binding keeps the columns, and binds each value on its own. *)
Lemma bind_params_assoc (vs : list (string * json)) (ps : list (string * sqlval))
    (c : string) :
  bind_params vs = Ok ps ->
  match assoc vs c with
  | Some v => exists b, assoc ps c = Some b /\ bind_param v = Ok b
  | None => assoc ps c = None
  end.
Proof.
  revert ps. induction vs as [|[c' v] vs IH]; intros ps Hb.
  - injection Hb as <-. reflexivity.
  - apply bind_params_ok_inv in Hb as (b & bs & Hv & Hbs & ->).
    simpl. destruct (String.eqb c' c); [eauto | apply IH, Hbs].
Qed.

Lemma sql_eqb_text_refl (s : string) : sql_eqb (SText s) (SText s) = true.
Proof. apply String.eqb_refl. Qed.

Section StoreProperties.
Context `{Platform}.

(** A TEXT column keeps NULL as NULL and anything else as text. *)
Lemma store_value_text (v : sqlval) :
  v <> SNull -> exists s, store_value TEXT v = SText s.
Proof. destruct v; simpl; [congruence | eauto ..]. Qed.

(** The value the new row has in a column of the table. *)
Lemma row_get_new_row (sch : schema) (params : list (string * sqlval))
    (id : Z) (ts : string) (c : string) (col : column) :
  find_column sch c = Some col ->
  row_get (new_row sch params id ts) c
  = match assoc params c with
    | Some v => store_value (c_type col) v
    | None => default_value (c_default col) id ts
    end.
Proof.
  unfold find_column, new_row, row_get. generalize (s_columns sch) as cols.
  induction cols as [|x cols IH]; [discriminate|].
  simpl. destruct (String.eqb (c_name x) c) eqn:E.
  - intros [= ->]. apply String.eqb_eq in E. rewrite E. reflexivity.
  - exact IH.
Qed.

(** What a successful INSERT OR REPLACE did. *)
Lemma execute_insert_ok (name : string) (values : list (string * json))
    (st st' : store) :
  execute_insert_or_replace name values st = (Ok tt, st') ->
  exists t params,
    tables st !! name = Some t
    /\ bind_params values = Ok params
    /\ let r := new_row (t_schema t) params (t_seq t + 1) (current_timestamp (clock st)) in
       st' = set_table name
               (Table (t_schema t)
                  (List.filter (fun old => negb (conflicts (t_schema t) r old)) (t_rows t)
                   ++ [r])
                  (t_seq t + 1))
               (tick st).
Proof.
  unfold execute_insert_or_replace.
  destruct (tables st !! name) as [t|]; [|discriminate].
  destruct (negb _); [discriminate|].
  destruct (bind_params values) as [params|e]; [|discriminate].
  intros [= <-]. eauto.
Qed.

(** A failed INSERT OR REPLACE changed nothing. *)
Lemma execute_insert_raise (name : string) (values : list (string * json))
    (st st' : store) (e : exn) :
  execute_insert_or_replace name values st = (Raise e, st') -> st' = st.
Proof.
  unfold execute_insert_or_replace.
  destruct (tables st !! name) as [t|]; [|congruence].
  destruct (negb _); [congruence|].
  destruct (bind_params values) as [params|e']; [discriminate | congruence].
Qed.

(** After the insert of [r], the rows that collide with [r] on a UNIQUE
    constraint are [r] alone. *)
Lemma one_row_per_key (sch : schema) (r : row) (rows : list row) (u : list string) :
  In u (s_unique sch) ->
  collide r r u = true ->
  List.filter (fun old => collide r old u)
    (List.filter (fun old => negb (conflicts sch r old)) rows ++ [r]) = [r].
Proof.
  intros Hu Hr. rewrite List.filter_app. simpl. rewrite Hr.
  replace (List.filter _ (List.filter _ rows)) with (@nil row); [reflexivity|].
  symmetry. induction rows as [|x rows IH]; [reflexivity|].
  simpl. destruct (conflicts sch r x) eqn:E; simpl; [exact IH|].
  unfold conflicts in E.
  destruct (collide r x u) eqn:C; [|exact IH].
  exfalso. assert (existsb (collide r x) (s_unique sch) = true) as E'.
  { apply existsb_exists. eauto. }
  congruence.
Qed.

End StoreProperties.

(** ** One row per natural key *)

Section OneRowPerKey.
Context `{Platform}.

Lemma assoc_parameters (cols : list (string * source)) (d : dict) (now : string)
    (c : string) :
  assoc (parameters cols d now) c = option_map (eval_source d now) (assoc cols c).
Proof. apply (assoc_map_snd (eval_source d now)). Qed.

(** What the INSERT of a record did when it succeeded: the rows that
    collided with the new row are gone and the new row is the last one. *)
Lemma insert_record_ok (name : string) (cols : list (string * source))
    (d : dict) (st st' : store) (t : table) :
  insert_record name cols d st = (Ok tt, st') ->
  tables st !! name = Some t ->
  exists ps ts,
    bind_params (parameters cols d (isoformat_now (clock st))) = Ok ps
    /\ let r := new_row (t_schema t) ps (t_seq t + 1) ts in
       tables st' !! name
       = Some (Table (t_schema t)
                 (List.filter (fun old => negb (conflicts (t_schema t) r old)) (t_rows t)
                  ++ [r])
                 (t_seq t + 1))
       /\ forall other, other <> name -> tables st' !! other = tables st !! other.
Proof.
  unfold insert_record. intros Hins Ht.
  apply execute_insert_ok in Hins as (t' & ps & Ht' & Hps & ->).
  assert (t' = t) as ->.
  { destruct (existsb _ cols); simpl in Ht'; congruence. }
  exists ps. eexists. split; [exact Hps|]. simpl. split.
  - apply lookup_insert_eq.
  - intros other Hne. rewrite lookup_insert_ne by congruence.
    destruct (existsb _ cols); reflexivity.
Qed.

(** The value of a mapped column in the new row: the parameter, bound and
    stored by the column's type. *)
Lemma new_row_mapped (cols : list (string * source)) (d : dict) (now : string)
    (ps : list (string * sqlval)) (sch : schema) (id : Z) (ts : string)
    (c : string) (src : source) (col : column) :
  bind_params (parameters cols d now) = Ok ps ->
  assoc cols c = Some src ->
  find_column sch c = Some col ->
  exists b, bind_param (eval_source d now src) = Ok b
            /\ row_get (new_row sch ps id ts) c = store_value (c_type col) b.
Proof.
  intros Hps Hsrc Hcol.
  pose proof (bind_params_assoc _ _ c Hps) as Hb.
  rewrite assoc_parameters, Hsrc in Hb. simpl in Hb.
  destruct Hb as (b & Hb & Hbind). exists b. split; [exact Hbind|].
  rewrite (row_get_new_row _ _ _ _ _ _ Hcol), Hb. reflexivity.
Qed.

(** A row whose key columns are TEXT columns holding values collides with
    itself. *)
Lemma collide_self (sch : schema) (ps : list (string * sqlval)) (id : Z)
    (ts : string) (u : list string) :
  text_key sch u = true ->
  Forall (fun c => row_get (new_row sch ps id ts) c <> SNull) u ->
  collide (new_row sch ps id ts) (new_row sch ps id ts) u = true.
Proof.
  intros Htext Hpresent. unfold collide. apply forallb_forall. intros c Hc.
  unfold text_key in Htext. rewrite forallb_forall in Htext.
  specialize (Htext c Hc). rewrite List.Forall_forall in Hpresent.
  specialize (Hpresent c Hc).
  destruct (find _ (s_columns sch)) as [col|] eqn:Hcol; [|discriminate].
  destruct (c_type col) eqn:Hty; try discriminate.
  rewrite (row_get_new_row sch ps id ts c col Hcol) in *. rewrite Hty in *.
  destruct (assoc ps c) as [v|].
  - destruct v; simpl in *; try congruence; rewrite String.eqb_refl; reflexivity.
  - destruct (c_default col); simpl in *; try congruence.
    + rewrite Z.eqb_refl. reflexivity.
    + rewrite String.eqb_refl. reflexivity.
Qed.

(** The key columns of the new row hold values when the record has its
    key and the key columns are TEXT columns. *)
Lemma new_row_key_present (cols : list (string * source)) (d : dict) (now : string)
    (ps : list (string * sqlval)) (sch : schema) (id : Z) (ts : string)
    (u : list string) :
  bind_params (parameters cols d now) = Ok ps ->
  text_key sch u = true ->
  Forall (fun c => exists src, assoc cols c = Some src
                               /\ bind_param (eval_source d now src) <> Ok SNull) u ->
  Forall (fun c => row_get (new_row sch ps id ts) c <> SNull) u.
Proof.
  intros Hps Htext Hkey. rewrite List.Forall_forall in *. intros c Hc.
  destruct (Hkey c Hc) as (src & Hsrc & Hv).
  unfold text_key in Htext. rewrite forallb_forall in Htext.
  specialize (Htext c Hc).
  destruct (find _ (s_columns sch)) as [col|] eqn:Hcol; [|discriminate].
  destruct (c_type col) eqn:Hty; try discriminate.
  destruct (new_row_mapped cols d now ps sch id ts c src col Hps Hsrc Hcol)
    as (b & Hb & ->).
  rewrite Hty. assert (b <> SNull) as Hnn.
  { intros ->. apply Hv, Hb. }
  destruct (store_value_text b Hnn) as [s ->]. discriminate.
Qed.

(** A successful save of one record ran the INSERT for a [dict]. *)
Lemma save_one_true (name : string) (cols : list (string * source))
    (rec : json) (st st' : store) :
  save_one name cols rec st = (true, st') ->
  exists d, rec = JObj d /\ insert_record name cols d st = (Ok tt, st').
Proof.
  unfold save_one. destruct rec; simpl; try discriminate.
  destruct (insert_record name cols fields st) as [[[]|e] st1] eqn:E;
    [|discriminate].
  unfold commit. intros [= <-]. eauto.
Qed.

(** A batch of one record that was counted ran the INSERT for a [dict]
    with an id. *)
Lemma save_batch_one_true (keys : list string) (name : string)
    (cols : list (string * source)) (rec : json) (st st' : store) (n : Z) :
  save_batch (batch_body keys name cols) [rec] st = (n, st') ->
  (0 <? n) = true ->
  exists d, rec = JObj d /\ insert_record name cols d st = (Ok tt, st').
Proof.
  unfold save_batch, for_each, batch_body.
  destruct rec; simpl; try (intros [= <- <-]; discriminate).
  destruct (negb (truthy (get_or fields keys))); [intros [= <- <-]; discriminate|].
  destruct (insert_record name cols fields st) as [[[]|e] st1] eqn:E.
  - unfold commit. intros [= <- <-] _. eauto.
  - intros [= <- <-]. discriminate.
Qed.

End OneRowPerKey.

Section SaveTwice.
Context `{Platform}.

(** The core of the overwrite: an INSERT that succeeds on a table with a
    TEXT key leaves its row as the only row with that key. *)
Lemma insert_leaves_one_row (name : string) (cols : list (string * source))
    (d : dict) (st st' : store) (t : table) (key : list string) :
  insert_record name cols d st = (Ok tt, st') ->
  tables st !! name = Some t ->
  In key (s_unique (t_schema t)) ->
  text_key (t_schema t) key = true ->
  find_column (t_schema t) "id" = Some id_col ->
  assoc cols "id" = None ->
  Forall (fun c => exists src, assoc cols c = Some src
                   /\ bind_param (eval_source d (isoformat_now (clock st)) src)
                      <> Ok SNull) key ->
  exists t' r,
    tables st' !! name = Some t'
    /\ t_schema t' = t_schema t
    /\ last (t_rows t') = Some r
    /\ List.filter (fun old => collide r old key) (t_rows t') = [r]
    /\ row_get r "id" = SInt (t_seq t + 1)
    /\ forall c src col,
         assoc cols c = Some src ->
         find_column (t_schema t) c = Some col ->
         exists b, bind_param (eval_source d (isoformat_now (clock st)) src) = Ok b
                   /\ row_get r c = store_value (c_type col) b.
Proof.
  intros Hins Ht Hkey Htext Hid Hnoid Hpresent.
  destruct (insert_record_ok name cols d st st' t Hins Ht) as (ps & ts & Hps & Ht' & _).
  eexists. eexists. split; [exact Ht'|]. simpl.
  split; [reflexivity|]. split; [apply last_snoc|]. split; [|split].
  - apply one_row_per_key; [exact Hkey|].
    apply collide_self; [exact Htext|].
    eapply new_row_key_present; eauto.
  - rewrite (row_get_new_row _ _ _ _ _ _ Hid).
    pose proof (bind_params_assoc _ _ "id" Hps) as Hb.
    rewrite assoc_parameters, Hnoid in Hb. simpl in Hb. rewrite Hb. reflexivity.
  - intros c src col Hsrc Hcol. eapply new_row_mapped; eauto.
Qed.

(** The first save keeps the table and its definition. *)
Lemma insert_keeps_schema (name : string) (cols : list (string * source))
    (d : dict) (st st' : store) (t : table) :
  insert_record name cols d st = (Ok tt, st') ->
  tables st !! name = Some t ->
  exists t', tables st' !! name = Some t' /\ t_schema t' = t_schema t.
Proof.
  intros Hins Ht.
  destruct (insert_record_ok name cols d st st' t Hins Ht) as (ps & ts & _ & Ht' & _).
  eexists. split; [exact Ht' | reflexivity].
Qed.

Lemma tables_tick (st : store) : tables (tick st) = tables st.
Proof. reflexivity. Qed.

(** What a true result of the entity's save operation means: the INSERT of
    the entity's parameters ran and succeeded. *)
Lemma save_record_true (e : entity) (d : dict) (st st' : store) :
  save_record e (JObj d) st = (true, st') ->
  exists st0,
    tables st0 = tables st
    /\ isoformat_now (clock st0) = entity_now e st
    /\ insert_record (entity_table e) (entity_columns e st) d st0 = (Ok tt, st').
Proof.
  destruct e; cbn [save_record entity_table entity_columns entity_now];
    unfold save_airport, save_runway, save_navaid, save_obstacle,
      save_flight_plan, save_metar, save_notam_fir, save_notam_ad, save_snowtam.
  all: try (intros Hs; apply save_one_true in Hs as (d' & [= <-] & Hins);
            eexists; split; [|split; [|exact Hins]]; reflexivity).
  all: match goal with
       | |- context [save_batch ?b ?l ?s] =>
           destruct (save_batch b l s) as [n st1] eqn:E
       end;
    intros [= Hn <-];
    apply save_batch_one_true in E as (d' & [= <-] & Hins); [|exact Hn];
    exists st; split; [|split; [|exact Hins]]; reflexivity.
Qed.

(** The tables as [_create_tables] defines them have their natural key as
    UNIQUE constraint, on TEXT columns, and an AUTOINCREMENT id that no
    INSERT names. *)
Lemma entity_key_facts (e : entity) (st : store) :
  In (entity_key e) (s_unique (entity_schema e))
  /\ text_key (entity_schema e) (entity_key e) = true
  /\ find_column (entity_schema e) "id" = Some id_col
  /\ assoc (entity_columns e st) "id" = None.
Proof. destruct e; repeat split; simpl; auto. Qed.

End SaveTwice.

Section SaveTwiceTheorem.
Context `{Platform}.

(** C3, as amended.  For every entity type, on a store whose table is the
    one [_create_tables] defines: when a record with its natural key is
    saved twice and both saves report it written, the table ends with
    exactly one row for that key.  That row is the one the second call
    inserted: it is the last row, it has the id the second call drew, and
    each mapped column holds the value the second call computed from the
    record, bound and stored by the column's type. *)
Theorem save_twice_one_row (e : entity) (d : dict) (st st1 st2 : store) (t : table) :
  tables st !! entity_table e = Some t ->
  t_schema t = entity_schema e ->
  save_record e (JObj d) st = (true, st1) ->
  save_record e (JObj d) st1 = (true, st2) ->
  key_present e d st1 ->
  exists r,
    last (entity_rows e st2) = Some r
    /\ rows_with_key_of e r st2 = [r]
    /\ row_get r "id" = SInt (id_counter (entity_table e) st1 + 1)
    /\ forall c src col,
         assoc (entity_columns e st1) c = Some src ->
         find_column (entity_schema e) c = Some col ->
         exists b, bind_param (eval_source d (entity_now e st1) src) = Ok b
                   /\ row_get r c = store_value (c_type col) b.
Proof.
  intros Ht Hsch Hfirst Hsecond Hkey.
  apply save_record_true in Hfirst as (st0 & Htab0 & _ & Hins1).
  apply save_record_true in Hsecond as (st0' & Htab1 & Hnow & Hins2).
  rewrite <- Htab0 in Ht.
  destruct (insert_keeps_schema _ _ _ _ _ _ Hins1 Ht) as (t1 & Ht1 & Hsch1).
  rewrite Hsch in Hsch1.
  destruct (entity_key_facts e st1) as (Hu & Htext & Hid & Hnoid).
  rewrite <- Hsch1 in Hu, Htext, Hid. rewrite <- Htab1 in Ht1.
  unfold key_present in Hkey. rewrite <- Hnow in Hkey.
  destruct (insert_leaves_one_row _ _ _ _ _ _ _ Hins2 Ht1 Hu Htext Hid Hnoid Hkey)
    as (t2 & r & Ht2 & _ & Hlast & Hone & Hrid & Hcols).
  exists r. unfold entity_rows, rows_with_key_of, id_counter.
  rewrite Ht2. rewrite Htab1 in Ht1. rewrite Ht1.
  repeat split; try assumption.
  intros c src col Hsrc Hcol. rewrite <- Hnow.
  apply Hcols; [exact Hsrc|]. rewrite Hsch1. exact Hcol.
Qed.

End SaveTwiceTheorem.

Lemma save_twice_one_row_witness :
  exists r,
    last (@entity_rows Metar after_second_metar) = Some r
    /\ @rows_with_key_of Metar r after_second_metar = [r]
    /\ row_get r "id" = SInt (id_counter (entity_table Metar) after_first_metar + 1)
    /\ forall c src col,
         assoc (@entity_columns Reference.platform Metar after_first_metar) c = Some src ->
         find_column (entity_schema Metar) c = Some col ->
         exists b,
           bind_param (@eval_source Reference.platform metar_RKSI
                         (@entity_now Reference.platform Metar after_first_metar) src) = Ok b
           /\ row_get r c = @store_value Reference.platform (c_type col) b.
Proof.
  apply (@save_twice_one_row Reference.platform Metar metar_RKSI fresh_store
           after_first_metar after_second_metar (Table metar_schema [] 0)).
  - vm_compute. reflexivity.
  - reflexivity.
  - vm_compute. reflexivity.
  - vm_compute. reflexivity.
  - repeat constructor; eexists; (split; [reflexivity | vm_compute; discriminate]).
Defined.

(** The scenario: after the second identical fetch the table holds the one
    row, with the mapped values. *)
Example metar_saved_twice :
  map (fun r => (row_get r "id", row_get r "airport_icao", row_get r "observation_time",
                 row_get r "raw_metar"))
      (@entity_rows Metar after_second_metar)
  = [(SInt 2, SText "RKSI", SText "2026-01-11T00:00:00Z", SText "RKSI 110000Z 09005KT")].
Proof. vm_compute. reflexivity. Qed.

(** C3, as stated, fails: this record has its natural key, yet after two
    saves the table has no row for it (each INSERT raises at the list, the
    handler returns False), not exactly one. *)
Lemma save_twice_no_row :
  @key_present Reference.platform Metar metar_unbindable fresh_store
  /\ (let '(b1, st1) := @save_record Reference.platform Metar (JObj metar_unbindable)
                          fresh_store in
      let '(b2, st2) := @save_record Reference.platform Metar (JObj metar_unbindable) st1 in
      (b1, b2, @entity_rows Metar st2)) = (false, false, []).
Proof.
  split.
  - repeat constructor; eexists; (split; [reflexivity | vm_compute; discriminate]).
  - vm_compute. reflexivity.
Qed.

(** ** The batch operations: failing and skipped records *)

Section BatchProperties.
Context `{Platform}.

Lemma batch_save_unfold (b : batch) (items : list json) (st : store) :
  batch_save b items st = save_batch (batch_step b) items st.
Proof. destruct b; reflexivity. Qed.

Lemma for_each_app (body : json -> store -> result bool * store)
    (l1 l2 : list json) (st : store) (count : Z) :
  for_each body (l1 ++ l2) st count
  = let '(st1, c1) := for_each body l1 st count in for_each body l2 st1 c1.
Proof.
  revert st count. induction l1 as [|x l1 IH]; intros st count; [reflexivity|].
  simpl. destruct (body x st) as [[[]|e] st']; apply IH.
Qed.

Lemma for_each_count (body : json -> store -> result bool * store)
    (l : list json) (st : store) (count : Z) :
  for_each body l st count
  = (fst (for_each body l st 0), count + snd (for_each body l st 0)).
Proof.
  revert st count. induction l as [|x l IH]; intros st count.
  - simpl. f_equal. lia.
  - simpl. destruct (body x st) as [[[]|e] st']; rewrite IH; try reflexivity.
    rewrite (IH st' (0 + 1)). simpl. f_equal. lia.
Qed.

(** [save_batch] is the loop from a count of 0; an empty list gives the
    same pair without entering it. *)
Lemma save_batch_loop (body : json -> store -> result bool * store)
    (l : list json) (st : store) :
  save_batch body l st
  = (snd (for_each body l st 0), fst (for_each body l st 0)).
Proof.
  destruct l as [|x l]; [reflexivity|].
  unfold save_batch, commit. destruct (for_each body (x :: l) st 0). reflexivity.
Qed.

(** A record without an id is passed over: no exception, no change. *)
Lemma batch_step_lacks_id (b : batch) (rec : json) (st : store) :
  lacks_id b rec = true -> batch_step b rec st = (Ok false, st).
Proof.
  unfold lacks_id, batch_step, batch_body.
  destruct rec; try discriminate. simpl. intros ->. reflexivity.
Qed.

(** A record whose step raises leaves the tables as they were. *)
Lemma batch_step_raise (b : batch) (rec : json) (st st' : store) (e : exn) :
  batch_step b rec st = (Raise e, st') -> tables st' = tables st.
Proof.
  unfold batch_step, batch_body.
  destruct (as_dict rec) as [d|e']; [|intros [= _ <-]; reflexivity].
  destruct (negb _); [discriminate|].
  destruct (insert_record _ _ d st) as [[[]|e'] st1] eqn:E; [discriminate|].
  intros [= _ <-]. unfold insert_record in E.
  apply execute_insert_raise in E. rewrite E.
  destruct (existsb _ _); reflexivity.
Qed.

Lemma insert_record_counter (name : string) (cols : list (string * source))
    (d : dict) (st st' : store) :
  insert_record name cols d st = (Ok tt, st') ->
  id_counter name st' = id_counter name st + 1.
Proof.
  unfold insert_record. intros E.
  apply execute_insert_ok in E as (t & ps & Ht & _ & ->).
  unfold id_counter. simpl. rewrite lookup_insert_eq.
  replace (tables st !! name) with (Some t); [reflexivity|].
  rewrite <- Ht. destruct (existsb _ _); reflexivity.
Qed.

(** Each step advances the table's id counter by one when it writes, and
    not at all otherwise. *)
Lemma batch_step_counter (b : batch) (rec : json) (st st' : store)
    (r : result bool) :
  batch_step b rec st = (r, st') ->
  id_counter (batch_table b) st'
  = id_counter (batch_table b) st
    + match r with Ok true => 1 | _ => 0 end.
Proof.
  intros E. destruct r as [[]|e].
  - unfold batch_step, batch_body in E.
    destruct (as_dict rec) as [d|e']; [|discriminate].
    destruct (negb _); [discriminate|].
    destruct (insert_record _ _ d st) as [[[]|e'] st1] eqn:E1; [|discriminate].
    injection E as <-. apply (insert_record_counter _ _ _ _ _ E1).
  - unfold batch_step, batch_body in E.
    destruct (as_dict rec) as [d|e']; [|discriminate].
    destruct (negb _); [injection E as <-; lia|].
    destruct (insert_record _ _ d st) as [[[]|e'] st1]; discriminate.
  - apply batch_step_raise in E. unfold id_counter. rewrite E. lia.
Qed.

Lemma for_each_counter (b : batch) (l : list json) (st : store) (count : Z) :
  id_counter (batch_table b) (fst (for_each (batch_step b) l st count))
  = id_counter (batch_table b) st
    + (snd (for_each (batch_step b) l st count) - count).
Proof.
  revert st count. induction l as [|x l IH]; intros st count; [simpl; lia|].
  simpl. destruct (batch_step b x st) as [r st'] eqn:E.
  pose proof (batch_step_counter b x st st' r E) as Hc.
  destruct r as [[]|e]; rewrite IH, Hc; lia.
Qed.

(** C8.  For each batch operation: an empty list returns 0 and leaves the
    store as it is; the returned count is the number of rows written (the
    advance of the table's id counter); and when the step of one record
    raises, after the records before it, the exception is caught, the
    tables are untouched by that record, and the records after it are
    processed as a batch of their own would be, their count added. *)
Theorem batch_save_partial_failure (b : batch) :
  (forall st, batch_save b [] st = (0, st))
  /\ (forall items st,
        id_counter (batch_table b) (snd (batch_save b items st))
        = id_counter (batch_table b) st + fst (batch_save b items st))
  /\ (forall l1 bad l2 st e st_bad,
        batch_step b bad (snd (batch_save b l1 st)) = (Raise e, st_bad) ->
        tables st_bad = tables (snd (batch_save b l1 st))
        /\ batch_save b (l1 ++ bad :: l2) st
           = (fst (batch_save b l1 st) + fst (batch_save b l2 st_bad),
              snd (batch_save b l2 st_bad))).
Proof.
  split; [|split].
  - intros st. destruct b; reflexivity.
  - intros items st. rewrite batch_save_unfold, save_batch_loop. simpl.
    pose proof (for_each_counter b items st 0). lia.
  - intros l1 bad l2 st e st_bad Hbad. split.
    + apply (batch_step_raise _ _ _ _ _ Hbad).
    + rewrite !batch_save_unfold, !save_batch_loop in *. simpl in *.
      rewrite for_each_app.
      destruct (for_each (batch_step b) l1 st 0) as [st1 c1] eqn:E1.
      simpl in *. rewrite Hbad.
      rewrite (for_each_count _ l2 st_bad c1). reflexivity.
Qed.

End BatchProperties.

Section BatchSkip.
Context `{Platform}.

(** Whether a parameter can be bound does not depend on the time. *)
Lemma bind_now_irrelevant (d : dict) (now now' : string) (src : source) :
  is_ok (bind_param (eval_source d now src))
  = is_ok (bind_param (eval_source d now' src)).
Proof. destruct src; reflexivity. Qed.

Lemma bind_parameters_ok (cols : list (string * source)) (d : dict) (now : string) :
  forallb (fun cs => is_ok (bind_param (eval_source d "" (snd cs)))) cols = true ->
  exists ps, bind_params (parameters cols d now) = Ok ps.
Proof.
  induction cols as [|[c src] cols IH]; intros Hall; [exists []; reflexivity|].
  simpl in Hall. apply andb_prop in Hall as [Hsrc Hall].
  destruct (IH Hall) as [ps Hps].
  rewrite (bind_now_irrelevant d "" now) in Hsrc.
  unfold parameters in *. simpl.
  destruct (bind_param (eval_source d now src)) as [v|e]; [|discriminate].
  simpl. rewrite Hps. simpl. eauto.
Qed.

(** The INSERT succeeds on a table that has the named columns when the
    parameters can be bound. *)
Lemma execute_insert_succeeds (name : string) (values : list (string * json))
    (st : store) (t : table) (ps : list (string * sqlval)) :
  tables st !! name = Some t ->
  forallb (fun cv => has_column (t_schema t) (fst cv)) values = true ->
  bind_params values = Ok ps ->
  exists st', execute_insert_or_replace name values st = (Ok tt, st').
Proof.
  intros Ht Hcols Hps. unfold execute_insert_or_replace.
  rewrite Ht, Hcols, Hps. simpl. eauto.
Qed.

Lemma batch_columns_in_schema (b : batch) (d : dict) (now : string) :
  forallb (fun cv => has_column (batch_schema b) (fst cv))
    (parameters (batch_columns b) d now) = true.
Proof. destruct b; reflexivity. Qed.

Lemma batch_id_facts (b : batch) :
  assoc (batch_columns b) (batch_id_column b) = Some (Get (batch_id_keys b))
  /\ find_column (batch_schema b) (batch_id_column b) = Some (text (batch_id_column b))
  /\ existsb (fun cs => is_now (snd cs)) (batch_columns b) = true.
Proof. destruct b; repeat split. Qed.

(** The step of an accepted record writes it: its row is added after the
    rows that did not collide with it, with the record's id as its table
    keeps it: as text, or as NULL when the id is a NaN. *)
Lemma batch_step_accepted (b : batch) (rec : json) (st : store) :
  ready b st ->
  accepted b rec = true ->
  exists st' r,
    batch_step b rec st = (Ok true, st')
    /\ ready b st'
    /\ row_get r (batch_id_column b) = stored_id b rec
    /\ (stored_id b rec = SNull \/ exists s, stored_id b rec = SText s)
    /\ batch_rows b st'
       = (List.filter (fun old => negb (conflicts (batch_schema b) r old))
            (batch_rows b st) ++ [r])%list.
Proof.
  intros (t & Ht & Hsch) Hacc. unfold accepted in Hacc.
  destruct rec as [| | | | | |d]; try discriminate.
  apply andb_prop in Hacc as [Hid Hbind].
  destruct (bind_parameters_ok _ d (isoformat_now (clock st)) Hbind) as [ps Hps].
  destruct (batch_id_facts b) as (Hsrc & Hcol & Hnow).
  assert (tables (tick st) !! batch_table b = Some t) as Ht' by exact Ht.
  pose proof (batch_columns_in_schema b d (isoformat_now (clock st))) as Hcols.
  rewrite <- Hsch in Hcols.
  destruct (execute_insert_succeeds _ _ _ _ _ Ht' Hcols Hps) as [st' Hex].
  assert (insert_record (batch_table b) (batch_columns b) d st = (Ok tt, st')) as Hins.
  { unfold insert_record. rewrite Hnow. exact Hex. }
  destruct (insert_record_ok _ _ _ _ _ _ Hins Ht) as (ps' & ts & Hps' & Hlook & _).
  assert (ps' = ps) as -> by congruence.
  rewrite <- Hsch in Hcol.
  destruct (new_row_mapped _ _ _ _ (t_schema t) (t_seq t + 1) ts _ _ _ Hps Hsrc Hcol)
    as (v & Hv & Hrow).
  simpl in Hv.
  assert (stored_id b (JObj d) = store_value TEXT v) as Hsid.
  { unfold stored_id. rewrite Hv. reflexivity. }
  exists st', (new_row (t_schema t) ps (t_seq t + 1) ts).
  split; [|split; [|split; [|split]]].
  - unfold batch_step, batch_body. simpl. rewrite Hid. simpl. rewrite Hins. reflexivity.
  - eexists. split; [exact Hlook | exact Hsch].
  - rewrite Hrow, Hsid. reflexivity.
  - rewrite Hsid. destruct v; simpl; eauto.
  - unfold batch_rows. rewrite Hlook, Ht, Hsch. reflexivity.
Qed.

(** A new row without id, or with an id that the old row does not have,
    does not collide with the old row. *)
Lemma no_conflict_on_other_id (b : batch) (r old : row) :
  row_get r (batch_id_column b) = SNull
  \/ (exists s, row_get r (batch_id_column b) = SText s
                /\ row_get old (batch_id_column b) <> SText s) ->
  conflicts (batch_schema b) r old = false.
Proof.
  intros Hr.
  assert (negb (is_null (row_get r (batch_id_column b)))
          && negb (is_null (row_get old (batch_id_column b)))
          && sql_eqb (row_get r (batch_id_column b)) (row_get old (batch_id_column b))
          = false) as Hne.
  { destruct Hr as [->|(s & -> & Hold)]; [reflexivity|].
    destruct (row_get old (batch_id_column b)) as [| | |s']; try reflexivity.
    simpl. destruct (String.eqb s s') eqn:E; [|reflexivity].
    apply String.eqb_eq in E. congruence. }
  destruct b; unfold conflicts, collide; simpl in *; rewrite Hne; reflexivity.
Qed.

Lemma filter_keeps_all {A} (f : A -> bool) (l : list A) :
  (forall x, In x l -> f x = true) -> List.filter f l = l.
Proof.
  induction l as [|x l IH]; intros Hall; [reflexivity|].
  simpl. rewrite (Hall x (or_introl eq_refl)). f_equal.
  apply IH. intros y Hy. apply Hall. right. exact Hy.
Qed.

(** A batch of accepted records: every record is counted, and when no
    earlier row has the id of a later record, every record adds its row. *)
Lemma for_each_accepted (b : batch) (l : list json) :
  forall (st : store) (count : Z),
    ready b st ->
    Forall (fun r => accepted b r = true) l ->
    snd (for_each (batch_step b) l st count) = count + Z.of_nat (length l)
    /\ forall done,
         map (fun r => row_get r (batch_id_column b)) (batch_rows b st)
         = map (stored_id b) done ->
         NoDup (map (stored_id b) (done ++ l)) ->
         map (fun r => row_get r (batch_id_column b))
             (batch_rows b (fst (for_each (batch_step b) l st count)))
         = map (stored_id b) (done ++ l).
Proof.
  induction l as [|x l IH]; intros st count Hready Hall.
  - simpl. split; [lia|]. intros done Hrows _. rewrite app_nil_r. exact Hrows.
  - apply List.Forall_cons_iff in Hall as [Hx Hall].
    destruct (batch_step_accepted b x st Hready Hx)
      as (st' & r & Hstep & Hready' & Hrid & Hsid & Hrows').
    simpl. rewrite Hstep.
    destruct (IH st' (count + 1) Hready' Hall) as [Hcount Hinv].
    split; [rewrite Hcount; lia|].
    intros done Hrows Hnodup.
    replace (done ++ x :: l) with ((done ++ [x]) ++ l) in *
      by (rewrite <- app_assoc; reflexivity).
    apply Hinv; [|exact Hnodup].
    rewrite Hrows', filter_keeps_all.
    + rewrite !map_app, Hrows. simpl. rewrite Hrid. reflexivity.
    + intros old Hold. apply negb_true_iff.
      apply (no_conflict_on_other_id b r old). rewrite Hrid.
      destruct Hsid as [Hnull|[s Hs]]; [left; exact Hnull|].
      right. exists s. split; [exact Hs|].
      intros Heq.
      assert (In (SText s) (map (stored_id b) done)) as Hin.
      { rewrite <- Hrows, <- Heq. apply in_map with (f := fun r => row_get r _).
        exact Hold. }
      rewrite !map_app in Hnodup. apply NoDup_app in Hnodup as (Hnodup & _ & _).
      apply NoDup_app in Hnodup as (_ & Hdisj & _).
      apply (Hdisj (SText s)).
      * apply list_elem_of_In. exact Hin.
      * simpl. rewrite Hs. apply list_elem_of_In. left. reflexivity.
Qed.

End BatchSkip.

Section BatchSkipTheorem.
Context `{Platform}.

(** C2, as amended.  For each of the three batch operations (FIR NOTAMs,
    aerodrome NOTAMs, SNOWTAMs), a record whose id resolves to nothing is
    passed over: its step raises nothing and leaves the store as it is,
    and the batch gives the same count and the same store as the batch
    without that record.  When the table is there and the other N-1
    records are ones the operation writes, the count is N-1; and when the
    table was empty and their ids are all different, the table then holds
    N-1 rows. *)
Theorem batch_skips_record_without_id (b : batch) (l1 l2 : list json)
    (rec : json) (st : store) :
  lacks_id b rec = true ->
  batch_step b rec st = (Ok false, st)
  /\ batch_save b (l1 ++ rec :: l2) st = batch_save b (l1 ++ l2) st
  /\ (ready b st ->
      Forall (fun r => accepted b r = true) (l1 ++ l2) ->
      fst (batch_save b (l1 ++ rec :: l2) st)
      = Z.of_nat (length (l1 ++ rec :: l2)) - 1
      /\ (batch_rows b st = [] ->
          NoDup (map (stored_id b) (l1 ++ l2)) ->
          length (batch_rows b (snd (batch_save b (l1 ++ rec :: l2) st)))
          = (length (l1 ++ rec :: l2) - 1)%nat)).
Proof.
  intros Hrec.
  assert (batch_save b (l1 ++ rec :: l2) st = batch_save b (l1 ++ l2) st) as Hsame.
  { rewrite !batch_save_unfold, !save_batch_loop, !for_each_app.
    destruct (for_each (batch_step b) l1 st 0) as [st1 c1].
    simpl. rewrite (batch_step_lacks_id b rec st1 Hrec). reflexivity. }
  split; [apply batch_step_lacks_id, Hrec|]. split; [exact Hsame|].
  intros Hready Hall. rewrite Hsame, batch_save_unfold, save_batch_loop. simpl.
  destruct (for_each_accepted b (l1 ++ l2) st 0 Hready Hall) as [Hcount Hrows].
  split.
  - rewrite Hcount, !length_app. simpl. lia.
  - intros Hempty Hnodup.
    specialize (Hrows [] ltac:(rewrite Hempty; reflexivity) Hnodup).
    apply (f_equal (@length _)) in Hrows. rewrite !length_map in Hrows.
    rewrite Hrows, !length_app. simpl. lia.
Qed.

End BatchSkipTheorem.

Lemma batch_skips_record_without_id_witness :
  @batch_step Reference.platform FirBatch notam_without_id fresh_store
  = (Ok false, fresh_store)
  /\ @batch_save Reference.platform FirBatch
       ([notam_A0001] ++ notam_without_id :: [notam_A0002]) fresh_store
     = @batch_save Reference.platform FirBatch ([notam_A0001] ++ [notam_A0002]) fresh_store
  /\ fst (@batch_save Reference.platform FirBatch
            ([notam_A0001] ++ notam_without_id :: [notam_A0002]) fresh_store)
     = Z.of_nat (length ([notam_A0001] ++ notam_without_id :: [notam_A0002])) - 1
  /\ length (batch_rows FirBatch
               (snd (@batch_save Reference.platform FirBatch
                       ([notam_A0001] ++ notam_without_id :: [notam_A0002])
                       fresh_store)))
     = (length ([notam_A0001] ++ notam_without_id :: [notam_A0002]) - 1)%nat.
Proof.
  destruct (@batch_skips_record_without_id Reference.platform FirBatch
              [notam_A0001] [notam_A0002] notam_without_id fresh_store eq_refl)
    as (Hstep & Hsame & Hrest).
  destruct Hrest as [Hcount Hrows].
  - exists (Table notam_fir_schema [] 0). split; reflexivity.
  - repeat constructor.
  - split; [exact Hstep|]. split; [exact Hsame|]. split; [exact Hcount|].
    apply Hrows; [reflexivity|].
    vm_compute.
    apply NoDup_cons_2;
      [intros Hin; apply list_elem_of_In in Hin; simpl in Hin; intuition discriminate|].
    apply NoDup_cons_2; [intros Hin; apply list_elem_of_In in Hin; exact Hin|].
    apply NoDup_nil_2.
Defined.

(** The batch of the witness: two rows written, the record without id
    passed over. *)
Example batch_of_three :
  (let '(n, st) := @save_notam_fir Reference.platform
                     [notam_A0001; notam_without_id; notam_A0002] fresh_store in
   (n, map (fun r => row_get r "notam_id") (batch_rows FirBatch st)))
  = (2, [SText "A0001/26"; SText "A0002/26"]).
Proof. vm_compute. reflexivity. Qed.

(** C2, as stated, fails for the METAR entity: [save_metar] has no test of
    the key, so a record whose key fields are both missing is written, as a
    row with NULL in both key columns. *)
Lemma save_metar_stores_keyless_record :
  get_or metar_without_key ["airport"; "ad"] = JNull
  /\ get_or metar_without_key ["obsTime"; "time"] = JNull
  /\ (let '(written, st) := @save_metar Reference.platform (JObj metar_without_key)
                              fresh_store in
      (written,
       map (fun r => (row_get r "airport_icao", row_get r "observation_time",
                      row_get r "raw_metar"))
           (@entity_rows Metar st)))
     = (true, [(SNull, SNull, SText "RKSI 110000Z 09005KT")]).
Proof. repeat split; vm_compute; reflexivity. Qed.

(** The failure of one record of a batch, on the reference platform: the
    second record carries a list, its INSERT raises, and the third record is
    still written. *)
Example batch_with_failing_record :
  is_ok (fst (@batch_step Reference.platform FirBatch notam_unbindable fresh_store)) = false
  /\ (let '(n, st) := @save_notam_fir Reference.platform
                        [notam_A0001; notam_unbindable; notam_A0002] fresh_store in
      (n, map (fun r => row_get r "notam_id") (batch_rows FirBatch st),
       id_counter "notam_fir" st))
     = (2, [SText "A0001/26"; SText "A0002/26"], 2).
Proof. split; vm_compute; reflexivity. Qed.

(** ** [_request_with_retry] *)

Section Retry.
Variable cfg : Config.
Variable session_get : nat -> get_outcome.

Lemma retry_loop_sleeps (remaining : nat) :
  forall (attempt : nat) (slept : list float),
    exists k,
      attempts (retry_loop cfg session_get remaining attempt slept) = (attempt + k)%nat
      /\ sleeps (retry_loop cfg session_get remaining attempt slept)
         = slept ++ flat_map (delay_after cfg session_get) (seq attempt k).
Proof.
  induction remaining as [|rem IH]; intros attempt slept.
  - exists 0%nat. simpl. split; [lia | rewrite app_nil_r; reflexivity].
  - assert (forall k, flat_map (delay_after cfg session_get) (seq attempt (S k))
                      = delay_after cfg session_get attempt
                        ++ flat_map (delay_after cfg session_get) (seq (S attempt) k))
      as Hcons by reflexivity.
    simpl. destruct (session_get attempt) as [resp|e] eqn:E.
    + assert (delay_after cfg session_get attempt = []) as Hd
          by (unfold delay_after; rewrite E; reflexivity).
      destruct (status_code resp =? 200).
      * exists 1%nat. rewrite Hcons, Hd. simpl.
        split; [lia | rewrite app_nil_r; reflexivity].
      * destruct (IH (S attempt) slept) as (k & Ha & Hs).
        exists (S k). rewrite Ha, Hs, Hcons, Hd. split; [lia | reflexivity].
    + destruct (Z.of_nat attempt <? retry_count cfg - 1) eqn:C.
      * assert (delay_after cfg session_get attempt
                = [(retry_delay cfg * float_of_Z (Z.of_nat attempt + 1))%float]) as Hd
            by (unfold delay_after; rewrite E, C; reflexivity).
        destruct (IH (S attempt)
                    (slept ++ [(retry_delay cfg * float_of_Z (Z.of_nat attempt + 1))%float]))
          as (k & Ha & Hs).
        exists (S k). rewrite Ha, Hs, Hcons, Hd.
        split; [lia | rewrite <- app_assoc; reflexivity].
      * assert (delay_after cfg session_get attempt = []) as Hd
            by (unfold delay_after; rewrite E, C; reflexivity).
        destruct (IH (S attempt) slept) as (k & Ha & Hs).
        exists (S k). rewrite Ha, Hs, Hcons, Hd. split; [lia | reflexivity].
Qed.

Lemma retry_loop_success (remaining : nat) :
  forall (attempt : nat) (slept : list float) (n : nat) (resp : response),
    (attempt <= n < attempt + remaining)%nat ->
    (forall i, (attempt <= i < n)%nat -> failed (session_get i) = true) ->
    session_get n = Returns resp ->
    status_code resp = 200 ->
    returned (retry_loop cfg session_get remaining attempt slept) = Some resp
    /\ attempts (retry_loop cfg session_get remaining attempt slept) = S n.
Proof.
  induction remaining as [|rem IH]; intros attempt slept n resp Hn Hfail Hget Hok;
    [lia|].
  simpl. destruct (Nat.eq_dec attempt n) as [->|Hne].
  - rewrite Hget, Hok. simpl. split; reflexivity.
  - assert (failed (session_get attempt) = true) as Hf by (apply Hfail; lia).
    assert (forall slept',
               returned (retry_loop cfg session_get rem (S attempt) slept') = Some resp
               /\ attempts (retry_loop cfg session_get rem (S attempt) slept') = S n)
      as Hnext.
    { intros slept'. apply IH; [lia | | exact Hget | exact Hok].
      intros i Hi. apply Hfail. lia. }
    destruct (session_get attempt) as [r|e]; simpl in Hf.
    + apply negb_true_iff in Hf. rewrite Hf. apply Hnext.
    + destruct (Z.of_nat attempt <? retry_count cfg - 1); apply Hnext.
Qed.

Lemma retry_loop_exhausted (remaining : nat) :
  forall (attempt : nat) (slept : list float),
    (forall i, (attempt <= i < attempt + remaining)%nat ->
               failed (session_get i) = true) ->
    returned (retry_loop cfg session_get remaining attempt slept) = None
    /\ attempts (retry_loop cfg session_get remaining attempt slept)
       = (attempt + remaining)%nat.
Proof.
  induction remaining as [|rem IH]; intros attempt slept Hfail.
  - simpl. split; [reflexivity | lia].
  - simpl.
    assert (failed (session_get attempt) = true) as Hf by (apply Hfail; lia).
    assert (forall slept',
               returned (retry_loop cfg session_get rem (S attempt) slept') = None
               /\ attempts (retry_loop cfg session_get rem (S attempt) slept')
                  = (attempt + S rem)%nat)
      as Hnext.
    { intros slept'. destruct (IH (S attempt) slept') as [Hr Ha].
      - intros i Hi. apply Hfail. lia.
      - split; [exact Hr | rewrite Ha; lia]. }
    destruct (session_get attempt) as [r|e]; simpl in Hf.
    + apply negb_true_iff in Hf. rewrite Hf. apply Hnext.
    + destruct (Z.of_nat attempt <? retry_count cfg - 1); apply Hnext.
Qed.

(** C7, as amended.  The call always returns (a response or [None], never
    an exception).  When the first [n] attempts fail, by an exception or a
    status other than 200, and attempt [n], within the configured count,
    answers 200, that response is returned after [n + 1] attempts; so a
    fetch that fails twice and succeeds the third time returns the third
    response when the count is at least 3.  When every configured attempt
    fails, [None] is returned.  The delays are [retry_delay * (i + 1)]
    after each attempt [i] that raised, except the last configured
    attempt; a response with another status is retried at once. *)
Theorem request_with_retry_spec :
  let run := _request_with_retry cfg session_get in
  sleeps run = backoff cfg session_get (attempts run)
  /\ (forall n resp,
        Z.of_nat n < retry_count cfg ->
        (forall i, (i < n)%nat -> failed (session_get i) = true) ->
        session_get n = Returns resp ->
        status_code resp = 200 ->
        returned run = Some resp /\ attempts run = S n)
  /\ ((forall i, Z.of_nat i < retry_count cfg -> failed (session_get i) = true) ->
      returned run = None /\ Z.of_nat (attempts run) = Z.max 0 (retry_count cfg)).
Proof.
  unfold _request_with_retry. simpl. split; [|split].
  - destruct (retry_loop_sleeps (Z.to_nat (retry_count cfg)) 0 []) as (k & Ha & Hs).
    rewrite Hs, Ha. reflexivity.
  - intros n resp Hn Hfail Hget Hok.
    apply retry_loop_success; [lia | | exact Hget | exact Hok].
    intros i Hi. apply Hfail. lia.
  - intros Hfail.
    destruct (retry_loop_exhausted (Z.to_nat (retry_count cfg)) 0 []) as [Hr Ha].
    + intros i Hi. apply Hfail. lia.
    + split; [exact Hr | rewrite Ha; lia].
Qed.

End Retry.

(** Two failures, then a success, with the default configuration: the third
    response is returned, after delays of 1 and 2 seconds when the failures
    were exceptions. *)
Example third_attempt_succeeds :
  let timeout := Exn "ConnectTimeout" "timed out" in
  let run := _request_with_retry default_config
               (fun i => match i with
                         | 0%nat | 1%nat => Fails timeout
                         | _ => Returns (Response 200 "[]")
                         end) in
  (returned run, sleeps run, attempts run)
  = (Some (Response 200 "[]"), [1%float; 2%float], 3%nat).
Proof. vm_compute. reflexivity. Qed.

Example all_attempts_fail :
  let run := _request_with_retry default_config
               (fun _ => Fails (Exn "ConnectionError" "refused")) in
  (returned run, sleeps run, attempts run) = (None, [1%float; 2%float], 3%nat).
Proof. vm_compute. reflexivity. Qed.

(** C7, as stated, fails: after a response with status 503 the request is
    repeated, and no delay lies between the two attempts, where the claim
    has the first backoff delay [retry_delay * 1]. *)
Lemma retry_without_backoff :
  let run := _request_with_retry default_config
               (fun i => match i with
                         | 0%nat => Returns (Response 503 "")
                         | _ => Returns (Response 200 "[]")
                         end) in
  attempts run = 2%nat
  /\ returned run = Some (Response 200 "[]")
  /\ sleeps run = []
  /\ sleeps run <> [(retry_delay default_config * 1)%float].
Proof. vm_compute. repeat split; discriminate. Qed.

(** ** The facade *)

Section FacadeProperties.
Context `{Platform}.

Lemma create_response_status (w : lambda_world) (status : Z) (payload : json)
    (origin : option string) :
  statusCode (create_response w status payload origin) = status
  /\ body (create_response w status payload origin) = json_dumps payload.
Proof. split; reflexivity. Qed.

(** C9, as amended.  A [limit] that [int()] rejects is not replaced by the
    default: [handle_flights] answers with status 500 and the error
    envelope, whose message is the text of the exception: that of
    [int()] when the database connection was obtained. *)
Theorem handle_flights_invalid_limit (w : lambda_world)
    (params : gmap string string) (s : string) (e : exn) :
  params !! "limit" = Some s ->
  py_int s = Raise e ->
  exists message,
    handle_flights w params = create_response w 500 (error_body message) None
    /\ statusCode (handle_flights w params) = 500
    /\ (is_ok (get_db_connection w) = true -> message = exn_message e).
Proof.
  intros Hlimit Hint. unfold handle_flights, int_param. rewrite Hlimit, Hint.
  destruct (get_db_connection w) as [conn|e0]; simpl.
  - exists (exn_message e). repeat split.
  - exists (exn_message e0). repeat split. discriminate.
Qed.

(** C10.  A route lookup with a callsign, on a database that answers the
    queries: when the callsign query returns no row, and the registration
    query (made when [reg] is given) returns none either, the answer has
    status 200 and the body with the three nulls. *)
Theorem handle_flight_route_no_match (w : lambda_world)
    (params : gmap string string) (callsign : string) (conn : connection) :
  params !! "callsign" = Some callsign ->
  callsign <> "" ->
  get_db_connection w = Ok conn ->
  run_query conn route_by_callsign [SText ("%" +:+ py_upper callsign +:+ "%")] = Ok [] ->
  (forall reg, params !! "reg" = Some reg -> reg <> "" ->
               run_query conn route_by_registration [SText (py_upper reg)] = Ok []) ->
  handle_flight_route w params = create_response w 200 no_route None
  /\ statusCode (handle_flight_route w params) = 200
  /\ body (handle_flight_route w params) = json_dumps no_route.
Proof.
  intros Hcs Hne Hconn Hq1 Hq2.
  assert (given (Some callsign) = true) as Hgiven.
  { simpl. apply negb_true_iff, String.eqb_neq. exact Hne. }
  assert (handle_flight_route w params = create_response w 200 no_route None) as Hresp.
  { unfold handle_flight_route. rewrite Hcs, Hgiven, Hconn. simpl.
    unfold fetch_flight. simpl. rewrite Hq1. simpl.
    destruct (params !! "reg") as [reg|] eqn:Hreg; simpl; [|reflexivity].
    destruct (String.eqb reg "") eqn:Hempty; simpl; [reflexivity|].
    apply String.eqb_neq in Hempty.
    rewrite (Hq2 reg eq_refl Hempty). reflexivity. }
  rewrite Hresp. repeat split.
Qed.

End FacadeProperties.

Lemma handle_flights_invalid_limit_witness :
  exists message,
    @handle_flights Reference.platform empty_database_world {[ "limit" := "abc" ]}
    = @create_response Reference.platform empty_database_world 500
        (error_body message) None
    /\ statusCode (@handle_flights Reference.platform empty_database_world
                     {[ "limit" := "abc" ]}) = 500
    /\ (is_ok (@get_db_connection empty_database_world) = true ->
        message = exn_message (Exn "ValueError"
                                   "invalid literal for int() with base 10: 'abc'")).
Proof.
  apply (@handle_flights_invalid_limit Reference.platform empty_database_world
           {[ "limit" := "abc" ]} "abc"
           (Exn "ValueError" "invalid literal for int() with base 10: 'abc'"));
    vm_compute; reflexivity.
Defined.

(** C9, as stated, fails: with [limit=abc] the answer is the error envelope
    with status 500, not a successful response built with the default
    limit; without the parameter the same request succeeds. *)
Lemma handle_flights_abc_is_error :
  statusCode (@handle_flights Reference.platform empty_database_world
                {[ "limit" := "abc" ]}) = 500
  /\ body (@handle_flights Reference.platform empty_database_world {[ "limit" := "abc" ]})
     = Reference.ref_dumps
         (JObj [("status", JStr "error");
                ("message", JStr "invalid literal for int() with base 10: 'abc'")])
  /\ statusCode (@handle_flights Reference.platform empty_database_world ∅) = 200.
Proof. repeat split; vm_compute; reflexivity. Qed.

Lemma handle_flight_route_no_match_witness :
  @handle_flight_route Reference.platform empty_database_world {[ "callsign" := "KAL123" ]}
  = @create_response Reference.platform empty_database_world 200 no_route None
  /\ statusCode (@handle_flight_route Reference.platform empty_database_world
                   {[ "callsign" := "KAL123" ]}) = 200
  /\ body (@handle_flight_route Reference.platform empty_database_world
             {[ "callsign" := "KAL123" ]})
     = @json_dumps Reference.platform no_route.
Proof.
  apply (@handle_flight_route_no_match Reference.platform empty_database_world
           {[ "callsign" := "KAL123" ]} "KAL123"
           (Connection true (fun _ _ => Ok []))).
  - vm_compute. reflexivity.
  - discriminate.
  - reflexivity.
  - reflexivity.
  - intros reg Hreg. vm_compute in Hreg. discriminate.
Defined.

(** ** The record mapper: names and aliases *)

Lemma dict_get_cons (d : dict) (k' k : string) (v : json) :
  dict_get ((k', v) :: d) k = if String.eqb k' k then v else dict_get d k.
Proof. reflexivity. Qed.

Lemma get_or_cons (d : dict) (k k' : string) (ks : list string) :
  get_or d (k :: k' :: ks) = py_or (dict_get d k) (get_or d (k' :: ks)).
Proof. reflexivity. Qed.

(** The first truthy value wins: an alias is reached when every name before
    it gives a falsy value. *)
Lemma alias_resolves (d : dict) (pre post : list string) (a : string) :
  (forall k, In k pre -> truthy (dict_get d k) = false) ->
  truthy (dict_get d a) = true ->
  get_or d (pre ++ a :: post) = dict_get d a.
Proof.
  intros Hpre Ha. induction pre as [|k pre IH].
  - simpl. destruct post; [reflexivity|]. unfold py_or. rewrite Ha. reflexivity.
  - change ((k :: pre) ++ a :: post) with (k :: (pre ++ a :: post)).
    destruct (pre ++ a :: post) as [|k' ks] eqn:E; [destruct pre; discriminate|].
    rewrite get_or_cons. unfold py_or. rewrite (Hpre k (or_introl eq_refl)).
    apply IH. intros k0 Hk0. apply Hpre. right. exact Hk0.
Qed.

Lemma get_or_agree (d d' : dict) (ks : list string) :
  (forall k, In k ks -> dict_get d' k = dict_get d k) ->
  get_or d' ks = get_or d ks.
Proof.
  induction ks as [|k ks IH]; intros Hks; [reflexivity|].
  destruct ks as [|k' ks]; [apply Hks; left; reflexivity|].
  rewrite !get_or_cons, (Hks k (or_introl eq_refl)), IH; [reflexivity|].
  intros k0 Hk0. apply Hks. right. exact Hk0.
Qed.

Section Aliases.
Context `{Platform}.

Lemma all_separated_entity (e : entity) (st : store) :
  all_separated (entity_columns e st) = true.
Proof. destruct e; vm_compute; reflexivity. Qed.

(** C6, as amended.  In the mapper of every entity type, take a field
    looked up under a first name and aliases (the first name not being
    [eobt] of the flight plan mapper).  For an object in which the first
    name and the aliases before [a] give nothing truthy and the alias [a]
    carries a truthy value [v], the field resolves to [v]; it resolves to
    [v] as well for the object [d'] that carries [v] under the first name
    and is otherwise the same; and the two objects give the same value to
    every parameter of the INSERT except [raw_data], the serialisation of
    the object itself. *)
Theorem alias_gives_same_row (e : entity) (st : store) (d d' : dict) (now : string)
    (c : string) (src : source) (p a : string) (pre post : list string) (v : json) :
  In (c, src) (entity_columns e st) ->
  source_keys src = Some (p :: pre ++ a :: post) ->
  p <> "eobt" ->
  (forall k, In k (p :: pre) -> truthy (dict_get d k) = false) ->
  dict_get d a = v ->
  truthy v = true ->
  dict_get d' p = v ->
  (forall k, k <> p -> dict_get d' k = dict_get d k) ->
  get_or d (p :: pre ++ a :: post) = v
  /\ get_or d' (p :: pre ++ a :: post) = v
  /\ forall c' src',
       In (c', src') (entity_columns e st) ->
       src' <> RawData ->
       eval_source d' now src' = eval_source d now src'.
Proof.
  intros Hin Hkeys Hp Hfalsy Ha Hv Hp' Hsame.
  assert (get_or d (p :: pre ++ a :: post) = v) as Hd.
  { rewrite <- Ha. apply (alias_resolves d (p :: pre) post a Hfalsy).
    rewrite Ha. exact Hv. }
  assert (get_or d' (p :: pre ++ a :: post) = v) as Hd'.
  { rewrite <- Hp'. apply (alias_resolves d' [] (pre ++ a :: post) p).
    - intros k [].
    - rewrite Hp'. exact Hv. }
  split; [exact Hd|]. split; [exact Hd'|].
  assert (separated (entity_columns e st) p (p :: pre ++ a :: post) = true) as Hsep.
  { pose proof (all_separated_entity e st) as Hall. unfold all_separated in Hall.
    rewrite forallb_forall in Hall. specialize (Hall (c, src) Hin).
    simpl in Hall. rewrite Hkeys in Hall.
    apply orb_prop in Hall as [Heobt|Hsep]; [|exact Hsep].
    apply String.eqb_eq in Heobt. contradiction. }
  intros c' src' Hin' Hraw.
  assert (forall ks, source_keys src' = Some ks -> get_or d' ks = get_or d ks) as Hsrc.
  { intros ks Hks. unfold separated in Hsep. rewrite forallb_forall in Hsep.
    specialize (Hsep (c', src') Hin'). simpl in Hsep. rewrite Hks in Hsep.
    destruct (existsb (String.eqb p) ks) eqn:Hex.
    - apply bool_decide_eq_true in Hsep. subst ks. congruence.
    - apply get_or_agree. intros k Hk. apply Hsame. intros ->.
      assert (existsb (String.eqb p) ks = true) as Hex'.
      { apply existsb_exists. exists p. split; [exact Hk | apply String.eqb_refl]. }
      congruence. }
  destruct src'; simpl in *; try reflexivity; try congruence;
    rewrite (Hsrc _ eq_refl); reflexivity.
Qed.

End Aliases.

Lemma alias_gives_same_row_witness :
  let d' := ("airport", JStr "RKSI") :: metar_RKSI in
  get_or metar_RKSI ("airport" :: [] ++ "ad" :: []) = JStr "RKSI"
  /\ get_or d' ("airport" :: [] ++ "ad" :: []) = JStr "RKSI"
  /\ forall c' src',
       In (c', src') (@entity_columns Reference.platform Metar fresh_store) ->
       src' <> RawData ->
       @eval_source Reference.platform d' "" src'
       = @eval_source Reference.platform metar_RKSI "" src'.
Proof.
  apply (@alias_gives_same_row Reference.platform Metar fresh_store metar_RKSI
           (("airport", JStr "RKSI") :: metar_RKSI) ""
           "airport_icao" (Get ["airport"; "ad"]) "airport" "ad" [] [] (JStr "RKSI")).
  - left. reflexivity.
  - reflexivity.
  - discriminate.
  - intros k [<-|[]]. reflexivity.
  - reflexivity.
  - reflexivity.
  - reflexivity.
  - intros k Hk. rewrite dict_get_cons.
    destruct (String.eqb "airport" k) eqn:E; [|reflexivity].
    apply String.eqb_eq in E. congruence.
Defined.

(** C6, as stated, fails: the value under the alias is stored as the empty
    text, the same value under the first name as NULL.  The chain returns
    its first truthy value or else its last value, so an empty string under
    the first name is passed by. *)
Lemma alias_row_differs :
  dict_get notam_type_by_name "type" = dict_get notam_type_by_alias "notamType"
  /\ assoc (@parameters Reference.platform notam_fir_columns notam_type_by_alias "") "type"
     = Some (JStr "")
  /\ assoc (@parameters Reference.platform notam_fir_columns notam_type_by_name "") "type"
     = Some JNull
  /\ map (fun r => row_get r "type")
       (batch_rows FirBatch
          (snd (@save_notam_fir Reference.platform [JObj notam_type_by_alias] fresh_store)))
     = [SText ""]
  /\ map (fun r => row_get r "type")
       (batch_rows FirBatch
          (snd (@save_notam_fir Reference.platform [JObj notam_type_by_name] fresh_store)))
     = [SNull].
Proof. repeat split; vm_compute; reflexivity. Qed.

(** * Further properties of the store *)

(** ** What a save operation does to the tables *)

Lemma inserts_snoc (name : string) (m1 m2 m3 : gmap string table) (n k : nat) :
  inserts name m1 m2 n -> inserts name m2 m3 k -> inserts name m1 m3 (n + k).
Proof.
  induction 1 as [m|m m' t r n Ht _ IH]; intros H23; [exact H23|].
  simpl. eapply inserts_one; [exact Ht | apply IH, H23].
Qed.

Section SaveSteps.
Context `{Platform}.

(** An INSERT OR REPLACE, whether it succeeds or raises, leaves the indexes
    alone; when it succeeds it is one insert into its table, and when it
    raises the tables are as before. *)
Lemma execute_insert_steps (name : string) (values : list (string * json))
    (st st' : store) (res : result unit) :
  execute_insert_or_replace name values st = (res, st') ->
  indexes st' = indexes st
  /\ inserts name (tables st) (tables st') (if is_ok res then 1 else 0).
Proof.
  intros E. destruct res as [[]|e].
  - apply execute_insert_ok in E as (t & ps & Ht & _ & ->). simpl.
    split; [reflexivity|]. eapply inserts_one; [exact Ht | apply inserts_none].
  - apply execute_insert_raise in E as ->. split; [reflexivity | apply inserts_none].
Qed.

Lemma insert_record_steps (name : string) (cols : list (string * source))
    (d : dict) (st st' : store) (res : result unit) :
  insert_record name cols d st = (res, st') ->
  indexes st' = indexes st
  /\ inserts name (tables st) (tables st') (if is_ok res then 1 else 0).
Proof.
  unfold insert_record. intros E. apply execute_insert_steps in E as [Hi Hs].
  destruct (existsb _ cols); simpl in *; split; assumption.
Qed.

Lemma save_one_steps (name : string) (cols : list (string * source))
    (rec : json) (st st' : store) (ok : bool) :
  save_one name cols rec st = (ok, st') ->
  indexes st' = indexes st
  /\ inserts name (tables st) (tables st') (if ok then 1 else 0).
Proof.
  unfold save_one.
  destruct (as_dict rec) as [d|e];
    [|intros [= <- <-]; split; [reflexivity | apply inserts_none]].
  destruct (insert_record name cols d st) as [res st1] eqn:E.
  apply insert_record_steps in E.
  destruct res as [[]|e]; unfold commit; intros [= <- <-]; exact E.
Qed.

Lemma batch_body_steps (keys : list string) (name : string)
    (cols : list (string * source)) (rec : json) (st st' : store) (res : result bool) :
  batch_body keys name cols rec st = (res, st') ->
  indexes st' = indexes st
  /\ inserts name (tables st) (tables st')
       (match res with Ok true => 1 | _ => 0 end).
Proof.
  unfold batch_body.
  destruct (as_dict rec) as [d|e];
    [|intros [= <- <-]; split; [reflexivity | apply inserts_none]].
  destruct (negb _); [intros [= <- <-]; split; [reflexivity | apply inserts_none]|].
  destruct (insert_record name cols d st) as [r st1] eqn:E.
  apply insert_record_steps in E.
  destruct r as [[]|e]; intros [= <- <-]; exact E.
Qed.

Lemma for_each_steps (keys : list string) (name : string)
    (cols : list (string * source)) (items : list json) :
  forall (st : store) (count : Z),
    let run := for_each (batch_body keys name cols) items st count in
    indexes (fst run) = indexes st
    /\ count <= snd run <= count + Z.of_nat (length items)
    /\ inserts name (tables st) (tables (fst run)) (Z.to_nat (snd run - count)).
Proof.
  induction items as [|x items IH]; intros st count.
  - simpl. replace (count - count) with 0 by lia.
    split; [reflexivity|]. split; [lia | apply inserts_none].
  - simpl. destruct (batch_body keys name cols x st) as [res st1] eqn:E.
    apply batch_body_steps in E as [Hi Hs].
    destruct res as [[]|e].
    + destruct (IH st1 (count + 1)) as (Hi' & Hc & Hs'). simpl in *.
      split; [congruence|]. split; [lia|].
      replace (Z.to_nat (snd (for_each (batch_body keys name cols) items st1 (count + 1))
                         - count))
        with (1 + Z.to_nat (snd (for_each (batch_body keys name cols) items st1 (count + 1))
                            - (count + 1)))%nat by lia.
      eapply inserts_snoc; eassumption.
    + destruct (IH st1 count) as (Hi' & Hc & Hs'). simpl in *.
      split; [congruence|]. split; [lia|].
      apply (inserts_snoc _ _ _ _ 0 _ Hs Hs').
    + destruct (IH st1 count) as (Hi' & Hc & Hs'). simpl in *.
      split; [congruence|]. split; [lia|].
      apply (inserts_snoc _ _ _ _ 0 _ Hs Hs').
Qed.

(** Every batch operation is a run of inserts into its one table, as many as
    the count it returns, which lies between 0 and the number of records. *)
Lemma batch_save_steps (b : batch) (items : list json) (st : store) :
  indexes (snd (batch_save b items st)) = indexes st
  /\ 0 <= fst (batch_save b items st) <= Z.of_nat (length items)
  /\ inserts (batch_table b) (tables st) (tables (snd (batch_save b items st)))
       (Z.to_nat (fst (batch_save b items st))).
Proof.
  rewrite batch_save_unfold, save_batch_loop. simpl.
  destruct (for_each_steps (batch_id_keys b) (batch_table b) (batch_columns b) items st 0)
    as (Hi & Hc & Hs).
  unfold batch_step. simpl in *. rewrite Z.sub_0_r in Hs.
  split; [exact Hi|]. split; [lia | exact Hs].
Qed.

(** Every save of one record is at most one insert into the entity's
    table: one when it reports the record written, none otherwise. *)
Lemma save_record_steps (e : entity) (rec : json) (st : store) :
  indexes (snd (save_record e rec st)) = indexes st
  /\ inserts (entity_table e) (tables st) (tables (snd (save_record e rec st)))
       (if fst (save_record e rec st) then 1 else 0).
Proof.
  destruct e; cbn [save_record entity_table].
  1-3: match goal with
       | |- context [save_notam_fir ?l ?s] =>
           pose proof (batch_save_steps FirBatch l s) as (Hi & Hc & Hs);
           cbn [batch_save batch_table] in *;
           destruct (save_notam_fir l s) as [n st1]
       | |- context [save_notam_ad ?l ?a ?s] =>
           pose proof (batch_save_steps (AdBatch a) l s) as (Hi & Hc & Hs);
           cbn [batch_save batch_table] in *;
           destruct (save_notam_ad l a s) as [n st1]
       | |- context [save_snowtam ?l ?s] =>
           pose proof (batch_save_steps SnowtamBatch l s) as (Hi & Hc & Hs);
           cbn [batch_save batch_table] in *;
           destruct (save_snowtam l s) as [n st1]
       end;
    simpl in *; split; [exact Hi|];
    assert (n = 0 \/ n = 1) as [->| ->] by lia; exact Hs.
  all: unfold save_airport, save_runway, save_navaid, save_obstacle,
         save_flight_plan, save_metar;
    match goal with
    | |- context [save_one ?n ?c ?r ?s] =>
        destruct (save_one n c r s) as [ok st1] eqn:E;
        apply save_one_steps in E as [Hi Hs]
    end;
    simpl in *; split; assumption.
Qed.

End SaveSteps.

(** ** Runs of inserts *)

Lemma inserts_other (name : string) (m m' : gmap string table) (n : nat)
    (other : string) :
  inserts name m m' n -> other <> name -> m' !! other = m !! other.
Proof.
  induction 1 as [m|m m' t r n Ht _ IH]; intros Hne; [reflexivity|].
  rewrite IH by assumption. apply lookup_insert_ne. congruence.
Qed.

Lemma inserts_zero (name : string) (m m' : gmap string table) :
  inserts name m m' 0 -> m' = m.
Proof. inversion 1; reflexivity. Qed.

Lemma inserts_single (name : string) (m m' : gmap string table) :
  inserts name m m' 1 ->
  exists t r, m !! name = Some t /\ m' = <[name := insert_row t r]> m.
Proof.
  inversion 1 as [|m0 m1 t r n Ht Hrest]; subst.
  apply inserts_zero in Hrest. exists t, r. split; [exact Ht | exact Hrest].
Qed.

Lemma inserts_missing (name : string) (m m' : gmap string table) (n : nat) :
  m !! name = None -> inserts name m m' n -> n = 0%nat /\ m' = m.
Proof.
  intros Hnone Hs. inversion Hs; subst; [split; reflexivity | congruence].
Qed.

Lemma inserts_table (name : string) (m m' : gmap string table) (n : nat) :
  inserts name m m' n ->
  forall t, m !! name = Some t ->
  exists t',
    m' !! name = Some t'
    /\ t_schema t' = t_schema t
    /\ t_seq t' = t_seq t + Z.of_nat n
    /\ (length (t_rows t') <= length (t_rows t) + n)%nat
    /\ ((n = 0%nat /\ t' = t) \/ (0 < n /\ 0 < length (t_rows t'))%nat).
Proof.
  induction 1 as [m|m m' t0 r n Ht _ IH]; intros t Hl.
  - exists t. repeat split; try lia; [exact Hl | left; split; reflexivity].
  - assert (t0 = t) as -> by congruence.
    destruct (IH (insert_row t r)) as (t' & Hl' & Hsch & Hseq & Hlen & Hpos);
      [apply lookup_insert_eq|].
    assert (Hins : (length (t_rows (insert_row t r)) <= length (t_rows t) + 1)%nat).
    { simpl. rewrite length_app. simpl.
      pose proof (filter_length_le
                    (fun old => negb (conflicts (t_schema t) r old)) (t_rows t)). lia. }
    exists t'. split; [exact Hl'|]. split; [exact Hsch|].
    split; [simpl in Hseq; lia|]. split; [lia|]. right. split; [lia|].
    destruct Hpos as [[_ ->]|[_ Hpos]]; [|exact Hpos].
    simpl. rewrite length_app. simpl. lia.
Qed.

Lemma distinct_filter (sch : schema) (p : row -> bool) (rows : list row) :
  distinct_newest_first sch rows -> distinct_newest_first sch (List.filter p rows).
Proof.
  induction rows as [|r rows IH]; simpl; [trivial|]. intros [Hf Hd].
  destruct (p r); simpl; [|apply IH, Hd]. split; [|apply IH, Hd].
  apply List.Forall_forall. intros old Hin. apply filter_In in Hin as [Hin _].
  rewrite List.Forall_forall in Hf. apply Hf, Hin.
Qed.

Lemma insert_row_distinct (t : table) (r : row) :
  distinct_keys t -> distinct_keys (insert_row t r).
Proof.
  unfold distinct_keys, insert_row. simpl. intros Hd.
  rewrite rev_app_distr. simpl. split.
  - apply List.Forall_forall. intros old Hin. apply in_rev in Hin.
    apply filter_In in Hin as [_ Hc]. apply negb_true_iff in Hc. exact Hc.
  - rewrite <- List.filter_rev. apply distinct_filter, Hd.
Qed.

Lemma inserts_distinct (name : string) (m m' : gmap string table) (n : nat) :
  inserts name m m' n -> all_distinct m -> all_distinct m'.
Proof.
  induction 1 as [m|m m' t r n Ht _ IH]; intros Hd; [exact Hd|].
  apply IH. intros k t0 Hk. destruct (decide (k = name)) as [->|Hne].
  - rewrite lookup_insert_eq in Hk. injection Hk as <-.
    apply insert_row_distinct. eapply Hd, Ht.
  - rewrite lookup_insert_ne in Hk by congruence. eapply Hd, Hk.
Qed.

Lemma inserts_rows_kept (name : string) (m m' : gmap string table) (n : nat) :
  inserts name m m' n ->
  forall t, m !! name = Some t ->
  exists t', m' !! name = Some t'
             /\ forall r, In r (t_rows t') ->
                  In r (t_rows t) \/ (0 < n)%nat.
Proof.
  intros Hs t Ht. destruct (inserts_table _ _ _ _ Hs t Ht) as (t' & Hl & _ & _ & _ & Hpos).
  exists t'. split; [exact Hl|]. intros r Hin.
  destruct Hpos as [[_ ->]|[Hn _]]; [left; exact Hin | right; exact Hn].
Qed.

Section StoreInvariants.
Context `{Platform}.

(** X4.  The UNIQUE constraints are an invariant of the store: when no
    row of any table collides with an older row of its table, the same holds
    after every save of a single record and after every batch operation,
    whatever the records are and whether they are written, skipped or
    rejected. *)
Theorem saves_keep_keys_distinct (st : store) :
  all_distinct (tables st) ->
  (forall (e : entity) (rec : json),
      all_distinct (tables (snd (save_record e rec st))))
  /\ (forall (b : batch) (items : list json),
        all_distinct (tables (snd (batch_save b items st)))).
Proof.
  intros Hd. split.
  - intros e rec. destruct (save_record_steps e rec st) as [_ Hs].
    eapply inserts_distinct; eassumption.
  - intros b items. destruct (batch_save_steps b items st) as (_ & _ & Hs).
    eapply inserts_distinct; eassumption.
Qed.

(** X5.  A save operation touches one table only: every other table of
    the database is, after the operation, what it was before, and no index
    is created or dropped.  This holds for the save of one record of any
    entity and for the three batch operations. *)
Theorem saves_touch_one_table (st : store) (other : string) :
  (forall (e : entity) (rec : json),
      other <> entity_table e ->
      tables (snd (save_record e rec st)) !! other = tables st !! other
      /\ indexes (snd (save_record e rec st)) = indexes st)
  /\ (forall (b : batch) (items : list json),
        other <> batch_table b ->
        tables (snd (batch_save b items st)) !! other = tables st !! other
        /\ indexes (snd (batch_save b items st)) = indexes st).
Proof.
  split.
  - intros e rec Hne. destruct (save_record_steps e rec st) as [Hi Hs].
    split; [eapply inserts_other; eassumption | exact Hi].
  - intros b items Hne. destruct (batch_save_steps b items st) as (Hi & _ & Hs).
    split; [eapply inserts_other; eassumption | exact Hi].
Qed.


(** X7.  A save that reports success is exactly one INSERT OR REPLACE on
    the entity's table: the table existed, the rows that collide with the
    new row on a UNIQUE constraint are deleted, every other row stays, in
    its place, the new row is appended and the id counter advances by one;
    nothing else in the database changes. *)
Theorem successful_save_replaces_colliding_rows (e : entity) (rec : json) (st : store) :
  fst (save_record e rec st) = true ->
  exists (t : table) (r : row),
    tables st !! entity_table e = Some t
    /\ tables (snd (save_record e rec st))
       = <[entity_table e :=
             Table (t_schema t)
               (List.filter (fun old => negb (conflicts (t_schema t) r old)) (t_rows t)
                ++ [r])
               (t_seq t + 1)]> (tables st).
Proof.
  intros Ht. destruct (save_record_steps e rec st) as [_ Hs].
  rewrite Ht in Hs. apply inserts_single in Hs as (t & r & Hl & Heq).
  exists t, r. split; [exact Hl | exact Heq].
Qed.

(** X8.  [get_stats] after a batch operation that returned [n]: the counts
    of the twelve other tables are what they were, and the count of the
    batch's table has grown by at most [n] (a replaced row does not add to
    it); when [n] is positive that table is not empty. *)
Theorem get_stats_after_batch (b : batch) (items : list json) (st : store) :
  let n := fst (batch_save b items st) in
  let st' := snd (batch_save b items st) in
  0 <= n <= Z.of_nat (length items)
  /\ map fst (get_stats st') = stats_tables
  /\ forall name before after,
       assoc (get_stats st) name = Some before ->
       assoc (get_stats st') name = Some after ->
       (name <> batch_table b -> after = before)
       /\ after <= before + n
       /\ (name = batch_table b -> 0 < n -> 0 < after).
Proof.
  intros n st'. subst n st'.
  destruct (batch_save_steps b items st) as (_ & Hc & Hs).
  split; [exact Hc|]. split.
  { reflexivity. }
  assert (Hget : forall s name c, assoc (get_stats s) name = Some c ->
                                  c = row_count name s).
  { intros s name c. unfold get_stats.
    induction stats_tables as [|k ks IH]; simpl; [discriminate|].
    destruct (String.eqb k name) eqn:E; [|exact IH].
    apply String.eqb_eq in E as ->. intros [= <-]. reflexivity. }
  intros name before after Hb Ha.
  apply Hget in Hb as ->. apply Hget in Ha as ->.
  unfold row_count.
  destruct (decide (name = batch_table b)) as [->|Hne].
  - destruct (tables st !! batch_table b) as [t|] eqn:Et.
    + destruct (inserts_table _ _ _ _ Hs t Et) as (t' & -> & _ & _ & Hlen & Hpos).
      split; [congruence|]. split; [lia|]. intros _ Hn.
      destruct Hpos as [[H0 _]|[_ Hp]]; lia.
    + destruct (inserts_missing _ _ _ _ Et Hs) as [Hn ->]. rewrite Et.
      split; [congruence|]. split; [lia|]. intros _ Hp. lia.
  - rewrite (inserts_other _ _ _ _ name Hs Hne).
    split; [reflexivity|]. split; [lia | congruence].
Qed.

(** X9.  Without its table nothing is saved: when the database has no
    table for the entity (the schema was never created), every save of one
    record returns False and every batch operation returns 0, no exception
    reaches the caller and no table appears. *)
Theorem save_without_table (st : store) :
  (forall (e : entity) (rec : json),
      tables st !! entity_table e = None ->
      fst (save_record e rec st) = false
      /\ tables (snd (save_record e rec st)) = tables st)
  /\ (forall (b : batch) (items : list json),
        tables st !! batch_table b = None ->
        fst (batch_save b items st) = 0
        /\ tables (snd (batch_save b items st)) = tables st).
Proof.
  split.
  - intros e rec Hnone. destruct (save_record_steps e rec st) as [_ Hs].
    destruct (inserts_missing _ _ _ _ Hnone Hs) as [Hn Heq].
    split; [|exact Heq]. destruct (fst (save_record e rec st)); [discriminate|reflexivity].
  - intros b items Hnone. destruct (batch_save_steps b items st) as (_ & Hc & Hs).
    destruct (inserts_missing _ _ _ _ Hnone Hs) as [Hn Heq].
    split; [lia | exact Heq].
Qed.

End StoreInvariants.

(** ** The row a save writes *)

Section SavedRow.
Context `{Platform}.

(** The row of a successful save: it is the last row of the table, and each
    mapped column holds the bound parameter of its source. *)
Lemma saved_row (e : entity) (d : dict) (st : store) (t : table) :
  fst (save_record e (JObj d) st) = true ->
  tables st !! entity_table e = Some t ->
  exists r,
    last (entity_rows e (snd (save_record e (JObj d) st))) = Some r
    /\ forall c src col,
         assoc (entity_columns e st) c = Some src ->
         find_column (t_schema t) c = Some col ->
         exists b, bind_param (eval_source d (entity_now e st) src) = Ok b
                   /\ row_get r c = store_value (c_type col) b.
Proof.
  intros Hok Ht. destruct (save_record e (JObj d) st) as [ok st'] eqn:E.
  simpl in *. subst ok.
  apply save_record_true in E as (st0 & Htab & Hnow & Hins).
  rewrite <- Htab in Ht.
  destruct (insert_record_ok _ _ _ _ _ _ Hins Ht) as (ps & ts & Hbind & Hl & _).
  simpl in Hl. eexists. split.
  - unfold entity_rows. rewrite Hl. simpl. apply last_snoc.
  - intros c src col Hc Hcol. rewrite <- Hnow.
    eapply new_row_mapped; eassumption.
Qed.

(** X10.  Every entity but METAR keeps the upstream record: after a
    successful save into a table of the code's schema, the [raw_data] column
    of the written row is the text [json.dumps(record, ensure_ascii=False)]
    of the whole record, whatever the other columns took from it. *)
Theorem saved_row_keeps_raw_record (e : entity) (d : dict) (st : store) (t : table) :
  e <> Metar ->
  fst (save_record e (JObj d) st) = true ->
  tables st !! entity_table e = Some t ->
  t_schema t = entity_schema e ->
  exists r,
    last (entity_rows e (snd (save_record e (JObj d) st))) = Some r
    /\ row_get r "raw_data" = SText (json_dumps (JObj d)).
Proof.
  intros Hne Hok Ht Hsch.
  destruct (saved_row e d st t Hok Ht) as (r & Hlast & Hcols).
  exists r. split; [exact Hlast|].
  destruct (Hcols "raw_data" RawData (text "raw_data")) as (b & Hb & Hr).
  - destruct e; try reflexivity. contradiction.
  - rewrite Hsch. destruct e; try reflexivity. contradiction.
  - simpl in Hb. injection Hb as <-. exact Hr.
Qed.

(** X11.  The decimal coordinates of airports, navaids and obstacles: the
    [latitude] and [longitude] columns hold the upstream value as bound, the
    [_decimal] columns what [_parse_coordinate] makes of it.  In particular
    an upstream latitude or longitude that is not a string (a JSON number)
    leaves its decimal column NULL, although the value is a coordinate. *)
Theorem saved_decimal_coordinates (e : entity) (d : dict) (st : store) (t : table) :
  has_coordinates e = true ->
  fst (save_record e (JObj d) st) = true ->
  tables st !! entity_table e = Some t ->
  t_schema t = entity_schema e ->
  let lat := get_or d ["latitude"; "lat"] in
  let lon := get_or d ["longitude"; "lon"] in
  exists r,
    last (entity_rows e (snd (save_record e (JObj d) st))) = Some r
    /\ row_get r "latitude_decimal" = decimal_value lat
    /\ row_get r "longitude_decimal" = decimal_value lon
    /\ ((forall s, lat <> JStr s) -> row_get r "latitude_decimal" = SNull)
    /\ ((forall s, lon <> JStr s) -> row_get r "longitude_decimal" = SNull).
Proof.
  intros Hc Hok Ht Hsch lat lon.
  destruct (saved_row e d st t Hok Ht) as (r & Hlast & Hcols).
  exists r. split; [exact Hlast|].
  assert (Hlat : row_get r "latitude_decimal" = decimal_value lat).
  { destruct (Hcols "latitude_decimal" (Coordinate ["latitude"; "lat"])
                (real "latitude_decimal")) as (b & Hb & Hr).
    - destruct e; try discriminate; reflexivity.
    - rewrite Hsch. destruct e; try discriminate; reflexivity.
    - rewrite Hr. unfold decimal_value. fold lat in Hb. cbn [eval_source] in Hb.
      fold lat in Hb.
      destruct (_parse_coordinate_value lat) as [f|]; simpl in Hb; injection Hb as <-;
        [|reflexivity].
      destruct (PrimFloat.is_nan f); reflexivity. }
  assert (Hlon : row_get r "longitude_decimal" = decimal_value lon).
  { destruct (Hcols "longitude_decimal" (Coordinate ["longitude"; "lon"])
                (real "longitude_decimal")) as (b & Hb & Hr).
    - destruct e; try discriminate; reflexivity.
    - rewrite Hsch. destruct e; try discriminate; reflexivity.
    - rewrite Hr. unfold decimal_value. cbn [eval_source] in Hb. fold lon in Hb.
      destruct (_parse_coordinate_value lon) as [f|]; simpl in Hb; injection Hb as <-;
        [|reflexivity].
      destruct (PrimFloat.is_nan f); reflexivity. }
  split; [exact Hlat|]. split; [exact Hlon|]. split.
  - intros Hns. rewrite Hlat. unfold decimal_value.
    destruct lat; try reflexivity. exfalso. eapply Hns. reflexivity.
  - intros Hns. rewrite Hlon. unfold decimal_value.
    destruct lon; try reflexivity. exfalso. eapply Hns. reflexivity.
Qed.

(** X12.  The FIR of a FIR NOTAM is never left out: when the record has no
    [fir], or a falsy one (None, the empty string, 0), the row written by
    [save_notam_fir] has 'RKRR' in its [fir] column. *)
Theorem fir_defaults_to_RKRR (d : dict) (st : store) (t : table) :
  truthy (dict_get d "fir") = false ->
  fst (save_record FirNotam (JObj d) st) = true ->
  tables st !! "notam_fir" = Some t ->
  t_schema t = notam_fir_schema ->
  exists r,
    last (entity_rows FirNotam (snd (save_record FirNotam (JObj d) st))) = Some r
    /\ row_get r "fir" = SText "RKRR".
Proof.
  intros Hf Hok Ht Hsch.
  destruct (saved_row FirNotam d st t Hok Ht) as (r & Hlast & Hcols).
  exists r. split; [exact Hlast|].
  destruct (Hcols "fir" (GetOrText ["fir"] "RKRR") (text "fir")) as (b & Hb & Hr).
  - reflexivity.
  - rewrite Hsch. reflexivity.
  - cbn [eval_source get_or] in Hb. unfold py_or in Hb. rewrite Hf in Hb.
    simpl in Hb. injection Hb as <-. exact Hr.
Qed.

End SavedRow.

(** * Further properties of the request loop *)

Section RetryBounds.
Variable cfg : Config.
Variable session_get : nat -> get_outcome.

Lemma retry_loop_outcome (remaining : nat) :
  forall (attempt : nat) (slept : list float),
    let run := retry_loop cfg session_get remaining attempt slept in
    match returned run with
    | Some resp =>
        status_code resp = 200
        /\ exists n, attempts run = S n
                     /\ (attempt <= n < attempt + remaining)%nat
                     /\ session_get n = Returns resp
                     /\ forall i, (attempt <= i < n)%nat -> failed (session_get i) = true
    | None =>
        attempts run = (attempt + remaining)%nat
        /\ forall i, (attempt <= i < attempt + remaining)%nat ->
                     failed (session_get i) = true
    end.
Proof.
  induction remaining as [|rem IH]; intros attempt slept.
  - simpl. split; [lia | intros i Hi; lia].
  - assert (Hnext : forall slept',
               failed (session_get attempt) = true ->
               let run := retry_loop cfg session_get rem (S attempt) slept' in
               match returned run with
               | Some resp =>
                   status_code resp = 200
                   /\ exists n, attempts run = S n
                                /\ (attempt <= n < attempt + S rem)%nat
                                /\ session_get n = Returns resp
                                /\ forall i, (attempt <= i < n)%nat ->
                                             failed (session_get i) = true
               | None =>
                   attempts run = (attempt + S rem)%nat
                   /\ forall i, (attempt <= i < attempt + S rem)%nat ->
                                failed (session_get i) = true
               end).
    { intros slept' Hf. specialize (IH (S attempt) slept'). simpl in *.
      destruct (returned (retry_loop cfg session_get rem (S attempt) slept')) as [resp|].
      - destruct IH as (Hok & n & Ha & Hn & Hget & Hfail).
        split; [exact Hok|]. exists n. split; [exact Ha|]. split; [lia|].
        split; [exact Hget|].
        intros i Hi. destruct (Nat.eq_dec i attempt) as [->|Hne];
          [exact Hf | apply Hfail; lia].
      - destruct IH as (Ha & Hfail). split; [lia|].
        intros i Hi. destruct (Nat.eq_dec i attempt) as [->|Hne];
          [exact Hf | apply Hfail; lia]. }
    simpl. destruct (session_get attempt) as [resp|e] eqn:E.
    + destruct (status_code resp =? 200) eqn:C.
      * simpl. split; [apply Z.eqb_eq, C|]. exists attempt.
        split; [reflexivity|]. split; [lia|]. split; [exact E|]. intros i Hi. lia.
      * apply Hnext. simpl. rewrite C. reflexivity.
    + destruct (Z.of_nat attempt <? retry_count cfg - 1); apply Hnext; reflexivity.
Qed.

Lemma backoff_length (n : nat) :
  (length (backoff cfg session_get n) <= Nat.min n (Z.to_nat (retry_count cfg - 1)))%nat.
Proof.
  unfold backoff. induction n as [|n IH]; [simpl; lia|].
  rewrite seq_S, flat_map_app, length_app. cbn [flat_map Nat.add]. rewrite app_nil_r.
  assert (Hd : (length (delay_after cfg session_get n)
                <= if (Z.of_nat n <? retry_count cfg - 1)%Z then 1 else 0)%nat).
  { unfold delay_after. destruct (session_get n);
      destruct (Z.of_nat n <? retry_count cfg - 1); simpl; lia. }
  destruct (Z.of_nat n <? retry_count cfg - 1) eqn:C;
    [apply Z.ltb_lt in C | apply Z.ltb_ge in C]; lia.
Qed.

(** X13.  What [_request_with_retry] can do at most, whatever the server
    answers: it makes no more than [retry_count] requests (none when the
    count is 0 or negative) and sleeps fewer times than that; a response it
    returns has status 200, is the answer of the last request made, and every
    request before it failed; and it gives up with [None] only after all
    [retry_count] requests were made and failed. *)
Theorem request_with_retry_bounds :
  let run := _request_with_retry cfg session_get in
  Z.of_nat (attempts run) <= Z.max 0 (retry_count cfg)
  /\ Z.of_nat (length (sleeps run)) <= Z.max 0 (retry_count cfg - 1)
  /\ match returned run with
     | Some resp =>
         status_code resp = 200
         /\ exists n, attempts run = S n
                      /\ session_get n = Returns resp
                      /\ forall i, (i < n)%nat -> failed (session_get i) = true
     | None =>
         Z.of_nat (attempts run) = Z.max 0 (retry_count cfg)
         /\ forall i, Z.of_nat i < retry_count cfg -> failed (session_get i) = true
     end.
Proof.
  unfold _request_with_retry. cbv zeta.
  pose proof (retry_loop_outcome (Z.to_nat (retry_count cfg)) 0 []) as Hout.
  destruct (retry_loop_sleeps cfg session_get (Z.to_nat (retry_count cfg)) 0 [])
    as (k & Ha & Hs).
  cbv zeta in Hout. simpl in Ha, Hs.
  pose proof (backoff_length k) as Hlen. unfold backoff in Hlen.
  set (run := retry_loop cfg session_get (Z.to_nat (retry_count cfg)) 0 []) in *.
  assert (Hatt : Z.of_nat (attempts run) <= Z.max 0 (retry_count cfg)).
  { destruct (returned run) as [resp|].
    - destruct Hout as (_ & n & Hn & Hb & _). lia.
    - destruct Hout as (Hn & _). lia. }
  split; [exact Hatt|]. split.
  - rewrite Hs. lia.
  - destruct (returned run) as [resp|].
    + destruct Hout as (Hok & n & Hn & Hb & Hget & Hfail).
      split; [exact Hok|]. exists n. split; [exact Hn|]. split; [exact Hget|].
      intros i Hi. apply Hfail. lia.
    + destruct Hout as (Hn & Hfail). split; [lia|].
      intros i Hi. apply Hfail. lia.
Qed.

End RetryBounds.

(** * Further properties of the facade *)

Section HandlerProperties.
Context `{Platform}.

Lemma create_response_plain (w : lambda_world) (status : Z) (payload : json) :
  In status [200; 400; 404; 500] ->
  plain_answer (create_response w status payload None).
Proof. intros Hin. split; [exact Hin | reflexivity]. Qed.

Lemma or_500_plain (w : lambda_world) (r : result http_response) :
  (forall resp, r = Ok resp -> plain_answer resp) -> plain_answer (or_500 w r).
Proof.
  intros Hr. destruct r as [resp|e]; simpl.
  - apply Hr. reflexivity.
  - apply create_response_plain. simpl. tauto.
Qed.

Lemma bind_ok {A B} (m : result A) (k : A -> result B) (y : B) :
  (x ← m; k x) = Ok y -> exists x, m = Ok x /\ k x = Ok y.
Proof. destruct m as [x|e]; simpl; [eauto | discriminate]. Qed.

Ltac answer_200 :=
  apply create_response_plain; simpl; tauto.

Ltac unfold_binds H :=
  repeat (apply bind_ok in H as (? & ? & H)).

Lemma handle_flights_plain (w : lambda_world) (params : gmap string string) :
  plain_answer (handle_flights w params).
Proof.
  unfold handle_flights. apply or_500_plain. intros resp E.
  apply bind_ok in E as (conn & _ & E). apply bind_ok in E as (limit & _ & E).
  destruct (given (params !! "type")); unfold_binds E; injection E as <-; answer_200.
Qed.

Lemma handle_direction_plain (w : lambda_world) (params : gmap string string)
    (plan_type column order key : string) :
  plain_answer (handle_direction w params plan_type column order key).
Proof.
  unfold handle_direction. apply or_500_plain. intros resp E.
  apply bind_ok in E as (conn & _ & E). apply bind_ok in E as (limit & _ & E).
  destruct (given (params !! "airport")); unfold_binds E; injection E as <-; answer_200.
Qed.

Lemma handle_flight_search_plain (w : lambda_world) (params : gmap string string) :
  plain_answer (handle_flight_search w params).
Proof.
  unfold handle_flight_search. destruct (negb (given (search_term params))).
  - apply create_response_plain. simpl. tauto.
  - apply or_500_plain. intros resp E. unfold_binds E. injection E as <-. answer_200.
Qed.

Lemma handle_flight_route_plain (w : lambda_world) (params : gmap string string) :
  plain_answer (handle_flight_route w params).
Proof.
  unfold handle_flight_route.
  destruct (negb (given (params !! "callsign")) && negb (given (params !! "reg")))%bool.
  - apply create_response_plain. simpl. tauto.
  - apply or_500_plain. intros resp E.
    apply bind_ok in E as (conn & _ & E). apply bind_ok in E as (f1 & _ & E).
    apply bind_ok in E as (f2 & _ & E).
    destruct f2; injection E as <-; answer_200.
Qed.

Lemma handle_weather_plain (w : lambda_world) (params : gmap string string) :
  plain_answer (handle_weather w params).
Proof.
  unfold handle_weather. apply or_500_plain. intros resp E.
  apply bind_ok in E as (conn & _ & E). apply bind_ok in E as (limit & _ & E).
  destruct (given (params !! "airport")); unfold_binds E; injection E as <-; answer_200.
Qed.

Lemma handle_latest_weather_plain (w : lambda_world) (weather_type label airport : string) :
  plain_answer (handle_latest_weather w weather_type label airport).
Proof.
  unfold handle_latest_weather. apply or_500_plain. intros resp E.
  apply bind_ok in E as (conn & _ & E). apply bind_ok in E as (rows & _ & E).
  destruct rows as [|r rows].
  - injection E as <-. answer_200.
  - apply bind_ok in E as (d & _ & E). injection E as <-. answer_200.
Qed.

Lemma handle_notam_plain (w : lambda_world) (params : gmap string string) :
  plain_answer (handle_notam w params).
Proof.
  unfold handle_notam. apply or_500_plain. intros resp E.
  apply bind_ok in E as (conn & _ & E). apply bind_ok in E as (limit & _ & E).
  destruct (given (params !! "type")); destruct (given (params !! "location"));
    unfold_binds E; injection E as <-; answer_200.
Qed.

Lemma handle_notam_by_location_plain (w : lambda_world) (location : string) :
  plain_answer (handle_notam_by_location w location).
Proof.
  unfold handle_notam_by_location. apply or_500_plain. intros resp E.
  unfold_binds E. injection E as <-. answer_200.
Qed.

Lemma handle_status_plain (w : lambda_world) :
  plain_answer (handle_status w) /\ statusCode (handle_status w) = 200.
Proof.
  unfold handle_status.
  match goal with
  | |- context [match ?m with Ok resp => resp | Raise e => _ end] =>
      destruct m as [resp|e] eqn:E
  end.
  - unfold_binds E. injection E as <-. split; [answer_200 | reflexivity].
  - split; [answer_200 | reflexivity].
Qed.

Lemma handle_airport_info_plain (w : lambda_world) (icao : string) :
  plain_answer (handle_airport_info w icao).
Proof.
  unfold handle_airport_info. destruct (assoc airport_details (py_upper icao)); answer_200.
Qed.

(** Every answer to a request other than OPTIONS is a plain answer. *)
Lemma handler_plain (w : lambda_world) (event : api_event) :
  default "GET" (httpMethod event) <> "OPTIONS" ->
  plain_answer (handler w event).
Proof.
  intros Hm. unfold handler. apply String.eqb_neq in Hm. rewrite Hm.
  repeat match goal with
         | |- plain_answer (if ?c then _ else _) => destruct c
         end.
  - answer_200.
  - apply handle_status_plain.
  - apply handle_flights_plain.
  - apply handle_direction_plain.
  - apply handle_direction_plain.
  - apply handle_flight_search_plain.
  - apply handle_flight_route_plain.
  - apply handle_weather_plain.
  - apply handle_latest_weather_plain.
  - apply handle_latest_weather_plain.
  - apply handle_notam_plain.
  - apply handle_notam_by_location_plain.
  - answer_200.
  - apply handle_airport_info_plain.
  - answer_200.
Qed.

Lemma create_response_cors_header (w : lambda_world) (status : Z) (payload : json)
    (origin : option string) :
  cors_header (create_response w status payload origin)
  = match origin with
    | Some o => if (given origin && existsb (String.eqb o) (allowed_origins w))%bool
                then Some o else None
    | None => None
    end.
Proof.
  unfold cors_header, create_response. cbn [headers]. fold (allowed_origins w).
  destruct origin as [o|]; [|reflexivity].
  destruct (given (Some o) && existsb (String.eqb o) (allowed_origins w))%bool;
    reflexivity.
Qed.

Lemma create_response_cors (w : lambda_world) (status : Z) (payload : json)
    (origin : option string) (o : string) :
  cors_header (create_response w status payload origin) = Some o
  <-> origin = Some o /\ o <> "" /\ In o (allowed_origins w).
Proof.
  rewrite create_response_cors_header.
  destruct origin as [o'|]; [|split; [discriminate | intros [? _]; discriminate]].
  generalize (allowed_origins w). intros allowed.
  destruct (given (Some o') && existsb (String.eqb o') allowed)%bool eqn:C.
  - apply andb_true_iff in C as [Hg Hex].
    apply existsb_exists in Hex as (x & Hin & Hx). apply String.eqb_eq in Hx as <-.
    cbn [given] in Hg. apply negb_true_iff, String.eqb_neq in Hg.
    split.
    + intros [= <-]. repeat split; assumption.
    + intros (Heq & _ & _). exact Heq.
  - split; [discriminate|]. intros ([= <-] & Hne & Hin). exfalso.
    apply andb_false_iff in C as [C|C].
    + cbn [given] in C. apply negb_false_iff, String.eqb_eq in C. contradiction.
    + assert (existsb (String.eqb o') allowed = true); [|congruence].
      apply existsb_exists. exists o'. split; [exact Hin | apply String.eqb_refl].
Qed.

(** X14.  The status codes of the API: whatever the event, the database and
    the environment, [handler] answers with 200, 400, 404 or 500, and with
    200 when the method is OPTIONS. *)
Theorem handler_status_codes (w : lambda_world) (event : api_event) :
  In (statusCode (handler w event)) [200; 400; 404; 500]
  /\ (httpMethod event = Some "OPTIONS" -> statusCode (handler w event) = 200).
Proof.
  split.
  - destruct (String.eqb (default "GET" (httpMethod event)) "OPTIONS") eqn:E.
    + unfold handler. rewrite E. simpl. tauto.
    + apply String.eqb_neq in E. apply (handler_plain w event E).
  - intros Hm. unfold handler. rewrite Hm. reflexivity.
Qed.

(** X15.  The CORS header of the API: an answer carries
    [Access-Control-Allow-Origin] exactly when the request is an OPTIONS
    request whose origin is not empty and is in the allow list, and then the
    header is that origin.  The answer to any other request, a GET in
    particular, never carries the header, whatever its origin. *)
Theorem handler_cors_header (w : lambda_world) (event : api_event) (o : string) :
  cors_header (handler w event) = Some o
  <-> httpMethod event = Some "OPTIONS"
      /\ request_origin event = Some o
      /\ o <> ""
      /\ In o (allowed_origins w).
Proof.
  destruct (String.eqb (default "GET" (httpMethod event)) "OPTIONS") eqn:E.
  - assert (Hm : httpMethod event = Some "OPTIONS").
    { apply String.eqb_eq in E. destruct (httpMethod event) as [m|]; simpl in E;
        [congruence | discriminate]. }
    unfold handler. rewrite E. fold (request_origin event).
    rewrite create_response_cors. tauto.
  - apply String.eqb_neq in E. destruct (handler_plain w event E) as [_ Hnone].
    rewrite Hnone. split; [discriminate|]. intros (Hm & _). rewrite Hm in E.
    contradiction.
Qed.

(** X16.  The status endpoint never reports a failure: [handle_status]
    answers 200 whatever the database does, and when the database cannot
    even be opened the body still says 'success' and 'online', with the text
    of the exception as its message. *)
Theorem handle_status_always_online (w : lambda_world) :
  statusCode (handle_status w) = 200
  /\ forall e, get_db_connection w = Raise e ->
       handle_status w
       = create_response w 200
           (JObj [("status", JStr "success");
                  ("data", JObj [("status", JStr "online");
                                 ("message", JStr (exn_message e))])])
           None.
Proof.
  split; [apply handle_status_plain|].
  intros e He. unfold handle_status. rewrite He. reflexivity.
Qed.

(** X17.  When a flight search is refused.  [handle_flight_search]
    answers 400 exactly when [flight] is present and empty, or [flight] is
    missing and [callsign] is missing or empty: [callsign] stands in for
    [flight] only when [flight] is missing, so a request with an empty
    [flight] is refused whatever its [callsign].  The refusal is made
    without a look at the database. *)
Theorem flight_search_refusal (w : lambda_world) (params : gmap string string) :
  let refusal :=
    create_response w 400
      (JObj [("status", JStr "error"); ("message", JStr "flight parameter required")])
      None in
  (statusCode (handle_flight_search w params) = 400
   <-> params !! "flight" = Some ""
       \/ (params !! "flight" = None /\ given (params !! "callsign") = false))
  /\ (statusCode (handle_flight_search w params) = 400 ->
      handle_flight_search w params = refusal).
Proof.
  cbv zeta.
  assert (Hterm : given (search_term params) = false
                  <-> params !! "flight" = Some ""
                      \/ (params !! "flight" = None
                          /\ given (params !! "callsign") = false)).
  { unfold search_term. destruct (params !! "flight") as [f|] eqn:Ef.
    - simpl. rewrite negb_false_iff, String.eqb_eq. split.
      + intros ->. left. reflexivity.
      + intros [[= ->]|[Hn _]]; [reflexivity | discriminate].
    - split; [intros Hg; right; split; [reflexivity | exact Hg]|].
      intros [Hs|[_ Hg]]; [discriminate | exact Hg]. }
  assert (Hcases : (given (search_term params) = false
                    /\ handle_flight_search w params
                       = create_response w 400
                           (JObj [("status", JStr "error");
                                  ("message", JStr "flight parameter required")])
                           None)
                   \/ (given (search_term params) = true
                       /\ statusCode (handle_flight_search w params) <> 400)).
  { unfold handle_flight_search. destruct (given (search_term params)) eqn:G.
    - right. split; [reflexivity|]. cbn [negb].
      match goal with
      | |- context [or_500 w ?m] => destruct m as [resp|e] eqn:E
      end; [|simpl; discriminate].
      unfold_binds E. injection E as <-. simpl. discriminate.
    - left. split; reflexivity. }
  split.
  - rewrite <- Hterm. destruct Hcases as [[Hg Heq]|[Hg Hne]].
    + rewrite Heq. split; [intros _; exact Hg | reflexivity].
    + split; [intros H400; contradiction | intros Hf; congruence].
  - intros H400. destruct Hcases as [[_ Heq]|[_ Hne]]; [exact Heq | contradiction].
Qed.

(** X18.  The airport list and the airport details disagree.
    [handle_airport_info] answers 200 for the code RKPU, in any case of
    letters, and 404 for every other code; so of the fifteen airports that
    [handle_airports] lists, fourteen are answered with 404. *)
Theorem airport_info_knows_only_RKPU (w : lambda_world) :
  (forall c, In c listed_codes -> py_upper c = c) ->
  (forall icao,
      statusCode (handle_airport_info w icao)
      = if String.eqb (py_upper icao) "RKPU" then 200 else 404)
  /\ length listed_codes = 15%nat
  /\ length (List.filter (fun c => statusCode (handle_airport_info w c) =? 404)
               listed_codes) = 14%nat.
Proof.
  intros Hup.
  assert (Hstatus : forall icao,
             statusCode (handle_airport_info w icao)
             = if String.eqb (py_upper icao) "RKPU" then 200 else 404).
  { intros icao. unfold handle_airport_info, airport_details. cbn [assoc].
    rewrite String.eqb_sym. destruct (String.eqb (py_upper icao) "RKPU"); reflexivity. }
  split; [exact Hstatus|]. split; [reflexivity|].
  rewrite (filter_ext_in _ (fun c => negb (String.eqb c "RKPU"))).
  - reflexivity.
  - intros c Hin. rewrite Hstatus, (Hup c Hin).
    destruct (String.eqb c "RKPU"); reflexivity.
Qed.

Lemma fallback_connection (w : lambda_world) (conn : connection) :
  fallback w -> get_db_connection w = Ok conn -> row_factory conn = false.
Proof.
  intros [Hf Hs] Hc. unfold get_db_connection in Hc. rewrite Hf in Hc. simpl in Hc.
  destruct (s3_download w); [discriminate|].
  apply bind_ok in Hc as (run & _ & Hc). injection Hc as <-. reflexivity.
Qed.

Lemma dicts_from_tuples (conn : connection) (rows : list result_row) (ds : list json) :
  row_factory conn = false -> dicts_from_rows conn rows = Ok ds -> rows = [] /\ ds = [].
Proof.
  intros Hf. destruct rows as [|r rows]; simpl.
  - intros [= <-]. split; reflexivity.
  - unfold dict_from_row. rewrite Hf. simpl. discriminate.
Qed.

(** X19.  After a failed download the code connects to the local file
    without a row factory, and then no row is ever served: the METAR and the
    TAF of an airport are answered with 404 or 500, never 200, and a flight
    list or a flight search answers 500 unless the result is empty. *)
Theorem fallback_serves_no_row (w : lambda_world) :
  fallback w ->
  (forall airport, statusCode (handle_metar w airport) <> 200
                   /\ statusCode (handle_taf w airport) <> 200)
  /\ (forall params,
        statusCode (handle_flights w params) = 500
        \/ handle_flights w params
           = create_response w 200
               (JObj [("status", JStr "success");
                      ("data", JObj [("count", JInt 0); ("flights", JArr [])])])
               None)
  /\ (forall params,
        statusCode (handle_flight_search w params) = 200 ->
        handle_flight_search w params
        = create_response w 200
            (JObj [("status", JStr "success");
                   ("data", JObj [("found", JBool false); ("count", JInt 0);
                                  ("flights", JArr [])])])
            None).
Proof.
  intros Hfb.
  assert (Hweather : forall ty label airport,
             statusCode (handle_latest_weather w ty label airport) <> 200).
  { intros ty label airport. unfold handle_latest_weather.
    destruct (get_db_connection w) as [conn|e] eqn:Hc; [|simpl; discriminate].
    pose proof (fallback_connection w conn Hfb Hc) as Hrf. simpl.
    destruct (run_query conn _ _) as [[|r rows]|e]; simpl; try discriminate.
    unfold dict_from_row. rewrite Hrf. simpl. discriminate. }
  split; [|split].
  - intros airport. split; apply Hweather.
  - intros params. unfold handle_flights.
    match goal with
    | |- context [or_500 w ?m] => destruct m as [resp|e] eqn:E
    end; [|left; reflexivity].
    right. apply bind_ok in E as (conn & Hc & E). apply bind_ok in E as (limit & _ & E).
    pose proof (fallback_connection w conn Hfb Hc) as Hrf.
    destruct (given (params !! "type")); unfold_binds E; injection E as <-;
      match goal with
      | Hd : dicts_from_rows conn _ = Ok _ |- _ =>
          apply (dicts_from_tuples conn _ _ Hrf) in Hd as [_ ->]
      end; reflexivity.
  - intros params. unfold handle_flight_search.
    destruct (negb (given (search_term params))); [simpl; discriminate|].
    match goal with
    | |- context [or_500 w ?m] => destruct m as [resp|e] eqn:E
    end; [|simpl; discriminate].
    intros _. apply bind_ok in E as (conn & Hc & E).
    pose proof (fallback_connection w conn Hfb Hc) as Hrf.
    unfold_binds E. injection E as <-.
    match goal with
    | Hd : dicts_from_rows conn _ = Ok _ |- _ =>
        apply (dicts_from_tuples conn _ _ Hrf) in Hd as [_ ->]
    end. reflexivity.
Qed.

(** X20.  A limit that is not an integer is answered with 500 on every
    list endpoint, not only on the flight list: departures, arrivals,
    weather and NOTAMs answer 500 with the text of the [int] exception as
    message, once the database is open. *)
Theorem invalid_limit_on_list_endpoints (w : lambda_world)
    (params : gmap string string) (s : string) (e : exn) (conn : connection) :
  params !! "limit" = Some s ->
  py_int s = Raise e ->
  get_db_connection w = Ok conn ->
  let refused := create_response w 500 (error_body (exn_message e)) None in
  handle_departures w params = refused
  /\ handle_arrivals w params = refused
  /\ handle_weather w params = refused
  /\ handle_notam w params = refused.
Proof.
  intros Hl Hint Hc refused. subst refused.
  unfold handle_departures, handle_arrivals, handle_direction, handle_weather,
    handle_notam, int_param.
  rewrite Hl, Hint, Hc. repeat split.
Qed.

End HandlerProperties.

(** * The scheduled crawl *)

(** The constructor of the crawler raises whenever it is asked for the
    database and the database module is there. *)
Lemma crawler_init_raises (env : environment) (output_dir : string) :
  exists e, UBIKAISCrawler_init env true output_dir true = Raise e.
Proof.
  unfold UBIKAISCrawler_init, UBIKAISDatabase_init, _init_database.
  destruct (makedirs env output_dir) as [[]|e]; [|eauto]. simpl.
  destruct (makedirs env _) as [[]|e]; [|eauto]. simpl.
  destruct (connect env _) as [conn|e]; [|eauto]. simpl.
  rewrite create_tables_raises. eauto.
Qed.

(** X21.  With the database module in place no scheduled crawl ever
    succeeds: a call of [run_crawl] that gets past its two guards (no crawl
    running, both credentials set) ends in the error branch, whatever the
    mode, the login and the server would do.  The error count goes up by
    one, [last_success] is False, the crawl count and [last_crawl] stay as
    they were, and [running] is False again. *)
Theorem run_crawl_fails_with_database (w : crawl_world) (mode : string)
    (status : crawler_status) :
  db_module_available w = true ->
  running status = false ->
  given (ubikais_username w) = true ->
  given (ubikais_password w) = true ->
  run_crawl w mode status
  = CrawlerStatus (last_crawl status) false (crawl_count status)
      (error_count status + 1) false.
Proof.
  intros Hdb Hrun Hu Hp. unfold run_crawl. rewrite Hrun, Hu, Hp, Hdb. simpl.
  destruct (crawler_init_raises (crawl_env w) "/app/data") as [e He].
  rewrite He. reflexivity.
Qed.

(** X22.  What one call of [run_crawl] can do to the status, in any world:
    a call made while a crawl is running, or without a credential, changes
    nothing; otherwise exactly one of the two counters goes up by one, the
    crawl count together with [last_success] True and a new [last_crawl],
    the error count together with [last_success] False and the old
    [last_crawl]; and [running] is False after every call that found it
    False. *)
Theorem run_crawl_counts_once (w : crawl_world) (mode : string)
    (status : crawler_status) :
  let status' := run_crawl w mode status in
  (running status = true
   \/ given (ubikais_username w) = false
   \/ given (ubikais_password w) = false -> status' = status)
  /\ (running status = false -> running status' = false)
  /\ (running status = false ->
      given (ubikais_username w) = true ->
      given (ubikais_password w) = true ->
      (crawl_count status' = crawl_count status + 1
       /\ error_count status' = error_count status
       /\ last_success status' = true
       /\ last_crawl status' = Some (crawl_finished_at w))
      \/ (crawl_count status' = crawl_count status
          /\ error_count status' = error_count status + 1
          /\ last_success status' = false
          /\ last_crawl status' = last_crawl status)).
Proof.
  cbv zeta. unfold run_crawl. split; [|split].
  - intros [Hr|[Hu|Hp]].
    + rewrite Hr. reflexivity.
    + rewrite Hu. destruct (running status); reflexivity.
    + rewrite Hp. destruct (running status); [reflexivity|].
      rewrite orb_true_r. reflexivity.
  - intros Hr. rewrite Hr.
    destruct (negb (given (ubikais_username w)) || negb (given (ubikais_password w)))%bool;
      [exact Hr | reflexivity].
  - intros Hr Hu Hp. rewrite Hr, Hu, Hp. cbn [negb orb].
    match goal with
    | |- context [match ?a with Ok _ => _ | Raise _ => _ end] => destruct a
    end; [left | right]; repeat split.
Qed.

(** * The clean-up of old files *)

Lemma string_compare_trans (a : string) :
  forall b c,
    String.compare a b <> Gt -> String.compare b c <> Gt -> String.compare a c <> Gt.
Proof.
  induction a as [|x a IH]; intros [|y b] [|z c]; simpl; try congruence.
  unfold Ascii.compare.
  generalize (N_of_ascii x) (N_of_ascii y) (N_of_ascii z). intros nx ny nz.
  destruct (N.compare_spec nx ny); destruct (N.compare_spec ny nz);
    destruct (N.compare_spec nx nz); try congruence; try lia.
  apply IH.
Qed.

Lemma string_leb_trans (a b c : string) :
  String.leb a b = true -> String.leb b c = true -> String.leb a c = true.
Proof.
  unfold String.leb. intros Hab Hbc.
  pose proof (string_compare_trans a b c) as Ht.
  destruct (String.compare a b); destruct (String.compare b c);
    destruct (String.compare a c); try reflexivity; try discriminate;
    exfalso; apply Ht; congruence.
Qed.

Lemma insert_descending_perm (f : string) (files : list string) :
  Permutation (insert_descending f files) (f :: files).
Proof.
  induction files as [|g files IH]; simpl; [reflexivity|].
  destruct (String.leb g f); [reflexivity|].
  rewrite IH. apply perm_swap.
Qed.

Lemma sorted_descending_perm (files : list string) :
  Permutation (sorted_descending files) files.
Proof.
  induction files as [|f files IH]; simpl; [reflexivity|].
  rewrite insert_descending_perm, IH. reflexivity.
Qed.

Lemma insert_descending_sorted (f : string) (files : list string) :
  StronglySorted newer files -> StronglySorted newer (insert_descending f files).
Proof.
  induction 1 as [|g files Hs IH Hall]; simpl.
  - constructor; constructor.
  - destruct (String.leb g f) eqn:E.
    + constructor; [constructor; assumption|]. constructor; [exact E|].
      rewrite List.Forall_forall in *. intros x Hx. unfold newer.
      eapply string_leb_trans; [apply Hall, Hx | exact E].
    + constructor; [exact IH|].
      rewrite List.Forall_forall in *. intros x Hx.
      apply (Permutation_in _ (insert_descending_perm f files)) in Hx.
      destruct Hx as [<-|Hx]; [|apply Hall, Hx]. unfold newer.
      destruct (String.leb_total g f) as [Hgf|Hfg]; [congruence | exact Hfg].
Qed.

Lemma sorted_descending_sorted (files : list string) :
  StronglySorted newer (sorted_descending files).
Proof.
  induction files as [|f files IH]; simpl; [constructor|].
  apply insert_descending_sorted, IH.
Qed.

Lemma sorted_app_newer (l1 l2 : list string) :
  StronglySorted newer (l1 ++ l2) ->
  forall f g, In f l1 -> In g l2 -> newer f g.
Proof.
  induction l1 as [|x l1 IH]; simpl; intros Hs f g Hf Hg; [contradiction|].
  inversion Hs as [|? ? Hs' Hall]; subst.
  destruct Hf as [<-|Hf]; [|eapply IH; eassumption].
  rewrite List.Forall_forall in Hall. apply Hall, in_or_app. right. exact Hg.
Qed.

Lemma existsb_eqb_In (f : string) (l : list string) :
  existsb (String.eqb f) l = true <-> In f l.
Proof.
  rewrite existsb_exists. split.
  - intros (x & Hx & E). apply String.eqb_eq in E as ->. exact Hx.
  - intros Hin. exists f. split; [exact Hin | apply String.eqb_refl].
Qed.

Lemma slice_from_skipn {A} (n : Z) (l : list A) :
  exists k, slice_from n l = skipn k l
            /\ Nat.min k (length l) = kept_files n (length l).
Proof.
  unfold slice_from, kept_files. destruct (n <? 0) eqn:E.
  - eexists. split; [reflexivity|]. apply Z.ltb_lt in E. lia.
  - eexists. split; [reflexivity|]. reflexivity.
Qed.

Lemma filter_members_length (l1 l2 : list string) :
  List.NoDup l1 -> List.NoDup l2 -> incl l1 l2 ->
  length (List.filter (fun f => existsb (String.eqb f) l1) l2) = length l1.
Proof.
  intros H1 H2 Hincl. apply Permutation_length.
  apply Permutation.NoDup_Permutation; [apply List.NoDup_filter, H2 | exact H1|].
  intros f. rewrite filter_In, existsb_eqb_In. split; [tauto|].
  intros Hf. split; [apply Hincl, Hf | exact Hf].
Qed.

Lemma prefix_app_same (a b c : string) :
  String.prefix (a +:+ b) (a +:+ c) = String.prefix b c.
Proof.
  induction a as [|x a IH]; [reflexivity|].
  change (String.prefix (String x (a +:+ b)) (String x (a +:+ c)) = String.prefix b c).
  simpl. destruct (ascii_dec x x) as [_|Hne]; [exact IH | contradiction].
Qed.

(** X23.  The clean-up deletes timestamped files of its own name only: no
    file appears, every file of the directory that does not match
    [{name}_2*.json] is still there afterwards, and so is
    [{name}_latest.json], whatever the limit and whether or not the
    deletions succeed. *)
Theorem cleanup_keeps_other_files (max_files : Z) (removable : string -> bool)
    (name : string) (directory : list string) :
  let after := _cleanup_old_files max_files removable name directory in
  incl after directory
  /\ (forall f, In f directory -> glob_timestamped name f = false -> In f after)
  /\ (In (name +:+ "_latest.json") directory -> In (name +:+ "_latest.json") after).
Proof.
  cbv zeta. unfold _cleanup_old_files.
  set (old := slice_from max_files _).
  assert (Hother : forall f, In f directory -> glob_timestamped name f = false ->
                             In f (List.filter
                                     (fun f => negb (existsb (String.eqb f) old && removable f))
                                     directory)).
  { intros f Hin Hg. apply filter_In. split; [exact Hin|].
    destruct (existsb (String.eqb f) old) eqn:E; [|reflexivity].
    apply existsb_eqb_In in E. exfalso. subst old.
    destruct (slice_from_skipn max_files
                (sorted_descending (List.filter (glob_timestamped name) directory)))
      as (k & Hk & _).
    rewrite Hk in E.
    assert (Hsrt : In f (sorted_descending (List.filter (glob_timestamped name) directory))).
    { rewrite <- (firstn_skipn k). apply in_or_app. right. exact E. }
    apply (Permutation_in _ (sorted_descending_perm _)) in Hsrt.
    apply filter_In in Hsrt as [_ Hsrt]. congruence. }
  split; [|split].
  - intros f Hf. apply filter_In in Hf. tauto.
  - exact Hother.
  - intros Hin. apply Hother; [exact Hin|].
    unfold glob_timestamped. rewrite prefix_app_same. reflexivity.
Qed.

(** X24.  When the deletions succeed the newest files stay: of the
    timestamped files of the name, [max_files] are left (all of them when
    there are fewer), every file left sorts at or after every file deleted,
    and a limit of 0 deletes them all.  A negative limit is read by the
    slice from the end: all but the [- max_files] oldest files are
    deleted. *)
Theorem cleanup_keeps_newest (max_files : Z) (removable : string -> bool)
    (name : string) (directory : list string) :
  List.NoDup directory ->
  (forall f, removable f = true) ->
  let before := timestamped name directory in
  let after := timestamped name (_cleanup_old_files max_files removable name directory) in
  length after = kept_files max_files (length before)
  /\ incl after before
  /\ forall kept deleted,
       In kept after -> In deleted before -> ~ In deleted after ->
       newer kept deleted.
Proof.
  intros Hnd Hrem. cbv zeta. unfold timestamped, _cleanup_old_files.
  set (ts := List.filter (glob_timestamped name) directory).
  set (srt := sorted_descending ts).
  destruct (slice_from_skipn max_files srt) as (k & Hold & Hk). rewrite Hold.
  assert (Hperm : Permutation srt ts) by apply sorted_descending_perm.
  assert (Hnd_ts : List.NoDup ts) by (apply List.NoDup_filter, Hnd).
  assert (Hnd_srt : List.NoDup srt).
  { apply (Permutation_NoDup (Permutation_sym Hperm)), Hnd_ts. }
  assert (Hsplit : srt = firstn k srt ++ skipn k srt)
    by (symmetry; apply firstn_skipn).
  assert (Hafter :
            List.filter (glob_timestamped name)
              (List.filter
                 (fun f => negb (existsb (String.eqb f) (skipn k srt) && removable f))
                 directory)
            = List.filter (fun f => negb (existsb (String.eqb f) (skipn k srt))) ts).
  { generalize (skipn k srt). intros old. subst ts. clear - Hrem.
    induction directory as [|f dir IH]; [reflexivity|].
    simpl. rewrite Hrem, andb_true_r.
    destruct (glob_timestamped name f) eqn:G;
      destruct (existsb (String.eqb f) old) eqn:E; simpl;
      rewrite ?G, ?E; simpl; rewrite IH; reflexivity. }
  rewrite Hafter. split; [|split].
  - assert (Hlen : length (List.filter (fun f => existsb (String.eqb f) (skipn k srt)) ts)
                   = length (skipn k srt)).
    { apply filter_members_length; [|exact Hnd_ts|].
      - rewrite Hsplit in Hnd_srt. apply List.NoDup_app_remove_l in Hnd_srt. exact Hnd_srt.
      - intros f Hf. apply (Permutation_in _ Hperm). rewrite Hsplit.
        apply in_or_app. right. exact Hf. }
    pose proof (filter_length (fun f => existsb (String.eqb f) (skipn k srt)) ts) as Hsum.
    rewrite Hlen, length_skipn in Hsum.
    rewrite <- (Permutation_length Hperm) in Hsum |- *. rewrite <- Hk. lia.
  - intros f Hf. apply filter_In in Hf. tauto.
  - intros kept deleted Hkept Hdel Hgone.
    apply filter_In in Hkept as [Hkin Hknot].
    apply negb_true_iff in Hknot.
    assert (Hd : In deleted (skipn k srt)).
    { destruct (existsb (String.eqb deleted) (skipn k srt)) eqn:E;
        [apply existsb_eqb_In, E|].
      exfalso. apply Hgone. apply filter_In. split; [exact Hdel | rewrite E; reflexivity]. }
    assert (Hkf : In kept (firstn k srt)).
    { apply (Permutation_in _ (Permutation_sym Hperm)) in Hkin.
      rewrite Hsplit in Hkin. apply in_app_or in Hkin as [Hin|Hin]; [exact Hin|].
      apply existsb_eqb_In in Hin. congruence. }
    apply (sorted_app_newer (firstn k srt) (skipn k srt)); [|exact Hkf | exact Hd].
    rewrite <- Hsplit. apply sorted_descending_sorted.
Qed.

(** * Further properties of [_parse_coordinate] *)

Section CoordinateParserLimits.
Context `{Platform}.

(** X25.  The leading character of a coordinate with hyphens is not
    checked, it only decides the sign: whatever the character is, the
    parser returns what it returns for N, negated when the character is S
    or W. *)
Theorem parse_coordinate_letter_unchecked (h : ascii) (rest : string) :
  str_contains hyphen rest = true ->
  _parse_coordinate (String h rest)
  = option_map (signed h) (_parse_coordinate (String "N" rest)).
Proof.
  intros Hr. unfold _parse_coordinate.
  rewrite !str_contains_cons, Hr, !orb_true_r.
  destruct (py_float (part (split_on hyphen rest) 0)) as [fd|]; [|reflexivity].
  cbn [mbind option_bind].
  destruct (if (1 <? length (split_on hyphen rest))%nat
            then py_float (part (split_on hyphen rest) 1) else Some 0%float) as [fm|];
    [|reflexivity].
  cbn [mbind option_bind].
  destruct (if (2 <? length (split_on hyphen rest))%nat
            then py_float (part (split_on hyphen rest) 2) else Some 0%float) as [fs|];
    reflexivity.
Qed.

(** X26.  Whatever follows a third hyphen-separated component is ignored:
    after degrees, minutes and seconds without a hyphen in them, a further
    hyphen and any text, digits or not, leave the result as it is. *)
Theorem parse_coordinate_extra_ignored (h : ascii) (d m s extra : string) :
  str_contains hyphen d = false ->
  str_contains hyphen m = false ->
  str_contains hyphen s = false ->
  _parse_coordinate (String h (d +:+ "-" +:+ m +:+ "-" +:+ s +:+ "-" +:+ extra))
  = _parse_coordinate (String h (d +:+ "-" +:+ m +:+ "-" +:+ s)).
Proof.
  intros Hd Hm Hs. unfold _parse_coordinate.
  rewrite !str_contains_cons, !str_contains_app.
  replace (str_contains hyphen ("-" +:+ m +:+ "-" +:+ s +:+ "-" +:+ extra))
    with true by reflexivity.
  replace (str_contains hyphen ("-" +:+ m +:+ "-" +:+ s)) with true by reflexivity.
  rewrite !orb_true_r.
  change ("-" +:+ m +:+ "-" +:+ s +:+ "-" +:+ extra)
    with (String hyphen (m +:+ String hyphen (s +:+ String hyphen extra))).
  change ("-" +:+ m +:+ "-" +:+ s) with (String hyphen (m +:+ String hyphen s)).
  rewrite !(split_on_first _ _ _ Hd), !(split_on_first _ _ _ Hm),
    (split_on_first _ _ _ Hs), (split_on_absent _ _ Hs).
  destruct (split_on hyphen extra) as [|x xs] eqn:E;
    [exfalso; exact (split_on_nonempty _ _ E)|].
  reflexivity.
Qed.

End CoordinateParserLimits.

(** * Fetching and the crawl summary *)

Section FetchProperties.
Variable json_loads : string -> option json.
Variable cfg : Config.

(** X27.  [_ubikais_fetch] decodes the first answer with status 200 and
    nothing else: when the first [n] attempts fail and attempt [n], within
    the configured count, answers 200, the result is the decoded body of
    that answer, and [None] when the body is not JSON; no further attempt is
    made for a body that cannot be decoded.  When every attempt fails the
    result is [None]. *)
Theorem ubikais_fetch_first_answer (session_get : nat -> get_outcome) :
  (forall n resp,
      Z.of_nat n < retry_count cfg ->
      (forall i, (i < n)%nat -> failed (session_get i) = true) ->
      session_get n = Returns resp ->
      status_code resp = 200 ->
      _ubikais_fetch json_loads cfg session_get
      = match json_loads (content resp) with Some v => v | None => JNull end
      /\ attempts (_request_with_retry cfg session_get) = S n)
  /\ ((forall i, Z.of_nat i < retry_count cfg -> failed (session_get i) = true) ->
      _ubikais_fetch json_loads cfg session_get = JNull).
Proof.
  split.
  - intros n resp Hn Hfail Hget Hok.
    destruct (retry_loop_success cfg session_get (Z.to_nat (retry_count cfg)) 0 [] n resp)
      as [Hr Ha]; [lia | | exact Hget | exact Hok |].
    { intros i Hi. apply Hfail. lia. }
    unfold _ubikais_fetch, _request_with_retry. rewrite Hr.
    unfold response_ok. rewrite Hok. split; [reflexivity | exact Ha].
  - intros Hfail.
    destruct (retry_loop_exhausted cfg session_get (Z.to_nat (retry_count cfg)) 0 [])
      as [Hr _].
    { intros i Hi. apply Hfail. lia. }
    unfold _ubikais_fetch, _request_with_retry. rewrite Hr. reflexivity.
Qed.

(** X28.  The crawl summary calls AIM Korea a success whenever its file
    could be written, with or without NOTAMs: the status of [aim] is
    'success' for every outcome of the requests, also when each of them
    failed, and then the saved [notams] are empty. *)
Theorem aim_reported_success_without_data (aim_get : string -> nat -> get_outcome)
    (airports : list string) (now summary_time : string)
    (save_data : string -> string -> json -> result string)
    (ubikais weather airport : result json) :
  is_ok (save_data "aim" "notam"
           (JObj [("crawled_at", JStr now); ("source", JStr "AIM_Korea");
                  ("notams", JObj (aim_notams json_loads cfg aim_get airports))]))
  = true ->
  let aim := crawl_aim_korea json_loads cfg aim_get airports now save_data in
  summary_status (crawl_summary summary_time (crawl_results ubikais aim weather airport))
    "aim" = JStr "success"
  /\ ((forall a i, failed (aim_get a i) = true) ->
      aim = Ok (JObj [("crawled_at", JStr now); ("source", JStr "AIM_Korea");
                      ("notams", JObj [])])).
Proof.
  intros Hsave aim. subst aim. unfold crawl_aim_korea.
  destruct (save_data "aim" "notam" _) as [path|e] eqn:E; [|discriminate].
  cbn [mbind result_bind]. split.
  - reflexivity.
  - intros Hfail.
    assert (Hn : aim_notams json_loads cfg aim_get airports = []).
    { unfold aim_notams. generalize (@nil (string * json)) at 1 2. clear - Hfail.
      induction airports as [|a l IH]; intros acc; [reflexivity|].
      assert (Hr : returned (_request_with_retry cfg (aim_get a)) = None).
      { apply (retry_loop_exhausted cfg (aim_get a) (Z.to_nat (retry_count cfg)) 0 []).
        intros i _. apply Hfail. }
      cbn [fold_left]. rewrite Hr. apply IH. }
    rewrite Hn. reflexivity.
Qed.

End FetchProperties.

(** * The further properties on concrete data *)

Lemma all_distinct_after_first_metar : all_distinct (tables after_first_metar).
Proof.
  apply map_Forall_to_list. vm_compute.
  repeat (apply List.Forall_cons; [repeat constructor|]). apply List.Forall_nil.
Qed.

Lemma saves_keep_keys_distinct_witness :
  (forall (e : entity) (rec : json),
      all_distinct (tables (snd (@save_record Reference.platform e rec after_first_metar))))
  /\ (forall (b : batch) (items : list json),
        all_distinct
          (tables (snd (@batch_save Reference.platform b items after_first_metar)))).
Proof.
  apply (@saves_keep_keys_distinct Reference.platform after_first_metar).
  apply all_distinct_after_first_metar.
Defined.

Lemma saves_touch_one_table_witness :
  tables (snd (@save_record Reference.platform Metar (JObj metar_RKSI) fresh_store))
    !! "airports"
  = tables fresh_store !! "airports"
  /\ indexes (snd (@save_record Reference.platform Metar (JObj metar_RKSI) fresh_store))
     = indexes fresh_store.
Proof.
  apply (@saves_touch_one_table Reference.platform fresh_store "airports").
  discriminate.
Defined.


Lemma successful_save_replaces_colliding_rows_witness :
  exists (t : table) (r : row),
    tables after_first_metar !! entity_table Metar = Some t
    /\ tables (snd (@save_record Reference.platform Metar (JObj metar_RKSI)
                      after_first_metar))
       = <[entity_table Metar :=
             Table (t_schema t)
               (List.filter (fun old => negb (conflicts (t_schema t) r old)) (t_rows t)
                ++ [r])
               (t_seq t + 1)]> (tables after_first_metar).
Proof.
  apply (@successful_save_replaces_colliding_rows Reference.platform Metar
           (JObj metar_RKSI) after_first_metar).
  vm_compute. reflexivity.
Defined.

(** The counts of the scenario: two NOTAMs written, one record passed over,
    the other tables empty. *)
Example get_stats_after_three_notams :
  @get_stats (snd (@batch_save Reference.platform FirBatch
                     [notam_A0001; notam_without_id; notam_A0002] fresh_store))
  = [ ("notam_fir", 2); ("notam_ad", 0); ("snowtam", 0); ("prohibited_area", 0);
      ("airports", 0); ("runways", 0); ("aprons", 0); ("navaids", 0); ("obstacles", 0);
      ("flight_plans", 0); ("metar", 0); ("taf", 0); ("sigmet", 0) ].
Proof. vm_compute. reflexivity. Qed.

Lemma save_without_table_witness :
  fst (@batch_save Reference.platform FirBatch [notam_A0001; notam_A0002] (Store ∅ ∅ 0)) = 0
  /\ tables (snd (@batch_save Reference.platform FirBatch [notam_A0001; notam_A0002]
                    (Store ∅ ∅ 0)))
     = tables (Store ∅ ∅ 0).
Proof.
  apply (@save_without_table Reference.platform (Store ∅ ∅ 0)). reflexivity.
Defined.

Lemma saved_row_keeps_raw_record_witness :
  exists r,
    last (@entity_rows Airport
            (snd (@save_record Reference.platform Airport (JObj airport_RKPU) fresh_store)))
    = Some r
    /\ row_get r "raw_data" = SText (@json_dumps Reference.platform (JObj airport_RKPU)).
Proof.
  apply (@saved_row_keeps_raw_record Reference.platform Airport airport_RKPU fresh_store
           (Table airports_schema [] 0)).
  - discriminate.
  - vm_compute. reflexivity.
  - reflexivity.
  - reflexivity.
Defined.

Lemma saved_decimal_coordinates_witness :
  let lat := get_or airport_RKPU ["latitude"; "lat"] in
  let lon := get_or airport_RKPU ["longitude"; "lon"] in
  exists r,
    last (@entity_rows Airport
            (snd (@save_record Reference.platform Airport (JObj airport_RKPU) fresh_store)))
    = Some r
    /\ row_get r "latitude_decimal" = @decimal_value Reference.platform lat
    /\ row_get r "longitude_decimal" = @decimal_value Reference.platform lon
    /\ ((forall s, lat <> JStr s) -> row_get r "latitude_decimal" = SNull)
    /\ ((forall s, lon <> JStr s) -> row_get r "longitude_decimal" = SNull).
Proof.
  apply (@saved_decimal_coordinates Reference.platform Airport airport_RKPU fresh_store
           (Table airports_schema [] 0)).
  - reflexivity.
  - vm_compute. reflexivity.
  - reflexivity.
  - reflexivity.
Defined.

(** The airport of the witness: the latitude is parsed, the longitude, a
    number, is kept as text and has no decimal value. *)
Example airport_with_numeric_longitude :
  map (fun r => (row_get r "latitude", row_get r "latitude_decimal",
                 row_get r "longitude", row_get r "longitude_decimal"))
      (@entity_rows Airport
         (snd (@save_record Reference.platform Airport (JObj airport_RKPU) fresh_store)))
  = [(SText "N35-35-37", SReal (35 + 35 / 60 + 37 / 3600)%float, SText "129", SNull)].
Proof. vm_compute. reflexivity. Qed.

Lemma fir_defaults_to_RKRR_witness :
  exists r,
    last (@entity_rows FirNotam
            (snd (@save_record Reference.platform FirNotam notam_A0002 fresh_store)))
    = Some r
    /\ row_get r "fir" = SText "RKRR".
Proof.
  apply (@fir_defaults_to_RKRR Reference.platform
           [("notamNo", JStr "A0002/26"); ("notamType", JStr "N")] fresh_store
           (Table notam_fir_schema [] 0)).
  - reflexivity.
  - vm_compute. reflexivity.
  - reflexivity.
  - reflexivity.
Defined.

(** A server that answers 503 every time: three requests, no delay, no
    response. *)
Example always_unavailable :
  let run := _request_with_retry default_config (fun _ => Returns (Response 503 "")) in
  (returned run, sleeps run, attempts run) = (None, [], 3%nat).
Proof. vm_compute. reflexivity. Qed.

Lemma handler_status_codes_witness :
  statusCode (@handler Reference.platform empty_database_world
                (ApiEvent (Some "OPTIONS") (Some "/api/flights") None None)) = 200.
Proof.
  apply (@handler_status_codes Reference.platform empty_database_world
           (ApiEvent (Some "OPTIONS") (Some "/api/flights") None None)).
  reflexivity.
Defined.

(** A GET from an allowed origin gets no CORS header; the OPTIONS request
    from the same origin gets it. *)
Example cors_header_on_options_only :
  let hs : option (gmap string string) := Some {[ "origin" := "https://tbas.vercel.app" ]} in
  cors_header (@handler Reference.platform empty_database_world
                 (ApiEvent (Some "GET") (Some "/api/airports") None hs)) = None
  /\ cors_header (@handler Reference.platform empty_database_world
                    (ApiEvent (Some "OPTIONS") (Some "/api/airports") None hs))
     = Some "https://tbas.vercel.app".
Proof. split; vm_compute; reflexivity. Qed.

Lemma handle_status_always_online_witness :
  @handle_status Reference.platform closed_database_world
  = @create_response Reference.platform closed_database_world 200
      (JObj [("status", JStr "success");
             ("data", JObj [("status", JStr "online");
                            ("message", JStr "unable to open database file")])])
      None.
Proof.
  apply (proj2 (@handle_status_always_online Reference.platform closed_database_world)
           (Exn "OperationalError" "unable to open database file")).
  reflexivity.
Defined.

(** A search with an empty [flight] and a callsign is refused. *)
Example empty_flight_masks_callsign :
  statusCode (@handle_flight_search Reference.platform empty_database_world
                (<["flight" := ""]> {[ "callsign" := "KAL123" ]})) = 400.
Proof. vm_compute. reflexivity. Qed.

(** The same search without [flight] is answered from the database. *)
Example callsign_alone_is_searched :
  statusCode (@handle_flight_search Reference.platform empty_database_world
                {[ "callsign" := "KAL123" ]}) = 200.
Proof. vm_compute. reflexivity. Qed.

Lemma airport_info_knows_only_RKPU_witness :
  (forall icao,
      statusCode (@handle_airport_info Reference.platform empty_database_world icao)
      = if String.eqb (@py_upper Reference.platform icao) "RKPU" then 200 else 404)
  /\ length listed_codes = 15%nat
  /\ length (List.filter
               (fun c => statusCode (@handle_airport_info Reference.platform
                                       empty_database_world c) =? 404)
               listed_codes) = 14%nat.
Proof.
  apply (@airport_info_knows_only_RKPU Reference.platform empty_database_world).
  intros c Hin. vm_compute in Hin.
  repeat (destruct Hin as [<-|Hin]; [vm_compute; reflexivity|]).
  contradiction.
Defined.

Lemma fallback_serves_no_row_witness :
  (forall airport,
      statusCode (@handle_metar Reference.platform fallback_world airport) <> 200
      /\ statusCode (@handle_taf Reference.platform fallback_world airport) <> 200)
  /\ (forall params,
        statusCode (@handle_flights Reference.platform fallback_world params) = 500
        \/ @handle_flights Reference.platform fallback_world params
           = @create_response Reference.platform fallback_world 200
               (JObj [("status", JStr "success");
                      ("data", JObj [("count", JInt 0); ("flights", JArr [])])])
               None)
  /\ (forall params,
        statusCode (@handle_flight_search Reference.platform fallback_world params) = 200 ->
        @handle_flight_search Reference.platform fallback_world params
        = @create_response Reference.platform fallback_world 200
            (JObj [("status", JStr "success");
                   ("data", JObj [("found", JBool false); ("count", JInt 0);
                                  ("flights", JArr [])])])
            None).
Proof.
  apply (@fallback_serves_no_row Reference.platform fallback_world).
  split; reflexivity.
Defined.

(** In the world of the witness the one flight of the local file is not
    served: the flight list answers 500. *)
Example fallback_flight_list :
  statusCode (@handle_flights Reference.platform fallback_world ∅) = 500
  /\ body (@handle_flights Reference.platform fallback_world ∅)
     = Reference.ref_dumps
         (JObj [("status", JStr "error");
                ("message", JStr "'tuple' object has no attribute 'keys'")]).
Proof. split; vm_compute; reflexivity. Qed.

Lemma invalid_limit_on_list_endpoints_witness :
  let refused :=
    @create_response Reference.platform empty_database_world 500
      (error_body "invalid literal for int() with base 10: 'abc'") None in
  @handle_departures Reference.platform empty_database_world {[ "limit" := "abc" ]} = refused
  /\ @handle_arrivals Reference.platform empty_database_world {[ "limit" := "abc" ]} = refused
  /\ @handle_weather Reference.platform empty_database_world {[ "limit" := "abc" ]} = refused
  /\ @handle_notam Reference.platform empty_database_world {[ "limit" := "abc" ]} = refused.
Proof.
  apply (@invalid_limit_on_list_endpoints Reference.platform empty_database_world
           {[ "limit" := "abc" ]} "abc"
           (Exn "ValueError" "invalid literal for int() with base 10: 'abc'")
           (Connection true (fun _ _ => Ok [])));
    vm_compute; reflexivity.
Defined.

Lemma run_crawl_fails_with_database_witness :
  run_crawl scheduled_world "full" idle_status
  = CrawlerStatus (last_crawl idle_status) false (crawl_count idle_status)
      (error_count idle_status + 1) false.
Proof.
  apply (run_crawl_fails_with_database scheduled_world "full" idle_status);
    reflexivity.
Defined.

Lemma run_crawl_counts_once_witness :
  run_crawl scheduled_world "realtime" (CrawlerStatus None true 4 1 true)
  = CrawlerStatus None true 4 1 true.
Proof.
  apply (run_crawl_counts_once scheduled_world "realtime" (CrawlerStatus None true 4 1 true)).
  left. reflexivity.
Defined.

Lemma cleanup_keeps_other_files_witness :
  In "notam_latest.json"
    (_cleanup_old_files 0 (fun _ => true) "notam" notam_directory).
Proof.
  apply (cleanup_keeps_other_files 0 (fun _ => true) "notam" notam_directory).
  vm_compute. tauto.
Defined.

Lemma cleanup_keeps_newest_witness :
  let before := timestamped "notam" notam_directory in
  let after :=
    timestamped "notam" (_cleanup_old_files 2 (fun _ => true) "notam" notam_directory) in
  length after = kept_files 2 (length before)
  /\ incl after before
  /\ forall kept deleted,
       In kept after -> In deleted before -> ~ In deleted after -> newer kept deleted.
Proof.
  apply (cleanup_keeps_newest 2 (fun _ => true) "notam" notam_directory).
  - repeat (apply List.NoDup_cons; [vm_compute; intuition discriminate|]).
    apply List.NoDup_nil.
  - reflexivity.
Defined.

(** The directory of the witness under three limits: the two newest files
    stay; a limit of 0 deletes every timestamped file; a limit of -1 deletes
    the oldest file only. *)
Example cleanup_of_notam_directory :
  _cleanup_old_files 2 (fun _ => true) "notam" notam_directory
  = [ "notam_20260111_010000.json"; "notam_latest.json";
      "notam_20260111_020000.json"; "aviation_20260111_000000.json" ]
  /\ _cleanup_old_files 0 (fun _ => true) "notam" notam_directory
     = [ "notam_latest.json"; "aviation_20260111_000000.json" ]
  /\ _cleanup_old_files (-1) (fun _ => true) "notam" notam_directory
     = [ "notam_20260111_010000.json"; "notam_latest.json";
         "notam_20260111_020000.json"; "aviation_20260111_000000.json" ].
Proof. repeat split; vm_compute; reflexivity. Qed.

Lemma parse_coordinate_letter_unchecked_witness :
  @_parse_coordinate Reference.platform "X37-27-45"
  = option_map (signed "X") (@_parse_coordinate Reference.platform "N37-27-45").
Proof.
  apply (@parse_coordinate_letter_unchecked Reference.platform "X" "37-27-45").
  reflexivity.
Defined.

Lemma parse_coordinate_extra_ignored_witness :
  @_parse_coordinate Reference.platform
    (String "N" ("37" +:+ "-" +:+ "27" +:+ "-" +:+ "45" +:+ "-" +:+ "99-east"))
  = @_parse_coordinate Reference.platform
      (String "N" ("37" +:+ "-" +:+ "27" +:+ "-" +:+ "45")).
Proof.
  apply (@parse_coordinate_extra_ignored Reference.platform "N" "37" "27" "45" "99-east");
    reflexivity.
Defined.

Lemma ubikais_fetch_first_answer_witness :
  let loads := fun s : string => if String.eqb s "[]" then Some (JArr []) else None in
  let session_get := fun i : nat =>
                       match i with
                       | 0%nat => Fails (Exn "ConnectTimeout" "timed out")
                       | _ => Returns (Response 200 "<html>login</html>")
                       end in
  _ubikais_fetch loads default_config session_get = JNull
  /\ attempts (_request_with_retry default_config session_get) = 2%nat.
Proof.
  cbv zeta.
  apply (proj1 (ubikais_fetch_first_answer
                  (fun s : string => if String.eqb s "[]" then Some (JArr []) else None)
                  default_config
                  (fun i : nat =>
                     match i with
                     | 0%nat => Fails (Exn "ConnectTimeout" "timed out")
                     | _ => Returns (Response 200 "<html>login</html>")
                     end))
           1%nat (Response 200 "<html>login</html>")).
  - reflexivity.
  - intros i Hi. assert (i = 0%nat) as -> by lia. reflexivity.
  - reflexivity.
  - reflexivity.
Defined.

Lemma aim_reported_success_without_data_witness :
  let loads := fun s : string => if String.eqb s "[]" then Some (JArr []) else None in
  let aim_get := fun (_ : string) (_ : nat) => Fails (Exn "ConnectionError" "refused") in
  let save_data := fun (_ _ : string) (_ : json) =>
                     Ok "/data/aim/notam_20260111_000000.json" in
  let aim := crawl_aim_korea loads default_config aim_get ["RKSI"; "RKSS"]
               "2026-01-11T00:00:00" save_data in
  summary_status
    (crawl_summary "2026-01-11T00:00:05"
       (crawl_results (Ok JNull) aim (Raise (Exn "OSError" "disk full"))
          (Raise (Exn "OSError" "disk full"))))
    "aim" = JStr "success"
  /\ ((forall a i, failed (aim_get a i) = true) ->
      aim = Ok (JObj [("crawled_at", JStr "2026-01-11T00:00:00");
                      ("source", JStr "AIM_Korea"); ("notams", JObj [])])).
Proof.
  cbv zeta.
  apply (aim_reported_success_without_data
           (fun s : string => if String.eqb s "[]" then Some (JArr []) else None)
           default_config
           (fun (_ : string) (_ : nat) => Fails (Exn "ConnectionError" "refused"))
           ["RKSI"; "RKSS"] "2026-01-11T00:00:00" "2026-01-11T00:00:05"
           (fun (_ _ : string) (_ : json) => Ok "/data/aim/notam_20260111_000000.json")
           (Ok JNull) (Raise (Exn "OSError" "disk full")) (Raise (Exn "OSError" "disk full"))).
  reflexivity.
Defined.

(** * The routes with a path parameter *)

Lemma split_on_tail (sep : ascii) (a b : string) :
  exists p pre, split_on sep (a +:+ String sep b) = (p :: pre) ++ split_on sep b.
Proof.
  induction a as [|c a IH].
  - exists EmptyString, []. simpl. rewrite Ascii.eqb_refl. reflexivity.
  - destruct IH as (p & pre & IH).
    change (String c a +:+ String sep b) with (String c (a +:+ String sep b)).
    simpl. rewrite IH. destruct (Ascii.eqb c sep).
    + exists EmptyString, (p :: pre). reflexivity.
    + exists (String c p), pre. reflexivity.
Qed.

Lemma last_app_nonempty {A} (l1 l2 : list A) (d : A) :
  l2 <> [] -> List.last (l1 ++ l2) d = List.last l2 d.
Proof.
  intros Hne. induction l1 as [|x l1 IH]; [reflexivity|].
  simpl. destruct (l1 ++ l2) eqn:E; [|exact IH].
  apply app_eq_nil in E as [_ E]. contradiction.
Qed.

(** The last segment of a path is the last segment of what follows any of
    its slashes. *)
Lemma last_segment_after_slash (a b : string) :
  last_segment (a +:+ String "/" b) = last_segment b.
Proof.
  unfold last_segment. destruct (split_on_tail "/" a b) as (p & pre & ->).
  apply last_app_nonempty, split_on_nonempty.
Qed.

Lemma prefix_of_append (a rest : string) : String.prefix a (a +:+ rest) = true.
Proof.
  induction a as [|c a IH]; [destruct rest; reflexivity|].
  change (String c a +:+ rest) with (String c (a +:+ rest)).
  simpl. destruct (ascii_dec c c) as [_|Hne]; [exact IH | contradiction].
Qed.

Section Routing.
Context `{Platform}.

Ltac decide_tests rest :=
  repeat match goal with
         | |- context [String.eqb (?a +:+ rest) ?l] =>
             replace (String.eqb (a +:+ rest) l) with false by reflexivity
         | |- context [String.prefix ?l (?a +:+ rest)] =>
             first [ rewrite (prefix_of_append l rest)
                   | replace (String.prefix l (a +:+ rest)) with false by reflexivity ]
         end.

(** X29.  The four routes with a path parameter hand the last segment of
    the path to their handler, whatever lies between the prefix and that
    segment: a request other than OPTIONS for [/api/weather/metar/...],
    [/api/weather/taf/...], [/api/notam/...] or [/api/airports/...] is
    answered by [handle_metar], [handle_taf], [handle_notam_by_location] or
    [handle_airport_info] of the text after the last slash, the empty text
    for a path that ends with a slash. *)
Theorem handler_routes_last_segment (w : lambda_world) (method rest : string)
    (params hs : option (gmap string string)) :
  method <> "OPTIONS" ->
  let request := fun p => ApiEvent (Some method) (Some p) params hs in
  handler w (request ("/api/weather/metar/" +:+ rest)) = handle_metar w (last_segment rest)
  /\ handler w (request ("/api/weather/taf/" +:+ rest)) = handle_taf w (last_segment rest)
  /\ handler w (request ("/api/notam/" +:+ rest))
     = handle_notam_by_location w (last_segment rest)
  /\ handler w (request ("/api/airports/" +:+ rest))
     = handle_airport_info w (last_segment rest).
Proof.
  intros Hm request. subst request. apply String.eqb_neq in Hm.
  unfold handler. cbn [httpMethod path default from_option id]. rewrite Hm.
  repeat split; decide_tests rest.
  - change ("/api/weather/metar/" +:+ rest) with ("/api/weather/metar" +:+ String "/" rest).
    rewrite last_segment_after_slash. reflexivity.
  - change ("/api/weather/taf/" +:+ rest) with ("/api/weather/taf" +:+ String "/" rest).
    rewrite last_segment_after_slash. reflexivity.
  - change ("/api/notam/" +:+ rest) with ("/api/notam" +:+ String "/" rest).
    rewrite last_segment_after_slash. reflexivity.
  - change ("/api/airports/" +:+ rest) with ("/api/airports" +:+ String "/" rest).
    rewrite last_segment_after_slash. reflexivity.
Qed.

End Routing.

Lemma handler_routes_last_segment_witness :
  let request := fun p => ApiEvent (Some "GET") (Some p) None None in
  @handler Reference.platform empty_database_world
    (request ("/api/weather/metar/" +:+ "v1/RKSI"))
  = @handle_metar Reference.platform empty_database_world (last_segment "v1/RKSI")
  /\ @handler Reference.platform empty_database_world
       (request ("/api/weather/taf/" +:+ "v1/RKSI"))
     = @handle_taf Reference.platform empty_database_world (last_segment "v1/RKSI")
  /\ @handler Reference.platform empty_database_world (request ("/api/notam/" +:+ "v1/RKSI"))
     = @handle_notam_by_location Reference.platform empty_database_world
         (last_segment "v1/RKSI")
  /\ @handler Reference.platform empty_database_world
       (request ("/api/airports/" +:+ "v1/RKSI"))
     = @handle_airport_info Reference.platform empty_database_world
         (last_segment "v1/RKSI").
Proof.
  apply (@handler_routes_last_segment Reference.platform empty_database_world
           "GET" "v1/RKSI" None None).
  discriminate.
Defined.

(** A path with a segment before the code is answered for the code; a path
    that ends with a slash is answered for the empty code. *)
Example airport_info_paths :
  let get := fun p => statusCode (@handler Reference.platform empty_database_world
                                    (ApiEvent (Some "GET") (Some p) None None)) in
  (get "/api/airports/RKPU", get "/api/airports/v1/rkpu", get "/api/airports/",
   get "/api/airports")
  = (200, 200, 404, 200).
Proof. vm_compute. reflexivity. Qed.
